(** * Emerald Finance: the finance-snapshot aggregation pipeline

    A shallow embedding of the pure aggregation core of the application:

    - [lib/finance/types.ts]             (module [Types])
    - [lib/finance/currency.ts]          (module [Currency])
    - [lib/finance/from-transactions.ts] (module [FromTransactions])
    - [lib/ai/finance.ts], [buildSpendingSummary] (module [Finance])
    - [lib/ai/evaluations.ts]            (module [Evaluations])
    - [lib/ai/finance.ts], the history window (module [SnapshotFetch])
    - [lib/finance/rng.ts]               (module [Rng])
    - [lib/finance/demo-dashboard.ts]    (module [DemoDashboard])
    - [lib/ai/orchestrator.ts]           (module [Orchestrator])
    - [lib/server/env.ts]                (module [Env])

    Modelling conventions.

    - A JavaScript [number] has two readings, and the sources that compute
      with numbers are embedded once over each.
      Modules [JS], [Types], [FromTransactions], [Finance] and [Evaluations]
      read it as an exact rational ([Q]), compared with [==]; rounding error,
      overflow, [NaN] and the sign of zero are outside this reading, which
      serves the properties that do not depend on them.
      Modules [F64], [Types64], [FromTransactions64], [Finance64] and
      [Evaluations64] read it as an IEEE 754 binary64 value (a primitive
      [float]): every [+], [-], [*], [/] and comparison of the source is the
      binary64 operation, in the source's order of evaluation, with [NaN],
      the infinities and the two zeros; [Math.round], [Math.floor],
      [Math.max] and [Math.min] are defined on the value's sign, mantissa and
      exponent.  The statements that depend on the exact value of a sum,
      a ratio or a rounding are made over this reading.
    - A [Date] is its epoch time in milliseconds, an integer ([Z]); invalid
      dates are outside the model.  The time of a valid date is at most
      8.64e15 in magnitude, so it and the differences the code takes of two
      of them are below 2^53 and enter the binary64 arithmetic exactly.
    - A string is a [string] of 8-bit characters; [toUpperCase] and [trim]
      act on the ASCII range, and a statement whose truth depends on the
      characters outside it is made for ASCII strings ([Props.is_ascii]).
    - A [Map] is an association list kept in insertion order, as
      the iteration order of a JavaScript [Map] is.
    - [Array.prototype.sort] is stable; it is modelled by a stable insertion
      sort driven by the sign of the comparator. *)

From Stdlib Require Import ZArith QArith Qround Qabs Lqa Lia.
From Stdlib Require Import List String Ascii Bool Permutation Sorted DecimalString.
From Stdlib Require Import Qpower.
From Stdlib Require Floats.
Set Warnings "-inexact-float".
Import ListNotations.

Open Scope Q_scope.

(* ================================================================== *)
(** * JavaScript primitives used by the sources *)
(* ================================================================== *)

Module JS.

Definition number := Q.

(** Epoch milliseconds. *)
Definition Date := Z.

(** [a < b], [a >= b], [a > b], [a === b], [a !== b] on numbers. *)
Definition ltb (a b : number) : bool := negb (Qle_bool b a).
Definition geb (a b : number) : bool := Qle_bool b a.
Definition gtb (a b : number) : bool := negb (Qle_bool a b).
Definition eqb (a b : number) : bool := Qeq_bool a b.
Definition neqb (a b : number) : bool := negb (Qeq_bool a b).

Definition Math_max (a b : number) : number := if Qle_bool a b then b else a.
Definition Math_min (a b : number) : number := if Qle_bool a b then a else b.
Definition Math_floor (x : number) : number := inject_Z (Qfloor x).
(** [Math.round] rounds to the nearest integer, halves towards +infinity. *)
Definition Math_round (x : number) : number := inject_Z (Qfloor (x + (1 # 2))).
Definition Math_abs (x : number) : number := Qabs x.

(** [a ?? b] *)
Definition nullish {A : Type} (a : option A) (b : A) : A :=
  match a with Some x => x | None => b end.

(** [a ?? b] where [b] may itself be absent. *)
Definition nullish_opt {A : Type} (a b : option A) : option A :=
  match a with Some x => Some x | None => b end.

(** ** Strings *)

Definition isWhiteSpace (c : ascii) : bool :=
  let n := nat_of_ascii c in
  ((9 <=? n)%nat && (n <=? 13)%nat) || (n =? 32)%nat.

Fixpoint trimStart (s : string) : string :=
  match s with
  | EmptyString => EmptyString
  | String c s' => if isWhiteSpace c then trimStart s' else s
  end.

Fixpoint trimEnd (s : string) : string :=
  match s with
  | EmptyString => EmptyString
  | String c s' =>
      match trimEnd s' with
      | EmptyString => if isWhiteSpace c then EmptyString else String c EmptyString
      | r => String c r
      end
  end.

Definition trim (s : string) : string := trimEnd (trimStart s).

Definition isLower (c : ascii) : bool :=
  let n := nat_of_ascii c in (97 <=? n)%nat && (n <=? 122)%nat.

Definition isUpper (c : ascii) : bool :=
  let n := nat_of_ascii c in (65 <=? n)%nat && (n <=? 90)%nat.

Definition toUpperChar (c : ascii) : ascii :=
  if isLower c then ascii_of_nat (nat_of_ascii c - 32) else c.

Fixpoint toUpperCase (s : string) : string :=
  match s with
  | EmptyString => EmptyString
  | String c s' => String (toUpperChar c) (toUpperCase s')
  end.

(** [s.includes(pat)] *)
Fixpoint includes (s pat : string) : bool :=
  if prefix pat s then true
  else match s with
       | EmptyString => false
       | String _ s' => includes s' pat
       end.

(** A string in a boolean position: the empty string is falsy. *)
Definition truthy (s : string) : bool :=
  match s with EmptyString => false | _ => true end.

(** [s || d] on strings. *)
Definition or_else (s d : string) : string := if truthy s then s else d.

(** The decimal rendering of an integer, as a template literal prints an
    integer-valued number. *)
Definition intToString (z : Z) : string := NilZero.string_of_int (Z.to_int z).

(** [`${n}`] for an integer-valued number [n] (every number printed by the
    modelled code has been rounded first). *)
Definition numToString (n : number) : string := intToString (Qfloor n).

(** ** Arrays *)

(** [Array(len).fill(v)] *)
Definition Array_fill {A : Type} (len : nat) (v : A) : list A := repeat v len.

(** [arr.slice(0, n)] *)
Definition slice0 {A : Type} (n : nat) (arr : list A) : list A := firstn n arr.

(** [Array.from({ length: len }, (_, i) => f i)] *)
Definition Array_from {A : Type} (len : nat) (f : nat -> A) : list A :=
  map f (seq 0 len).

(** [arr[idx] += v] for [idx] inside the array.  Every call site clamps the
    index into the array first, so the out-of-range behaviour of JavaScript
    (the array grows) is never reached; here such a write leaves the array
    as it is. *)
Fixpoint add_at (arr : list number) (idx : nat) (v : number) : list number :=
  match arr, idx with
  | [], _ => []
  | x :: rest, O => (x + v) :: rest
  | x :: rest, S i => x :: add_at rest i v
  end.

(** The array index denoted by an integer-valued, non-negative number. *)
Definition toIndex (n : number) : nat := Z.to_nat (Qfloor n).

(** [arr.reduce((a, b) => a + b, 0)] *)
Definition sum (arr : list number) : number := fold_left Qplus arr 0.

(** [arr.some(p)] *)
Definition some {A : Type} (p : A -> bool) (arr : list A) : bool := existsb p arr.

(** ** Stable sort

    [after x y] is [cmp(x, y) > 0]: the comparator asks for [x] to be placed
    after [y].  [insert x l] puts [x], which preceded every element of [l]
    in the input, in front of the first element it need not follow. *)
Section Sort.
Context {A : Type} (after : A -> A -> bool).

Fixpoint insert (x : A) (l : list A) : list A :=
  match l with
  | [] => [x]
  | y :: l' => if after x y then y :: insert x l' else x :: l
  end.

Definition sort (l : list A) : list A := fold_right insert [] l.
End Sort.

(** ** Insertion-ordered [Map<string, V>] *)
Section Map.
Context {V : Type}.

Definition Map := list (string * V).

Definition Map_new : Map := [].

Fixpoint Map_get (m : Map) (k : string) : option V :=
  match m with
  | [] => None
  | (k', v) :: m' => if String.eqb k k' then Some v else Map_get m' k
  end.

(** [m.set(k, v)]: an existing key keeps its position, a new key goes
    to the end. *)
Fixpoint Map_set (m : Map) (k : string) (v : V) : Map :=
  match m with
  | [] => [(k, v)]
  | (k', v') :: m' =>
      if String.eqb k k' then (k', v) :: m' else (k', v') :: Map_set m' k v
  end.

(** [[...m.entries()]] *)
Definition Map_entries (m : Map) : list (string * V) := m.
End Map.
Arguments Map V : clear implicits.

End JS.

(* ================================================================== *)
(** * lib/finance/types.ts *)
(* ================================================================== *)

Module Types.
Import JS.

Inductive FinancePeriod := P_1W | P_1M | P_3M | P_1Y | P_ALL.

Inductive SpendingCategory := Essentials | Leisure | Subscriptions.

Record SpendingSeries := mkSpendingSeries {
  total : list number;
  essentials : list number;
  leisure : list number;
  subscriptions : list number
}.

(** [dateISO] holds the instant that [toISOString] renders; the rendering
    itself is not modelled. *)
Record DemoTransaction := mkDemoTransaction {
  dt_id : string;
  dt_dateISO : Date;
  dt_name : string;
  dt_meta : string;
  dt_amount : number;
  dt_category : option SpendingCategory
}.

Record DashboardKpis := mkDashboardKpis {
  currentBalance : number;
  currentBalanceTrendPct : number;
  monthlySpend : number;
  monthlySpendTrendPct : number;
  savingsRate : number;
  savingsRateTrendPctPoints : number;
  upcomingBills : number;
  upcomingBillsDueInDays : number
}.

Record DashboardSnapshot := mkDashboardSnapshot {
  period : FinancePeriod;
  currencyCode : option string;
  labels : list string;
  series : SpendingSeries;
  points : list number;
  kpis : DashboardKpis;
  recentTransactions : list DemoTransaction
}.

End Types.

(* ================================================================== *)
(** * lib/finance/currency.ts *)
(* ================================================================== *)

Module Currency.
Import JS.

(** The test [/^[A-Z]{3}$/]. *)
Definition isIso3 (c : string) : bool :=
  match c with
  | String x (String y (String z EmptyString)) => isUpper x && isUpper y && isUpper z
  | _ => false
  end.

Definition normalizeCurrencyCode (code : option string) : option string :=
  let c := toUpperCase (trim (nullish code EmptyString)) in
  if negb (isIso3 c) then None else Some c.

Section Infer.
(** The accounts are any records with an optional [currencyCode] field. *)
Context {Account : Type} (currencyCode : Account -> option string).

(** Body of the first loop: count one account. *)
Definition countAccount (counts : Map nat) (a : Account) : Map nat :=
  match normalizeCurrencyCode (currencyCode a) with
  | None => counts
  | Some code =>
      if negb (truthy code) then counts
      else Map_set counts code (nullish (Map_get counts code) 0 + 1)%nat
  end.

(** Body of the second loop: keep the first strictly larger count. *)
Definition pickBest (st : option string * nat) (e : string * nat) : option string * nat :=
  let '(best, bestCount) := st in
  let '(code, count) := e in
  if (bestCount <? count)%nat then (Some code, count) else (best, bestCount).

Definition inferCurrencyCodeFromAccounts
    (accounts : list Account) (fallback : option string) : option string :=
  let counts := fold_left countAccount accounts Map_new in
  let '(best, _) := fold_left pickBest (Map_entries counts) (None, 0%nat) in
  let fb := normalizeCurrencyCode fallback in
  nullish_opt best fb.
End Infer.

End Currency.

(* ================================================================== *)
(** * lib/finance/from-transactions.ts *)
(* ================================================================== *)

Module FromTransactions.
Import JS Types.

Record TxLike := mkTxLike {
  tx_id : string;
  tx_date : Date;
  tx_name : string;
  tx_meta : option string;
  tx_amount : number; (* positive=income, negative=expense *)
  tx_category : option string
}.

Record AccountLike := mkAccountLike {
  acc_currentBalance : option number;
  acc_availableBalance : option number;
  acc_currencyCode : option string
}.

Inductive LabelStyle := dow | week | month | point.

Record BucketConfig := mkBucketConfig {
  len : nat;
  labelStyle : LabelStyle;
  windowDays : Z
}.

Definition getBucketConfig (period : FinancePeriod) : BucketConfig :=
  match period with
  | P_1W => mkBucketConfig 7 dow 7
  | P_1M => mkBucketConfig 12 week 30
  | P_3M => mkBucketConfig 18 week 90
  | P_1Y => mkBucketConfig 12 month 365
  | P_ALL => mkBucketConfig 22 point 730
  end.

Definition getLabels (period : FinancePeriod) (len : nat) : list string :=
  match period with
  | P_1W =>
      let days := ["Mon"; "Tue"; "Wed"; "Thu"; "Fri"; "Sat"; "Sun"]%string in
      slice0 len days
  | P_1M | P_3M =>
      Array_from len (fun i => ("W" ++ intToString (Z.of_nat i + 1))%string)
  | P_1Y =>
      let months := ["Jan"; "Feb"; "Mar"; "Apr"; "May"; "Jun";
                     "Jul"; "Aug"; "Sep"; "Oct"; "Nov"; "Dec"]%string in
      slice0 len months
  | P_ALL =>
      Array_from len (fun i => ("P" ++ intToString (Z.of_nat i + 1))%string)
  end.

Definition clamp (n min max : number) : number :=
  Math_max min (Math_min max n).

Definition mapCategory (raw : option string) : SpendingCategory :=
  let s := toUpperCase (nullish raw EmptyString) in
  if includes s "SUBSCRIPT" || includes s "SERVICE" || includes s "STREAM"
  then Subscriptions
  else if includes s "ENTERTAIN" || includes s "TRAVEL"
          || includes s "TRANSPORT" || includes s "RECREATION"
  then Leisure
  else Essentials.

Definition sum (arr : list number) : number := JS.sum arr.

Record Range := mkRange { income : number; spend : number }.

(** Body of the loop of [sumRange]. *)
Definition sumRange_step (start end_ : Date) (st : Range) (t : TxLike) : Range :=
  if (tx_date t <? start)%Z || (tx_date t >=? end_)%Z then st
  else if geb (tx_amount t) 0
       then mkRange (income st + tx_amount t) (spend st)
       else mkRange (income st) (spend st + - tx_amount t).

Definition sumRange (transactions : list TxLike) (start end_ : Date) : Range :=
  fold_left (sumRange_step start end_) transactions (mkRange 0 0).

Definition buildZeroDashboardSnapshot (period : FinancePeriod) : DashboardSnapshot :=
  let cfg := getBucketConfig period in
  let labels := getLabels period (len cfg) in
  let zerosTotal := Array_fill (len cfg) 0 in
  let zerosEssentials := Array_fill (len cfg) 0 in
  let zerosLeisure := Array_fill (len cfg) 0 in
  let zerosSubscriptions := Array_fill (len cfg) 0 in
  let series := mkSpendingSeries zerosTotal zerosEssentials zerosLeisure zerosSubscriptions in
  {| period := period;
     currencyCode := None;
     labels := labels;
     series := series;
     points := total series;
     kpis := {| currentBalance := 0;
                currentBalanceTrendPct := 0;
                monthlySpend := 0;
                monthlySpendTrendPct := 0;
                savingsRate := 0;
                savingsRateTrendPctPoints := 0;
                upcomingBills := 0;
                upcomingBillsDueInDays := 0 |};
     recentTransactions := [] |}.

Record Args := mkArgs {
  arg_period : FinancePeriod;
  arg_accounts : list AccountLike;
  arg_transactions : list TxLike;
  arg_now : option Date
}.

Definition msPerDay : Z := 24 * 60 * 60 * 1000.

(** The chart window of a call: [startMs], [endMs] and [segmentMs]. *)
Definition startMs (cfg : BucketConfig) (endMs : Z) : Z :=
  (endMs - windowDays cfg * msPerDay)%Z.

Definition segmentMs (cfg : BucketConfig) (endMs : Z) : number :=
  inject_Z (endMs - startMs cfg endMs) / inject_Z (Z.of_nat (len cfg)).

(** [clamp(Math.floor((ts - startMs) / segmentMs), 0, cfg.len - 1)] *)
Definition bucketIdx (cfg : BucketConfig) (endMs ts : Z) : number :=
  clamp (Math_floor (inject_Z (ts - startMs cfg endMs) / segmentMs cfg endMs))
        0 (inject_Z (Z.of_nat (len cfg)) - 1).

(** The four accumulator arrays of the chart loop. *)
Record Buckets := mkBuckets {
  b_total : list number;
  b_essentials : list number;
  b_leisure : list number;
  b_subscriptions : list number
}.

(** Body of the chart loop. *)
Definition chart_step (cfg : BucketConfig) (endMs : Z) (b : Buckets) (t : TxLike) : Buckets :=
  if geb (tx_amount t) 0 then b (* only spending for the chart *)
  else
    let ts := tx_date t in
    if (ts <? startMs cfg endMs)%Z || (ts >=? endMs)%Z then b
    else
      let idx := toIndex (bucketIdx cfg endMs ts) in
      let spendValue := - tx_amount t in
      let total := add_at (b_total b) idx spendValue in
      match mapCategory (tx_category t) with
      | Essentials =>
          mkBuckets total (add_at (b_essentials b) idx spendValue)
                    (b_leisure b) (b_subscriptions b)
      | Leisure =>
          mkBuckets total (b_essentials b)
                    (add_at (b_leisure b) idx spendValue) (b_subscriptions b)
      | Subscriptions =>
          mkBuckets total (b_essentials b) (b_leisure b)
                    (add_at (b_subscriptions b) idx spendValue)
      end.

Definition chart_loop (cfg : BucketConfig) (endMs : Z) (transactions : list TxLike) : Buckets :=
  fold_left (chart_step cfg endMs) transactions
    (mkBuckets (Array_fill (len cfg) 0) (Array_fill (len cfg) 0)
               (Array_fill (len cfg) 0) (Array_fill (len cfg) 0)).

Definition toDemoTransaction (t : TxLike) : DemoTransaction :=
  {| dt_id := tx_id t;
     dt_dateISO := tx_date t;
     dt_name := tx_name t;
     dt_meta := nullish (nullish_opt (tx_meta t) (tx_category t)) "Bank"%string;
     dt_amount := tx_amount t;
     dt_category := if ltb (tx_amount t) 0 then Some (mapCategory (tx_category t)) else None |}.

(** [clock] is the reading of [new Date()], used when [args.now] is absent. *)
Definition buildDashboardSnapshotFromTransactions (clock : Date) (args : Args)
    : DashboardSnapshot :=
  let now := nullish (arg_now args) clock in
  let cfg := getBucketConfig (arg_period args) in
  let labels := getLabels (arg_period args) (len cfg) in
  let endMs := now in
  let b := chart_loop cfg endMs (arg_transactions args) in
  let series :=
    mkSpendingSeries (map Math_round (b_total b)) (map Math_round (b_essentials b))
                     (map Math_round (b_leisure b)) (map Math_round (b_subscriptions b)) in
  let points := total series in
  let currencyCode :=
    Currency.inferCurrencyCodeFromAccounts acc_currencyCode (arg_accounts args) None in
  let currentBalance :=
    fold_left (fun acc a => acc + nullish (acc_currentBalance a) 0) (arg_accounts args) 0 in
  (* KPI windows *)
  let d30 := (30 * msPerDay)%Z in
  let end_ := now in
  let start30 := (end_ - d30)%Z in
  let start60 := (end_ - 2 * d30)%Z in
  let this30 := sumRange (arg_transactions args) start30 end_ in
  let prev30 := sumRange (arg_transactions args) start60 start30 in
  let monthlySpend := spend this30 in
  let monthlySpendTrendPct :=
    if eqb (spend prev30) 0 then 0 else (spend this30 - spend prev30) / spend prev30 in
  let savingsRate :=
    if eqb (income this30) 0 then 0
    else clamp ((income this30 - spend this30) / income this30) 0 (95 # 100) in
  let prevSavingsRate :=
    if eqb (income prev30) 0 then 0
    else clamp ((income prev30 - spend prev30) / income prev30) 0 (95 # 100) in
  let savingsRateTrendPctPoints := (savingsRate - prevSavingsRate) * 100 in
  (* Balance trend: approximate via 7-day net delta *)
  let d7 := (7 * msPerDay)%Z in
  let net7 :=
    fold_left (fun acc t => acc + tx_amount t)
      (filter (fun t => (tx_date t >=? end_ - d7)%Z) (arg_transactions args)) 0 in
  let priorBalance := currentBalance - net7 in
  let currentBalanceTrendPct :=
    if eqb priorBalance 0 then 0
    else (currentBalance - priorBalance) / Math_abs priorBalance in
  let upcomingBills := sum (subscriptions series) / 2 in
  let upcomingBillsDueInDays := 7 in
  let recentTransactions :=
    slice0 4 (map toDemoTransaction
      (slice0 6 (sort (fun a b => (0 <? tx_date b - tx_date a)%Z) (arg_transactions args)))) in
  {| period := arg_period args;
     currencyCode := currencyCode;
     labels := labels;
     series := series;
     points := points;
     kpis := {| currentBalance := currentBalance;
                currentBalanceTrendPct := clamp currentBalanceTrendPct (- (1 # 2)) (1 # 2);
                monthlySpend := monthlySpend;
                monthlySpendTrendPct := clamp monthlySpendTrendPct (- (9 # 10)) (9 # 10);
                savingsRate := savingsRate;
                savingsRateTrendPctPoints := clamp savingsRateTrendPctPoints (- (50)) 50;
                upcomingBills := upcomingBills;
                upcomingBillsDueInDays := upcomingBillsDueInDays |};
     recentTransactions := recentTransactions |}.

End FromTransactions.

(* ================================================================== *)
(** * lib/ai/finance.ts: [buildSpendingSummary] *)
(* ================================================================== *)

Module Finance.
Import JS.

Record Tx := mkTx {
  t_amount : number;
  t_category : option string
}.

Record CategoryAmount := mkCategoryAmount {
  category : string;
  amount : number
}.

Record Summary := mkSummary {
  income : number;
  spend : number;
  net : number;
  topCategories : list CategoryAmount
}.

(** The key under which an expense is accumulated:
    [(t.category ?? "Uncategorized").trim() || "Uncategorized"]. *)
Definition categoryKey (t : Tx) : string :=
  or_else (trim (nullish (t_category t) "Uncategorized"%string)) "Uncategorized".

(** The loop state: [income], [spend] and [spendByCategory]. *)
Record Acc := mkAcc {
  a_income : number;
  a_spend : number;
  a_spendByCategory : Map number
}.

(** Body of the loop. *)
Definition summary_step (st : Acc) (t : Tx) : Acc :=
  if geb (t_amount t) 0 then
    mkAcc (a_income st + t_amount t) (a_spend st) (a_spendByCategory st)
  else
    let spendValue := - t_amount t in
    let category := categoryKey t in
    mkAcc (a_income st) (a_spend st + spendValue)
          (Map_set (a_spendByCategory st) category
             (nullish (Map_get (a_spendByCategory st) category) 0 + spendValue)).

(** The comparator [(a, b) => b[1] - a[1]], as "is positive". *)
Definition byAmountDesc (a b : string * number) : bool := gtb (snd b - snd a) 0.

Definition buildSpendingSummary (transactions : list Tx) : Summary :=
  let st := fold_left summary_step transactions (mkAcc 0 0 Map_new) in
  let topCategories :=
    map (fun e : string * number => mkCategoryAmount (fst e) (snd e))
        (slice0 8 (sort byAmountDesc (Map_entries (a_spendByCategory st)))) in
  let net := a_income st - a_spend st in
  mkSummary (a_income st) (a_spend st) net topCategories.

End Finance.

(* ================================================================== *)
(** * lib/ai/evaluations.ts *)
(* ================================================================== *)

Module Evaluations.
Import JS Types.

Record SpendingSummary := mkSpendingSummary {
  timeframe : string;
  income : number;
  spend : number;
  net : number;
  topCategories : list Finance.CategoryAmount
}.

Definition clamp (n min max : number) : number :=
  Math_max min (Math_min max n).

Definition pct (n : number) : number := Math_round (n * 100).

Inductive Status := ok | no_data.

Inductive Severity := info | warn | risk.

Record Insight := mkInsight {
  severity : Severity;
  title : string;
  detail : string
}.

Record NextAction := mkNextAction {
  label : string;
  route : string
}.

Record Metrics := mkMetrics {
  m_monthlySpend : number;
  m_monthlySpendTrendPct : number;
  m_currentBalance : number;
  m_currentBalanceTrendPct : number;
  m_savingsRate : number;
  m_upcomingBillsEstimate : number;
  m_categoryConcentrationTop1Pct : option number
}.

Record FinanceEvaluation := mkFinanceEvaluation {
  status : Status;
  score : option number; (* 0..100 *)
  summary : string;
  insights : list Insight;
  nextActions : list NextAction;
  metrics : Metrics
}.

Record Args := mkArgs {
  snapshot : DashboardSnapshot;
  spendingSummary : option SpendingSummary
}.

Definition hasAnyTx (s : DashboardSnapshot) : bool :=
  (0 <? List.length (recentTransactions s))%nat.

Definition hasAnySeries (s : DashboardSnapshot) : bool :=
  some (fun n => neqb n 0) (points s) || some (fun n => neqb n 0) (total (series s)).

Definition hasAnyKpiSignal (s : DashboardSnapshot) : bool :=
  neqb (currentBalance (kpis s)) 0
  || neqb (monthlySpend (kpis s)) 0
  || neqb (savingsRate (kpis s)) 0.

Definition noData (s : DashboardSnapshot) : bool :=
  negb (hasAnyTx s) && negb (hasAnySeries s) && negb (hasAnyKpiSignal s).

(** The value returned by the early exit. *)
Definition noDataEvaluation : FinanceEvaluation :=
  {| status := no_data;
     score := None;
     summary := "No finance data yet. Link a card and connect a bank account to see spending, trends, and insights.";
     insights :=
       [ {| severity := info;
            title := "Connect your accounts";
            detail := "Go to /banking to link a card (Stripe) and connect transaction history (Plaid)." |} ];
     nextActions :=
       [ {| label := "Connect a card and bank"; route := "/banking" |};
         {| label := "View dashboard"; route := "/dashboard" |} ];
     metrics :=
       {| m_monthlySpend := 0;
          m_monthlySpendTrendPct := 0;
          m_currentBalance := 0;
          m_currentBalanceTrendPct := 0;
          m_savingsRate := 0;
          m_upcomingBillsEstimate := 0;
          m_categoryConcentrationTop1Pct := None |} |}.

(** Category concentration (top category share of spending). *)
Definition top1ShareOf (ss : option SpendingSummary) : option number :=
  match ss with
  | Some sm =>
      if gtb (spend sm) 0 && (0 <? List.length (topCategories sm))%nat then
        match topCategories sm with
        | top1 :: _ => Some (clamp (Finance.amount top1 / spend sm) 0 1)
        | [] => None
        end
      else None
  | None => None
  end.

(** Simple score heuristic (0..100). *)
Definition scoreOf (savingsRate spendTrend balanceTrend : number)
    (top1Share : option number) : number :=
  let score := 50 in
  let score := score + clamp ((savingsRate - (2 # 10)) * 120) (- (30)) 40 in
  let score := score + clamp ((- spendTrend) * 25) (- (15)) 15 in
  let score := score + clamp (balanceTrend * 20) (- (10)) 10 in
  let score :=
    match top1Share with
    | Some sh => score - clamp ((sh - (35 # 100)) * 40) 0 12
    | None => score
    end in
  Math_round (clamp score 0 100).

(** The four insight rules, each contributing the insights it pushes.
    The numbers embedded in the texts are printed as integers, which they are
    whenever they have been rounded. *)
Definition incomeInsight (savingsRate : number) (ss : option SpendingSummary) : list Insight :=
  if eqb savingsRate 0
     && match ss with Some sm => eqb (income sm) 0 | None => false end
     && match ss with Some sm => gtb (spend sm) 0 | None => false end
  then [ {| severity := warn;
            title := "Income not detected";
            detail := "Your connected data shows spending but no income in this timeframe. If you only connected credit accounts, income may not appear." |} ]
  else [].

Definition trendInsight (spendTrend : number) : list Insight :=
  if gtb spendTrend (15 # 100) then
    [ {| severity := risk;
         title := "Spending is trending up";
         detail := "Spending is up about " ++ numToString (pct spendTrend)
                   ++ "% vs the previous period. Consider reviewing top categories and recurring charges." |} ]
  else if ltb spendTrend (- (15 # 100)) then
    [ {| severity := info;
         title := "Spending is trending down";
         detail := "Nice — spending is down about " ++ numToString (pct (- spendTrend))
                   ++ "% vs the previous period." |} ]
  else [].

Definition billsInsight (k : DashboardKpis) : list Insight :=
  if gtb (upcomingBills k) 0 then
    [ {| severity := info;
         title := "Upcoming bills estimate";
         detail := "Estimated upcoming bills: " ++ numToString (Math_round (upcomingBills k))
                   ++ " due in ~" ++ numToString (upcomingBillsDueInDays k) ++ " days." |} ]
  else [].

Definition concentrationInsight (top1Share : option number) (ss : option SpendingSummary)
    : list Insight :=
  match top1Share, ss with
  | Some sh, Some sm =>
      if gtb sh (1 # 2) then
        match topCategories sm with
        | top1 :: _ =>
            [ {| severity := warn;
                 title := "Spending is concentrated";
                 detail := "Top category (" ++ Finance.category top1 ++ ") is ~"
                           ++ numToString (pct sh) ++ "% of spend in this timeframe." |} ]
        | [] => []
        end
      else []
  | _, _ => []
  end.

Definition buildFinanceEvaluation (args : Args) : FinanceEvaluation :=
  let s := snapshot args in
  if noData s then noDataEvaluation
  else
    let monthlySpend := monthlySpend (kpis s) in
    let savingsRate := savingsRate (kpis s) in
    let spendTrend := monthlySpendTrendPct (kpis s) in
    let balanceTrend := currentBalanceTrendPct (kpis s) in
    let top1Share := top1ShareOf (spendingSummary args) in
    let score := scoreOf savingsRate spendTrend balanceTrend top1Share in
    let insights :=
      incomeInsight savingsRate (spendingSummary args)
      ++ trendInsight spendTrend
      ++ billsInsight (kpis s)
      ++ concentrationInsight top1Share (spendingSummary args) in
    let summaryParts :=
      [ ("Health score: " ++ numToString score ++ "/100.")%string;
        ("Monthly spend: " ++ numToString (Math_round monthlySpend) ++ ".")%string;
        ("Savings rate: " ++ numToString (pct savingsRate) ++ "%.")%string ]
      ++ match top1Share with
         | Some sh => [ ("Top category share: " ++ numToString (pct sh) ++ "%.")%string ]
         | None => []
         end in
    {| status := ok;
       score := Some score;
       summary := String.concat " " summaryParts;
       insights := insights;
       nextActions :=
         [ {| label := "View dashboard"; route := "/dashboard" |};
           {| label := "Manage connections"; route := "/banking" |} ];
       metrics :=
         {| m_monthlySpend := monthlySpend;
            m_monthlySpendTrendPct := spendTrend;
            m_currentBalance := currentBalance (kpis s);
            m_currentBalanceTrendPct := balanceTrend;
            m_savingsRate := savingsRate;
            m_upcomingBillsEstimate := upcomingBills (kpis s);
            m_categoryConcentrationTop1Pct := top1Share |} |}.

End Evaluations.

(* ================================================================== *)
(** * lib/ai/finance.ts: the history window of [getFinanceSnapshotForUser] *)
(* ================================================================== *)

Module SnapshotFetch.
Import JS Types.

(** [period === "ALL" ? 730 : period === "1Y" ? 365 : period === "3M" ? 120 : 90] *)
Definition maxDays (period : FinancePeriod) : Z :=
  match period with
  | P_ALL => 730
  | P_1Y => 365
  | P_3M => 120
  | _ => 90
  end.

(** [new Date(now.getTime() - maxDays * 24 * 60 * 60 * 1000)] *)
Definition from (now : Date) (period : FinancePeriod) : Date :=
  (now - maxDays period * 24 * 60 * 60 * 1000)%Z.

(** The condition [date: { gte: from }] of the transaction query. *)
Definition inHistory (now : Date) (period : FinancePeriod)
    (t : FromTransactions.TxLike) : bool :=
  (from now period <=? FromTransactions.tx_date t)%Z.

End SnapshotFetch.

(* ================================================================== *)
(** * lib/finance/rng.ts *)
(* ================================================================== *)

Module Rng.
Import JS.

(** ** 32-bit integer operators

    A bitwise operator first brings each operand into the signed 32-bit range
    ([ToInt32]); [>>>] brings its left operand into the unsigned range
    ([ToUint32]).  Integers are [Z]; [Z.lxor] and [Z.lor] see a negative
    number in two's complement, as the operators do. *)

Definition two32 : Z := 4294967296.

Definition toInt32 (z : Z) : Z := ((z + 2147483648) mod two32 - 2147483648)%Z.

Definition toUint32 (z : Z) : Z := (z mod two32)%Z.

(** [a ^ b] *)
Definition xor (a b : Z) : Z := Z.lxor (toInt32 a) (toInt32 b).

(** [a | b] *)
Definition or (a b : Z) : Z := Z.lor (toInt32 a) (toInt32 b).

(** [a >>> n], for [0 <= n < 32] *)
Definition shru (a n : Z) : Z := Z.shiftr (toUint32 a) n.

(** [Math.imul(a, b)] *)
Definition imul (a b : Z) : Z := toInt32 (toInt32 a * toInt32 b).

(** [input.charCodeAt(i)], for the 8-bit characters of the model. *)
Definition charCode (c : ascii) : Z := Z.of_nat (nat_of_ascii c).

(** The loop of [hashStringToUint32] (FNV-1a 32-bit) from the character at
    hand onwards. *)
Fixpoint hashLoop (input : string) (hash : Z) : Z :=
  match input with
  | EmptyString => hash
  | String c rest => hashLoop rest (imul (xor hash (charCode c)) 16777619)
  end.

Definition hashStringToUint32 (input : string) : Z :=
  shru (hashLoop input 2166136261) 0.

(** The state created by [createRng(seed)]: [hashStringToUint32(seed) || 1]. *)
Definition createRng (seed : string) : Z :=
  let h := hashStringToUint32 seed in
  if (h =? 0)%Z then 1%Z else h.

(** [next()] (Mulberry32): the number returned and the new state. *)
Definition next (state : Z) : number * Z :=
  let state := or state 0 in
  let state := or (state + 1831565813) 0 in
  let t := imul (xor state (shru state 15)) (or 1 state) in
  let t := xor (t + imul (xor t (shru t 7)) (or 61 t)) t in
  (inject_Z (shru (xor t (shru t 14)) 0) / inject_Z two32, state).

(** [int(minInclusive, maxInclusive)] *)
Definition int (state : Z) (minInclusive maxInclusive : number) : number * Z :=
  let '(r, state) := next state in
  (Math_floor (r * (maxInclusive - minInclusive + 1)) + minInclusive, state).

(** [float(minInclusive, maxInclusive)] *)
Definition float (state : Z) (minInclusive maxInclusive : number) : number * Z :=
  let '(r, state) := next state in
  (r * (maxInclusive - minInclusive) + minInclusive, state).

(** [pick(arr)]: [arr[int(0, arr.length - 1)]], absent outside the array. *)
Definition pick {T : Type} (state : Z) (arr : list T) : option T * Z :=
  let '(i, state) := int state 0 (inject_Z (Z.of_nat (List.length arr)) - 1) in
  (nth_error arr (toIndex i), state).

End Rng.

(* ================================================================== *)
(** * lib/finance/demo-dashboard.ts: [splitSpending] *)
(* ================================================================== *)

Module DemoDashboard.
Import JS.

Definition clamp (n min max : number) : number :=
  Math_max min (Math_min max n).

(** [idx % m] for a loop index. *)
Definition modulo (idx m : nat) : number := inject_Z (Z.of_nat (idx mod m)).

Record Split := mkSplit {
  essentials : number;
  leisure : number;
  subscriptions : number
}.

Definition essentialsRatio (idx : nat) : number :=
  clamp ((56 # 100) + (modulo idx 5 - 2) * (15 # 1000)) (45 # 100) (7 # 10).

Definition leisureRatio (idx : nat) : number :=
  clamp ((25 # 100) + (modulo idx 3 - 1) * (2 # 100)) (12 # 100) (35 # 100).

Definition subscriptionsRatio (idx : nat) : number :=
  clamp ((16 # 100) + (modulo idx 4 - 1) * (1 # 100)) (1 # 10) (25 # 100).

Definition splitSpending (total : number) (idx : nat) : Split :=
  (* normalize *)
  let sum := essentialsRatio idx + leisureRatio idx + subscriptionsRatio idx in
  let e := Math_round (total * (essentialsRatio idx / sum)) in
  let l := Math_round (total * (leisureRatio idx / sum)) in
  let s := Math_max 0 (total - e - l) in
  mkSplit e l s.

End DemoDashboard.

(* ================================================================== *)
(** * lib/ai/orchestrator.ts: reading the question *)
(* ================================================================== *)

Module Orchestrator.
Import JS Types.

Definition toLowerChar (c : ascii) : ascii :=
  if isUpper c then ascii_of_nat (nat_of_ascii c + 32) else c.

Fixpoint toLowerCase (s : string) : string :=
  match s with
  | EmptyString => EmptyString
  | String c s' => String (toLowerChar c) (toLowerCase s')
  end.

(** The values of [TimeframeSchema]. *)
Inductive Timeframe :=
  | PAST_7_DAYS | PAST_30_DAYS | PAST_90_DAYS | THIS_MONTH | LAST_MONTH | ALL_TIME.

Definition inferPeriodFromText (text : string) : FinancePeriod :=
  let t := toLowerCase text in
  if includes t "this week" || includes t "past week"
     || includes t "last 7" || includes t "7 days" then P_1W
  else if includes t "3 months" || includes t "past 3"
          || includes t "90 days" || includes t "quarter" then P_3M
  else if includes t "this year" || includes t "past year"
          || includes t "12 months" || includes t "365" then P_1Y
  else if includes t "all time" || includes t "lifetime" then P_ALL
  else P_1M.

Definition inferTimeframeFromText (text : string) : Timeframe :=
  let t := toLowerCase text in
  if includes t "this month" then THIS_MONTH
  else if includes t "last month" || includes t "previous month" then LAST_MONTH
  else if includes t "past 7" || includes t "last 7"
          || includes t "7 days" || includes t "this week" then PAST_7_DAYS
  else if includes t "past 90" || includes t "90 days"
          || includes t "3 months" || includes t "quarter" then PAST_90_DAYS
  else if includes t "all time" || includes t "lifetime" then ALL_TIME
  else PAST_30_DAYS.

Definition looksLikeFinanceQuestion (text : string) : bool :=
  let t := toLowerCase text in
  includes t "spend"
  || includes t "spent"
  || includes t "transaction"
  || includes t "balance"
  || includes t "income"
  || includes t "savings"
  || includes t "bill"
  || includes t "subscription"
  || includes t "budget".

End Orchestrator.

(* ================================================================== *)
(** * lib/server/env.ts: the Plaid configuration *)
(* ================================================================== *)

Module Env.
Import JS.

Inductive PlaidEnvName := sandbox | development | production.

(** The parsed environment, as [getServerEnv] returns it; the parsing of
    [process.env] itself is not modelled. *)
Record ServerEnv := mkServerEnv {
  DATABASE_URL : string;
  BANK_TOKEN_ENCRYPTION_KEY : option string;
  PLAID_CLIENT_ID : option string;
  PLAID_SECRET : option string;
  PLAID_ENV : PlaidEnvName;
  PLAID_REDIRECT_URI : option string;
  PLAID_WEBHOOK_URL : option string
}.

(** What [requirePlaidEnv] returns. *)
Record PlaidEnv := mkPlaidEnv {
  r_PLAID_CLIENT_ID : string;
  r_PLAID_SECRET : string;
  r_PLAID_ENV : PlaidEnvName;
  r_BANK_TOKEN_ENCRYPTION_KEY : string;
  r_PLAID_REDIRECT_URI : option string;
  r_PLAID_WEBHOOK_URL : option string
}.

(** A returned value, or the message of the [Error] thrown. *)
Inductive Result (A : Type) :=
  | Ok (a : A)
  | Throw (message : string).
Arguments Ok {A} a.
Arguments Throw {A} message.

(** An optional string in a boolean position: absent and empty are falsy. *)
Definition present (s : option string) : bool :=
  match s with
  | Some x => truthy x
  | None => false
  end.

Definition isPlaidConfigured (env : ServerEnv) : bool :=
  present (PLAID_CLIENT_ID env) && present (PLAID_SECRET env)
  && present (BANK_TOKEN_ENCRYPTION_KEY env).

(** Past the two checks the three secrets are present, and the record
    returned holds them. *)
Definition requirePlaidEnv (env : ServerEnv) : Result PlaidEnv :=
  if negb (present (PLAID_CLIENT_ID env)) || negb (present (PLAID_SECRET env)) then
    Throw "Plaid is not configured. Set PLAID_CLIENT_ID and PLAID_SECRET (and BANK_TOKEN_ENCRYPTION_KEY) in .env.local to enable bank linking."
  else if negb (present (BANK_TOKEN_ENCRYPTION_KEY env)) then
    Throw "Plaid is not configured. Set BANK_TOKEN_ENCRYPTION_KEY (base64 32-byte key) in .env.local to enable bank linking."
  else
    Ok {| r_PLAID_CLIENT_ID := nullish (PLAID_CLIENT_ID env) EmptyString;
          r_PLAID_SECRET := nullish (PLAID_SECRET env) EmptyString;
          r_PLAID_ENV := PLAID_ENV env;
          r_BANK_TOKEN_ENCRYPTION_KEY := nullish (BANK_TOKEN_ENCRYPTION_KEY env) EmptyString;
          r_PLAID_REDIRECT_URI := PLAID_REDIRECT_URI env;
          r_PLAID_WEBHOOK_URL := PLAID_WEBHOOK_URL env |}.

Definition requireBankTokenEncryptionKey (env : ServerEnv) : Result string :=
  if negb (present (BANK_TOKEN_ENCRYPTION_KEY env)) then
    Throw "BANK_TOKEN_ENCRYPTION_KEY is required for bank connections. Set it in .env.local (base64 32-byte key)."
  else Ok (nullish (BANK_TOKEN_ENCRYPTION_KEY env) EmptyString).

End Env.

(* ================================================================== *)
(** * JavaScript numbers as IEEE 754 binary64 *)
(* ================================================================== *)

(** The second reading of [number]: the 64-bit floating-point numbers of the
    kernel, with rounding to nearest even, infinities, [NaN] and signed
    zeros.  [Prim2SF] gives the sign, mantissa and exponent of a number. *)
Module F64.
Import PrimFloat SpecFloat FloatOps.
Local Open Scope float_scope.

Definition number := float.

(** [a < b], [a >= b], [a > b], [a === b], [a !== b]. *)
Definition ltb (a b : number) : bool := a <? b.
Definition geb (a b : number) : bool := b <=? a.
Definition gtb (a b : number) : bool := b <? a.
Definition eqb (a b : number) : bool := a =? b.
Definition neqb (a b : number) : bool := negb (a =? b).

(** [Number.isNaN(a)] and [Number.isFinite(a)]. *)
Definition isNaN (a : number) : bool :=
  match Prim2SF a with
  | S754_nan => true
  | _ => false
  end.

Definition isFinite (a : number) : bool :=
  match Prim2SF a with
  | S754_zero _ | S754_finite _ _ _ => true
  | _ => false
  end.

(** [Math.max(a, b)] and [Math.min(a, b)]: [NaN] when an argument is [NaN];
    [+0] counts as larger than [-0]. *)
Definition Math_max (a b : number) : number :=
  if isNaN a || isNaN b then nan
  else if a <? b then b
  else if b <? a then a
  else if get_sign a then b else a.

Definition Math_min (a b : number) : number :=
  if isNaN a || isNaN b then nan
  else if a <? b then a
  else if b <? a then b
  else if get_sign a then a else b.

Definition Math_abs (x : number) : number := abs x.

(** The number nearest to an integer (the integer itself below [2^53]). *)
Definition of_Z (z : Z) : number := SF2Prim (binary_normalize prec emax z 0 false).

Definition of_nat (n : nat) : number := of_Z (Z.of_nat n).

(** The mantissa with its sign. *)
Definition signed (s : bool) (m : positive) : Z := if s then Zneg m else Zpos m.

(** [Math.floor(x)]: a number with a non-negative exponent is an integer
    already. *)
Definition Math_floor (x : number) : number :=
  match Prim2SF x with
  | S754_finite s m e =>
      if (0 <=? e)%Z then x
      else
        let k := (signed s m / 2 ^ (- e))%Z in
        if (k =? 0)%Z then zero else of_Z k
  | _ => x
  end.

(** [Math.round(x)]: the nearest integer, halves towards +infinity; a
    negative [x] that rounds to zero gives [-0]. *)
Definition Math_round (x : number) : number :=
  match Prim2SF x with
  | S754_finite s m e =>
      if (0 <=? e)%Z then x
      else
        let k := ((2 * signed s m + 2 ^ (- e)) / 2 ^ (1 - e))%Z in
        if (k =? 0)%Z then (if s then neg_zero else zero) else of_Z k
  | _ => x
  end.

(** The array index denoted by a number: a non-negative integer. *)
Definition toIndex (x : number) : option nat :=
  match Prim2SF x with
  | S754_zero _ => Some 0%nat
  | S754_finite false m e =>
      if (0 <=? e)%Z then Some (Z.to_nat (Zpos m * 2 ^ e))
      else if (Zpos m mod 2 ^ (- e) =? 0)%Z then Some (Z.to_nat (Zpos m / 2 ^ (- e)))
      else None
  | _ => None
  end.

(** ** Reading a number

    The numbers that are neither [NaN] nor infinite, and those among them
    that are not zero. *)
Definition SFfinite (x : spec_float) : Prop :=
  match x with
  | S754_zero _ | S754_finite _ _ _ => True
  | _ => False
  end.

Definition SFnonzero (x : spec_float) : Prop :=
  match x with
  | S754_finite _ _ _ => True
  | _ => False
  end.

(** A number of sign [s] that is not zero. *)
Definition SFsigned (s : bool) (x : spec_float) : Prop :=
  match x with
  | S754_finite s' _ _ | S754_infinity s' => s' = s
  | _ => False
  end.

(** The rational that a finite number is; zero for the others. *)
Definition SF2Q (x : spec_float) : Q :=
  match x with
  | S754_finite s m e => (inject_Z (signed s m) * 2 ^ e)%Q
  | _ => 0%Q
  end.

(** The place of a number on the line: its value, with the infinities
    beyond every finite number. *)
Definition SFrank (x : spec_float) : Q :=
  match x with
  | S754_infinity s => if s then (- inject_Z (2 ^ 1024))%Q else inject_Z (2 ^ 1024)
  | _ => SF2Q x
  end.

Definition valueOf (x : number) : Q := SF2Q (Prim2SF x).

Definition rank (x : number) : Q := SFrank (Prim2SF x).

(** The rational number that a finite number is. *)
Definition toQ (x : number) : option Q :=
  if isFinite x then Some (valueOf x) else None.

(** The mantissa and the exponent of a positive integer below [2^53]. *)
Definition mantissa_of (p : positive) : positive :=
  match (Zpos (digits2_pos p) - 53)%Z with
  | Zneg j => Pos.iter xO p j
  | _ => p
  end.

Definition exponent_of (p : positive) : Z := (Zpos (digits2_pos p) - 53)%Z.

Fixpoint add_nth (arr : list number) (i : nat) (v : number) : list number :=
  match arr, i with
  | [], _ => []
  | x :: rest, O => (x + v) :: rest
  | x :: rest, S i' => x :: add_nth rest i' v
  end.

(** [arr[idx] += v].  Every call site clamps [idx] to [[0, len - 1]] first.
    For an [idx] that is no integer JavaScript sets a property of the array
    and no element, so the elements stay as they are; an integer past the
    end, where JavaScript would extend the array, does not arise behind the
    clamp and is given the same reading. *)
Definition add_at (arr : list number) (idx : number) (v : number) : list number :=
  match toIndex idx with
  | Some i => add_nth arr i v
  | None => arr
  end.

(** [arr.reduce((a, b) => a + b, 0)] *)
Definition sum (arr : list number) : number := fold_left add arr 0.

End F64.

(* ================================================================== *)
(** * lib/finance/types.ts, in binary64 *)
(* ================================================================== *)

Module Types64.
Import JS Types.

Record SpendingSeries := mkSpendingSeries {
  total : list F64.number;
  essentials : list F64.number;
  leisure : list F64.number;
  subscriptions : list F64.number
}.

Record DemoTransaction := mkDemoTransaction {
  dt_id : string;
  dt_dateISO : Date;
  dt_name : string;
  dt_meta : string;
  dt_amount : F64.number;
  dt_category : option SpendingCategory
}.

Record DashboardKpis := mkDashboardKpis {
  currentBalance : F64.number;
  currentBalanceTrendPct : F64.number;
  monthlySpend : F64.number;
  monthlySpendTrendPct : F64.number;
  savingsRate : F64.number;
  savingsRateTrendPctPoints : F64.number;
  upcomingBills : F64.number;
  upcomingBillsDueInDays : F64.number
}.

Record DashboardSnapshot := mkDashboardSnapshot {
  period : FinancePeriod;
  currencyCode : option string;
  labels : list string;
  series : SpendingSeries;
  points : list F64.number;
  kpis : DashboardKpis;
  recentTransactions : list DemoTransaction
}.

End Types64.

(* ================================================================== *)
(** * lib/finance/from-transactions.ts, in binary64 *)
(* ================================================================== *)

(** The configuration, the labels, [mapCategory] and the window are those of
    [FromTransactions]; what computes with amounts is embedded again.  The
    millisecond counts are integers far below [2^53], so that their sums and
    differences are exact; they are taken in [Z] and become numbers where the
    source divides. *)
Module FromTransactions64.
Import JS Types Types64 PrimFloat.
Local Open Scope float_scope.

Record TxLike := mkTxLike {
  tx_id : string;
  tx_date : Date;
  tx_name : string;
  tx_meta : option string;
  tx_amount : F64.number; (* positive=income, negative=expense *)
  tx_category : option string
}.

Record AccountLike := mkAccountLike {
  acc_currentBalance : option F64.number;
  acc_availableBalance : option F64.number;
  acc_currencyCode : option string
}.

Definition clamp (n min max : F64.number) : F64.number :=
  F64.Math_max min (F64.Math_min max n).

Definition sum (arr : list F64.number) : F64.number := F64.sum arr.

Record Range := mkRange { income : F64.number; spend : F64.number }.

(** Body of the loop of [sumRange]. *)
Definition sumRange_step (start end_ : Date) (st : Range) (t : TxLike) : Range :=
  if (tx_date t <? start)%Z || (tx_date t >=? end_)%Z then st
  else if F64.geb (tx_amount t) 0
       then mkRange (income st + tx_amount t) (spend st)
       else mkRange (income st) (spend st + - tx_amount t).

Definition sumRange (transactions : list TxLike) (start end_ : Date) : Range :=
  fold_left (sumRange_step start end_) transactions (mkRange 0 0).

Record Args := mkArgs {
  arg_period : FinancePeriod;
  arg_accounts : list AccountLike;
  arg_transactions : list TxLike;
  arg_now : option Date
}.

Definition segmentMs (cfg : FromTransactions.BucketConfig) (endMs : Z) : F64.number :=
  F64.of_Z (endMs - FromTransactions.startMs cfg endMs)
  / F64.of_nat (FromTransactions.len cfg).

(** [clamp(Math.floor((ts - startMs) / segmentMs), 0, cfg.len - 1)] *)
Definition bucketIdx (cfg : FromTransactions.BucketConfig) (endMs ts : Z) : F64.number :=
  clamp (F64.Math_floor (F64.of_Z (ts - FromTransactions.startMs cfg endMs)
                         / segmentMs cfg endMs))
        0 (F64.of_nat (FromTransactions.len cfg) - 1).

(** The four accumulator arrays of the chart loop. *)
Record Buckets := mkBuckets {
  b_total : list F64.number;
  b_essentials : list F64.number;
  b_leisure : list F64.number;
  b_subscriptions : list F64.number
}.

(** Body of the chart loop. *)
Definition chart_step (cfg : FromTransactions.BucketConfig) (endMs : Z)
    (b : Buckets) (t : TxLike) : Buckets :=
  if F64.geb (tx_amount t) 0 then b (* only spending for the chart *)
  else
    let ts := tx_date t in
    if (ts <? FromTransactions.startMs cfg endMs)%Z || (ts >=? endMs)%Z then b
    else
      let idx := bucketIdx cfg endMs ts in
      let spendValue := - tx_amount t in
      let total := F64.add_at (b_total b) idx spendValue in
      match FromTransactions.mapCategory (tx_category t) with
      | Essentials =>
          mkBuckets total (F64.add_at (b_essentials b) idx spendValue)
                    (b_leisure b) (b_subscriptions b)
      | Leisure =>
          mkBuckets total (b_essentials b)
                    (F64.add_at (b_leisure b) idx spendValue) (b_subscriptions b)
      | Subscriptions =>
          mkBuckets total (b_essentials b) (b_leisure b)
                    (F64.add_at (b_subscriptions b) idx spendValue)
      end.

Definition chart_loop (cfg : FromTransactions.BucketConfig) (endMs : Z)
    (transactions : list TxLike) : Buckets :=
  let n := FromTransactions.len cfg in
  fold_left (chart_step cfg endMs) transactions
    (mkBuckets (Array_fill n 0) (Array_fill n 0) (Array_fill n 0) (Array_fill n 0)).

Definition toDemoTransaction (t : TxLike) : DemoTransaction :=
  {| dt_id := tx_id t;
     dt_dateISO := tx_date t;
     dt_name := tx_name t;
     dt_meta := nullish (nullish_opt (tx_meta t) (tx_category t)) "Bank"%string;
     dt_amount := tx_amount t;
     dt_category :=
       if F64.ltb (tx_amount t) 0
       then Some (FromTransactions.mapCategory (tx_category t)) else None |}.

(** [clock] is the reading of [new Date()], used when [args.now] is absent. *)
Definition buildDashboardSnapshotFromTransactions (clock : Date) (args : Args)
    : DashboardSnapshot :=
  let now := nullish (arg_now args) clock in
  let cfg := FromTransactions.getBucketConfig (arg_period args) in
  let labels := FromTransactions.getLabels (arg_period args) (FromTransactions.len cfg) in
  let endMs := now in
  let b := chart_loop cfg endMs (arg_transactions args) in
  let series :=
    mkSpendingSeries (map F64.Math_round (b_total b)) (map F64.Math_round (b_essentials b))
                     (map F64.Math_round (b_leisure b))
                     (map F64.Math_round (b_subscriptions b)) in
  let points := total series in
  let currencyCode :=
    Currency.inferCurrencyCodeFromAccounts acc_currencyCode (arg_accounts args) None in
  let currentBalance :=
    fold_left (fun acc a => acc + nullish (acc_currentBalance a) 0) (arg_accounts args) 0 in
  (* KPI windows *)
  let d30 := (30 * FromTransactions.msPerDay)%Z in
  let end_ := now in
  let start30 := (end_ - d30)%Z in
  let start60 := (end_ - 2 * d30)%Z in
  let this30 := sumRange (arg_transactions args) start30 end_ in
  let prev30 := sumRange (arg_transactions args) start60 start30 in
  let monthlySpend := spend this30 in
  let monthlySpendTrendPct :=
    if F64.eqb (spend prev30) 0 then 0 else (spend this30 - spend prev30) / spend prev30 in
  let savingsRate :=
    if F64.eqb (income this30) 0 then 0
    else clamp ((income this30 - spend this30) / income this30) 0 0.95 in
  let prevSavingsRate :=
    if F64.eqb (income prev30) 0 then 0
    else clamp ((income prev30 - spend prev30) / income prev30) 0 0.95 in
  let savingsRateTrendPctPoints := (savingsRate - prevSavingsRate) * 100 in
  (* Balance trend: approximate via 7-day net delta *)
  let d7 := (7 * FromTransactions.msPerDay)%Z in
  let net7 :=
    fold_left (fun acc t => acc + tx_amount t)
      (filter (fun t => (tx_date t >=? end_ - d7)%Z) (arg_transactions args)) 0 in
  let priorBalance := currentBalance - net7 in
  let currentBalanceTrendPct :=
    if F64.eqb priorBalance 0 then 0
    else (currentBalance - priorBalance) / F64.Math_abs priorBalance in
  let upcomingBills := sum (subscriptions series) / 2 in
  let upcomingBillsDueInDays := 7 in
  let recentTransactions :=
    slice0 4 (map toDemoTransaction
      (slice0 6 (sort (fun a b => (0 <? tx_date b - tx_date a)%Z) (arg_transactions args)))) in
  {| period := arg_period args;
     currencyCode := currencyCode;
     labels := labels;
     series := series;
     points := points;
     kpis := {| currentBalance := currentBalance;
                currentBalanceTrendPct := clamp currentBalanceTrendPct (-0.5) 0.5;
                monthlySpend := monthlySpend;
                monthlySpendTrendPct := clamp monthlySpendTrendPct (-0.9) 0.9;
                savingsRate := savingsRate;
                savingsRateTrendPctPoints := clamp savingsRateTrendPctPoints (-50) 50;
                upcomingBills := upcomingBills;
                upcomingBillsDueInDays := upcomingBillsDueInDays |};
     recentTransactions := recentTransactions |}.

End FromTransactions64.

(* ================================================================== *)
(** * lib/ai/finance.ts: [buildSpendingSummary], in binary64 *)
(* ================================================================== *)

Module Finance64.
Import JS PrimFloat.
Local Open Scope float_scope.

Record Tx := mkTx {
  t_amount : F64.number;
  t_category : option string
}.

Record CategoryAmount := mkCategoryAmount {
  category : string;
  amount : F64.number
}.

Record Summary := mkSummary {
  income : F64.number;
  spend : F64.number;
  net : F64.number;
  topCategories : list CategoryAmount
}.

(** [(t.category ?? "Uncategorized").trim() || "Uncategorized"] *)
Definition categoryKey (t : Tx) : string :=
  or_else (trim (nullish (t_category t) "Uncategorized"%string)) "Uncategorized".

(** The loop state: [income], [spend] and [spendByCategory]. *)
Record Acc := mkAcc {
  a_income : F64.number;
  a_spend : F64.number;
  a_spendByCategory : Map F64.number
}.

(** Body of the loop. *)
Definition summary_step (st : Acc) (t : Tx) : Acc :=
  if F64.geb (t_amount t) 0 then
    mkAcc (a_income st + t_amount t) (a_spend st) (a_spendByCategory st)
  else
    let spendValue := - t_amount t in
    let category := categoryKey t in
    mkAcc (a_income st) (a_spend st + spendValue)
          (Map_set (a_spendByCategory st) category
             (nullish (Map_get (a_spendByCategory st) category) 0 + spendValue)).

(** The comparator [(a, b) => b[1] - a[1]], as "is positive". *)
Definition byAmountDesc (a b : string * F64.number) : bool := F64.gtb (snd b - snd a) 0.

Definition buildSpendingSummary (transactions : list Tx) : Summary :=
  let st := fold_left summary_step transactions (mkAcc 0 0 Map_new) in
  let topCategories :=
    map (fun e : string * F64.number => mkCategoryAmount (fst e) (snd e))
        (slice0 8 (sort byAmountDesc (Map_entries (a_spendByCategory st)))) in
  let net := a_income st - a_spend st in
  mkSummary (a_income st) (a_spend st) net topCategories.

End Finance64.

(* ================================================================== *)
(** * lib/ai/evaluations.ts: status and score, in binary64 *)
(* ================================================================== *)

Module Evaluations64.
Import JS Types64 PrimFloat.
Local Open Scope float_scope.

Record SpendingSummary := mkSpendingSummary {
  timeframe : string;
  income : F64.number;
  spend : F64.number;
  net : F64.number;
  topCategories : list Finance64.CategoryAmount
}.

Definition clamp (n min max : F64.number) : F64.number :=
  F64.Math_max min (F64.Math_min max n).

Record Args := mkArgs {
  snapshot : DashboardSnapshot;
  spendingSummary : option SpendingSummary
}.

Definition hasAnyTx (s : DashboardSnapshot) : bool :=
  (0 <? List.length (recentTransactions s))%nat.

Definition hasAnySeries (s : DashboardSnapshot) : bool :=
  some (fun n => F64.neqb n 0) (points s) || some (fun n => F64.neqb n 0) (total (series s)).

Definition hasAnyKpiSignal (s : DashboardSnapshot) : bool :=
  F64.neqb (currentBalance (kpis s)) 0
  || F64.neqb (monthlySpend (kpis s)) 0
  || F64.neqb (savingsRate (kpis s)) 0.

Definition noData (s : DashboardSnapshot) : bool :=
  negb (hasAnyTx s) && negb (hasAnySeries s) && negb (hasAnyKpiSignal s).

(** Category concentration (top category share of spending). *)
Definition top1ShareOf (ss : option SpendingSummary) : option F64.number :=
  match ss with
  | Some sm =>
      if F64.gtb (spend sm) 0 && (0 <? List.length (topCategories sm))%nat then
        match topCategories sm with
        | top1 :: _ => Some (clamp (Finance64.amount top1 / spend sm) 0 1)
        | [] => None
        end
      else None
  | None => None
  end.

(** Simple score heuristic (0..100). *)
Definition scoreOf (savingsRate spendTrend balanceTrend : F64.number)
    (top1Share : option F64.number) : F64.number :=
  let score := 50 in
  let score := score + clamp ((savingsRate - 0.2) * 120) (-30) 40 in
  let score := score + clamp ((- spendTrend) * 25) (-15) 15 in
  let score := score + clamp (balanceTrend * 20) (-10) 10 in
  let score :=
    match top1Share with
    | Some sh => score - clamp ((sh - 0.35) * 40) 0 12
    | None => score
    end in
  F64.Math_round (clamp score 0 100).

(** The fields [status] and [score] of the result of
    [buildFinanceEvaluation]; the texts are those of [Evaluations]. *)
Record Verdict := mkVerdict {
  status : Evaluations.Status;
  score : option F64.number (* 0..100 *)
}.

Definition buildFinanceEvaluation (args : Args) : Verdict :=
  let s := snapshot args in
  if noData s then {| status := Evaluations.no_data; score := None |}
  else
    let savingsRate := savingsRate (kpis s) in
    let spendTrend := monthlySpendTrendPct (kpis s) in
    let balanceTrend := currentBalanceTrendPct (kpis s) in
    let top1Share := top1ShareOf (spendingSummary args) in
    let score := scoreOf savingsRate spendTrend balanceTrend top1Share in
    {| status := Evaluations.ok; score := Some score |}.

End Evaluations64.

(* ================================================================== *)
(** * Specification-side definitions *)
(* ================================================================== *)

Module Spec.
Import JS Types.

(** Two KPI blocks hold the same numbers. *)
Definition kpis_same (a b : DashboardKpis) : Prop :=
  currentBalance a == currentBalance b
  /\ currentBalanceTrendPct a == currentBalanceTrendPct b
  /\ monthlySpend a == monthlySpend b
  /\ monthlySpendTrendPct a == monthlySpendTrendPct b
  /\ savingsRate a == savingsRate b
  /\ savingsRateTrendPctPoints a == savingsRateTrendPctPoints b
  /\ upcomingBills a == upcomingBills b
  /\ upcomingBillsDueInDays a == upcomingBillsDueInDays b.

(** Every field of a KPI block is zero. *)
Definition kpis_all_zero (a : DashboardKpis) : Prop :=
  currentBalance a == 0
  /\ currentBalanceTrendPct a == 0
  /\ monthlySpend a == 0
  /\ monthlySpendTrendPct a == 0
  /\ savingsRate a == 0
  /\ savingsRateTrendPctPoints a == 0
  /\ upcomingBills a == 0
  /\ upcomingBillsDueInDays a == 0.

(** Every field of a KPI block but [upcomingBillsDueInDays] is zero. *)
Definition kpis_zero_but_due (a : DashboardKpis) : Prop :=
  currentBalance a == 0
  /\ currentBalanceTrendPct a == 0
  /\ monthlySpend a == 0
  /\ monthlySpendTrendPct a == 0
  /\ savingsRate a == 0
  /\ savingsRateTrendPctPoints a == 0
  /\ upcomingBills a == 0.

(** Two snapshots have the same series shape: the same labels and the same
    four series. *)
Definition same_series_shape (a b : DashboardSnapshot) : Prop :=
  labels a = labels b
  /\ total (series a) = total (series b)
  /\ essentials (series a) = essentials (series b)
  /\ leisure (series a) = leisure (series b)
  /\ subscriptions (series a) = subscriptions (series b)
  /\ points a = points b.

(** Every series of a snapshot is the all-zero array of [n] buckets. *)
Definition series_all_zero (n : nat) (a : DashboardSnapshot) : Prop :=
  total (series a) = repeat 0 n
  /\ essentials (series a) = repeat 0 n
  /\ leisure (series a) = repeat 0 n
  /\ subscriptions (series a) = repeat 0 n
  /\ points a = repeat 0 n
  /\ List.length (labels a) = n.

(** The empty call of the snapshot builder. *)
Definition emptyArgs (p : FinancePeriod) (now : Date) : FromTransactions.Args :=
  FromTransactions.mkArgs p [] [] (Some now).

(** The statement that the zero snapshot and the builder on empty input
    agree on every KPI field, all of them zero, and on the series shape. *)
Definition agree_everywhere (p : FinancePeriod) (now clock : Date) : Prop :=
  let z := FromTransactions.buildZeroDashboardSnapshot p in
  let b := FromTransactions.buildDashboardSnapshotFromTransactions clock (emptyArgs p now) in
  kpis_same (kpis z) (kpis b)
  /\ kpis_all_zero (kpis z)
  /\ kpis_all_zero (kpis b)
  /\ same_series_shape z b.

(** The lengths of the KPI windows, 30 days and 7 days, in milliseconds. *)
Definition d30 : Z := (30 * FromTransactions.msPerDay)%Z.

Definition d7 : Z := (7 * FromTransactions.msPerDay)%Z.

(** The snapshot has no data: no recent transaction, every chart value zero,
    and the three KPI signals exactly zero. *)
Definition no_data_condition (s : DashboardSnapshot) : Prop :=
  recentTransactions s = []
  /\ (Forall (fun n => n == 0) (points s) /\ Forall (fun n => n == 0) (total (series s)))
  /\ (currentBalance (kpis s) == 0
      /\ monthlySpend (kpis s) == 0
      /\ savingsRate (kpis s) == 0).

(** ** The chart, as the specification describes it *)

(** Two strings are equal when case is ignored. *)
Definition same_ignoring_case (a b : string) : Prop :=
  toUpperCase a = toUpperCase b.

(** [label] has a substring equal to [token] when case is ignored. *)
Definition ci_contains (label token : string) : Prop :=
  exists pre mid post,
    label = (pre ++ mid ++ post)%string /\ same_ignoring_case mid token.

Definition subscription_label (l : string) : Prop :=
  ci_contains l "SUBSCRIPT" \/ ci_contains l "SERVICE" \/ ci_contains l "STREAM".

Definition leisure_label (l : string) : Prop :=
  ci_contains l "ENTERTAIN" \/ ci_contains l "TRAVEL"
  \/ ci_contains l "TRANSPORT" \/ ci_contains l "RECREATION".

(** The keyword rule: subscription keywords first, then leisure keywords,
    everything else essentials; an absent label is the empty label. *)
Definition category_rule (raw : option string) (c : SpendingCategory) : Prop :=
  let l := nullish raw EmptyString in
  match c with
  | Subscriptions => subscription_label l
  | Leisure => ~ subscription_label l /\ leisure_label l
  | Essentials => ~ subscription_label l /\ ~ leisure_label l
  end.

Definition category_eqb (a b : SpendingCategory) : bool :=
  match a, b with
  | Essentials, Essentials | Leisure, Leisure | Subscriptions, Subscriptions => true
  | _, _ => false
  end.

(** The start of the chart window, [now - windowDays]. *)
Definition windowStart (cfg : FromTransactions.BucketConfig) (now : Date) : Z :=
  (now - FromTransactions.windowDays cfg * FromTransactions.msPerDay)%Z.

(** The width of one bucket. *)
Definition bucketWidth (cfg : FromTransactions.BucketConfig) : number :=
  inject_Z (FromTransactions.windowDays cfg * FromTransactions.msPerDay)
  / inject_Z (Z.of_nat (FromTransactions.len cfg)).

(** An expense whose timestamp lies in [[now - windowDays, now)]. *)
Definition in_chart (cfg : FromTransactions.BucketConfig) (now : Date)
    (t : FromTransactions.TxLike) : bool :=
  ltb (FromTransactions.tx_amount t) 0
  && (windowStart cfg now <=? FromTransactions.tx_date t)%Z
  && (FromTransactions.tx_date t <? now)%Z.

(** [floor((txTime - windowStart) / bucketWidth)] clamped to
    [[0, bucketCount - 1]]. *)
Definition bucket_of (cfg : FromTransactions.BucketConfig) (now : Date) (txTime : Z) : Z :=
  Z.max 0
    (Z.min (Z.of_nat (FromTransactions.len cfg) - 1)
       (Qfloor (inject_Z (txTime - windowStart cfg now) / bucketWidth cfg))).

(** The four accumulators have [n] cells each, and in every cell the total is
    the sum of the three categories. *)
Definition balanced (n : nat) (b : FromTransactions.Buckets) : Prop :=
  List.length (FromTransactions.b_total b) = n
  /\ List.length (FromTransactions.b_essentials b) = n
  /\ List.length (FromTransactions.b_leisure b) = n
  /\ List.length (FromTransactions.b_subscriptions b) = n
  /\ forall i,
       nth i (FromTransactions.b_total b) 0
       == nth i (FromTransactions.b_essentials b) 0
          + nth i (FromTransactions.b_leisure b) 0
          + nth i (FromTransactions.b_subscriptions b) 0.

(** ** Insertion order *)

(** Position of the first occurrence of [k] in [l] (the length of [l] when
    [k] does not occur). *)
Fixpoint first_index (k : string) (l : list string) : nat :=
  match l with
  | [] => 0
  | x :: l' => if String.eqb k x then 0 else S (first_index k l')
  end.

(** [a] is first seen in [l] before [b] is. *)
Definition first_seen_before (l : list string) (a b : string) : Prop :=
  (first_index a l < first_index b l)%nat.

Definition keys {V : Type} (m : Map V) : list string := map fst m.

(** The keys of [m] are the distinct elements of [ks], in the order in which
    they first occur in [ks]. *)
Definition keys_in_first_seen_order {V : Type} (ks : list string) (m : Map V) : Prop :=
  NoDup (keys m)
  /\ (forall k, In k (keys m) <-> In k ks)
  /\ StronglySorted (first_seen_before ks) (keys m).

(** ** Currency inference, as the specification describes it *)

Definition isLetter (c : ascii) : bool := isUpper c || isLower c.

(** Exactly three ASCII letters. *)
Definition three_letters (s : string) : Prop :=
  exists x y z,
    s = String x (String y (String z EmptyString))
    /\ isLetter x = true /\ isLetter y = true /\ isLetter z = true.

(** The valid normalized codes of the accounts, in account order; an account
    without one contributes nothing. *)
Definition normalized_codes {Account : Type} (currencyCode : Account -> option string)
    (accounts : list Account) : list string :=
  flat_map
    (fun a => match Currency.normalizeCurrencyCode (currencyCode a) with
              | Some c => [c]
              | None => []
              end)
    accounts.

Definition occurrences (c : string) (l : list string) : nat := count_occ string_dec l c.

(** [r] is the most frequent element of [codes], the first seen one among
    those of highest count; it is absent exactly when [codes] is empty. *)
Definition most_frequent_first_seen (codes : list string) (r : option string) : Prop :=
  match r with
  | None => codes = []
  | Some c =>
      In c codes
      /\ (forall c', (occurrences c' codes <= occurrences c codes)%nat)
      /\ (forall c', c' <> c -> occurrences c' codes = occurrences c codes ->
                     first_seen_before codes c c')
  end.

(** The counting loop has seen the codes [codes]: every code is a key, in
    first-seen order, with its number of occurrences. *)
Definition counted (codes : list string) (m : Map nat) : Prop :=
  keys_in_first_seen_order codes m
  /\ forall c, nullish (Map_get m c) 0%nat = occurrences c codes.

(** ** Spending summary, as the specification describes it *)


(** The category key: the trimmed label, or "Uncategorized" when the label is
    null or blank. *)
Definition category_key (raw : option string) : string :=
  match raw with
  | None => "Uncategorized"
  | Some l =>
      match trim l with
      | EmptyString => "Uncategorized"
      | k => k
      end
  end.

(** ** The order produced by a stable sort *)

(** Descending [rank], and the input order [before] among equals. *)
Definition sorted_before {A : Type} (rank : A -> Q) (before : A -> A -> Prop)
    (x y : A) : Prop :=
  rank y < rank x \/ (rank x == rank y /\ before x y).

End Spec.

(* ================================================================== *)
(** * Further properties: definitions *)
(* ================================================================== *)

Module Props.
Import JS Types.

(** A number that is a non-negative integer. *)
Definition nonneg_integer (q : number) : Prop :=
  exists z : Z, (0 <= z)%Z /\ q = inject_Z z.

(** The arguments of a call with its transactions replaced. *)
Definition with_transactions (args : FromTransactions.Args)
    (txs : list FromTransactions.TxLike) : FromTransactions.Args :=
  FromTransactions.mkArgs (FromTransactions.arg_period args)
    (FromTransactions.arg_accounts args) txs (FromTransactions.arg_now args).

(** Every character is ASCII. *)
Fixpoint is_ascii (s : string) : Prop :=
  match s with
  | EmptyString => True
  | String c s' => (nat_of_ascii c < 128)%nat /\ is_ascii s'
  end.

(** A number that is an integer between [lo] and [hi]. *)
Definition integer_between (lo hi : Z) (q : number) : Prop :=
  exists v : Z, q == inject_Z v /\ (lo <= v <= hi)%Z.

End Props.

(* ================================================================== *)
(** * Specification-side definitions, in binary64 *)
(* ================================================================== *)

Module Spec64.
Import JS Types PrimFloat.
Local Open Scope float_scope.

(** ** The chart, as the specification describes it *)

(** The width of one bucket. *)
Definition bucketWidth (cfg : FromTransactions.BucketConfig) : F64.number :=
  F64.of_Z (FromTransactions.windowDays cfg * FromTransactions.msPerDay)
  / F64.of_nat (FromTransactions.len cfg).

(** An expense whose timestamp lies in [[now - windowDays, now)]. *)
Definition in_chart (cfg : FromTransactions.BucketConfig) (now : Date)
    (t : FromTransactions64.TxLike) : bool :=
  F64.ltb (FromTransactions64.tx_amount t) 0
  && (Spec.windowStart cfg now <=? FromTransactions64.tx_date t)%Z
  && (FromTransactions64.tx_date t <? now)%Z.

(** [floor((txTime - windowStart) / bucketWidth)] clamped to
    [[0, bucketCount - 1]]. *)
Definition bucket_of (cfg : FromTransactions.BucketConfig) (now : Date) (txTime : Z)
    : F64.number :=
  F64.Math_max 0
    (F64.Math_min (F64.of_nat (FromTransactions.len cfg) - 1)
       (F64.Math_floor (F64.of_Z (txTime - Spec.windowStart cfg now) / bucketWidth cfg))).

(** Does [t] count into bucket [i] of the series [cat] ([None]: the total)? *)
Definition counts_in (cfg : FromTransactions.BucketConfig) (now : Date)
    (cat : option SpendingCategory) (i : nat) (t : FromTransactions64.TxLike) : bool :=
  in_chart cfg now t
  && match F64.toIndex (bucket_of cfg now (FromTransactions64.tx_date t)) with
     | Some j => (j =? i)%nat
     | None => false
     end
  && match cat with
     | None => true
     | Some c =>
         Spec.category_eqb
           (FromTransactions.mapCategory (FromTransactions64.tx_category t)) c
     end.

(** The numbers of a list added one after the other, from zero. *)
Definition total_of (l : list F64.number) : F64.number := fold_left add l 0.

(** The magnitudes of the transactions that count into bucket [i] of series
    [cat], added in transaction order. *)
Definition bucket_sum (cfg : FromTransactions.BucketConfig) (now : Date)
    (cat : option SpendingCategory) (i : nat) (txs : list FromTransactions64.TxLike)
    : F64.number :=
  total_of (map (fun t => F64.Math_abs (FromTransactions64.tx_amount t))
              (filter (counts_in cfg now cat i) txs)).

(** The accumulator array of a series. *)
Definition accumulator (b : FromTransactions64.Buckets) (cat : option SpendingCategory)
    : list F64.number :=
  match cat with
  | None => FromTransactions64.b_total b
  | Some Essentials => FromTransactions64.b_essentials b
  | Some Leisure => FromTransactions64.b_leisure b
  | Some Subscriptions => FromTransactions64.b_subscriptions b
  end.

(** The series [cat] of a snapshot. *)
Definition series_of (s : Types64.SpendingSeries) (cat : option SpendingCategory)
    : list F64.number :=
  match cat with
  | None => Types64.total s
  | Some Essentials => Types64.essentials s
  | Some Leisure => Types64.leisure s
  | Some Subscriptions => Types64.subscriptions s
  end.

(** No amount is [NaN]; every label is ASCII. *)
Definition amounts_are_numbers (txs : list FromTransactions64.TxLike) : Prop :=
  Forall (fun t => F64.isNaN (FromTransactions64.tx_amount t) = false) txs.

Definition labels_are_ascii (txs : list FromTransactions64.TxLike) : Prop :=
  Forall (fun t => Props.is_ascii (nullish (FromTransactions64.tx_category t) EmptyString)) txs.

(** ** Total and parts *)

(** In bucket [i] the total is within 1 of the sum of the three category
    series, all of them finite. *)
Definition within_one (s : Types64.SpendingSeries) (i : nat) : Prop :=
  exists t e l u : Q,
    F64.toQ (nth i (Types64.total s) 0) = Some t
    /\ F64.toQ (nth i (Types64.essentials s) 0) = Some e
    /\ F64.toQ (nth i (Types64.leisure s) 0) = Some l
    /\ F64.toQ (nth i (Types64.subscriptions s) 0) = Some u
    /\ (Qabs (t - (e + l + u)) <= 1)%Q.

(** In bucket [i] the accumulated total is exactly the sum of the three
    accumulated category sums: no addition has lost anything to rounding. *)
Definition sums_exact (b : FromTransactions64.Buckets) (i : nat) : Prop :=
  exists t e l u : Q,
    F64.toQ (nth i (FromTransactions64.b_total b) 0) = Some t
    /\ F64.toQ (nth i (FromTransactions64.b_essentials b) 0) = Some e
    /\ F64.toQ (nth i (FromTransactions64.b_leisure b) 0) = Some l
    /\ F64.toQ (nth i (FromTransactions64.b_subscriptions b) 0) = Some u
    /\ (t == e + l + u)%Q.

(** ** The KPI block *)

(** [lo <= x && x <= hi] *)
Definition in_range (lo hi x : F64.number) : bool := F64.geb x lo && F64.geb hi x.

Definition kpis_in_range (k : Types64.DashboardKpis) : Prop :=
  in_range 0 0.95 (Types64.savingsRate k) = true
  /\ in_range (-0.9) 0.9 (Types64.monthlySpendTrendPct k) = true
  /\ in_range (-0.5) 0.5 (Types64.currentBalanceTrendPct k) = true
  /\ in_range (-50) 50 (Types64.savingsRateTrendPctPoints k) = true.

Definition this30 (now : Date) (txs : list FromTransactions64.TxLike)
    : FromTransactions64.Range :=
  FromTransactions64.sumRange txs (now - Spec.d30)%Z now.

Definition prev30 (now : Date) (txs : list FromTransactions64.TxLike)
    : FromTransactions64.Range :=
  FromTransactions64.sumRange txs (now - 2 * Spec.d30)%Z (now - Spec.d30)%Z.

Definition balanceOf (accounts : list FromTransactions64.AccountLike) : F64.number :=
  fold_left (fun acc a => acc + nullish (FromTransactions64.acc_currentBalance a) 0)
    accounts 0.

Definition net7 (now : Date) (txs : list FromTransactions64.TxLike) : F64.number :=
  fold_left (fun acc t => acc + FromTransactions64.tx_amount t)
    (filter (fun t => (FromTransactions64.tx_date t >=? now - Spec.d7)%Z) txs) 0.

Definition priorBalance (now : Date) (accounts : list FromTransactions64.AccountLike)
    (txs : list FromTransactions64.TxLike) : F64.number :=
  balanceOf accounts - net7 now txs.

(** Every amount and every balance of the input is finite. *)
Definition finite_input (args : FromTransactions64.Args) : Prop :=
  Forall (fun t => F64.isFinite (FromTransactions64.tx_amount t) = true)
    (FromTransactions64.arg_transactions args)
  /\ Forall (fun a =>
               F64.isFinite (nullish (FromTransactions64.acc_currentBalance a) 0) = true)
       (FromTransactions64.arg_accounts args).

(** The sums behind the KPIs are finite: none has overflowed. *)
Definition sums_finite (now : Date) (accounts : list FromTransactions64.AccountLike)
    (txs : list FromTransactions64.TxLike) : Prop :=
  F64.isFinite (FromTransactions64.income (this30 now txs)) = true
  /\ F64.isFinite (FromTransactions64.spend (this30 now txs)) = true
  /\ F64.isFinite (FromTransactions64.income (prev30 now txs)) = true
  /\ F64.isFinite (FromTransactions64.spend (prev30 now txs)) = true
  /\ F64.isFinite (balanceOf accounts) = true
  /\ F64.isFinite (priorBalance now accounts txs) = true.

(** ** Spending summary, as the specification describes it *)

Definition is_expense (t : Finance64.Tx) : bool := F64.ltb (Finance64.t_amount t) 0.

Definition is_income (t : Finance64.Tx) : bool := F64.geb (Finance64.t_amount t) 0.

(** The sum of the amounts that are [>= 0]. *)
Definition income_total (txs : list Finance64.Tx) : F64.number :=
  total_of (map Finance64.t_amount (filter is_income txs)).

(** The sum of the magnitudes of the amounts that are [< 0]. *)
Definition spend_total (txs : list Finance64.Tx) : F64.number :=
  total_of (map (fun t => F64.Math_abs (Finance64.t_amount t)) (filter is_expense txs)).

(** The keys of the expenses, in transaction order. *)
Definition expense_keys (txs : list Finance64.Tx) : list string :=
  map (fun t => Spec.category_key (Finance64.t_category t)) (filter is_expense txs).

(** The spend accumulated under key [c]. *)
Definition category_total (c : string) (txs : list Finance64.Tx) : F64.number :=
  total_of
    (map (fun t => F64.Math_abs (Finance64.t_amount t))
       (filter (fun t => is_expense t
                         && String.eqb (Spec.category_key (Finance64.t_category t)) c)
          txs)).

(** [x] is listed before [y]: a larger amount first, and for equal amounts the
    category first encountered. *)
Definition ranks_before (txs : list Finance64.Tx) (x y : Finance64.CategoryAmount) : Prop :=
  F64.gtb (Finance64.amount x) (Finance64.amount y) = true
  \/ (F64.eqb (Finance64.amount x) (Finance64.amount y) = true
      /\ Spec.first_seen_before (expense_keys txs)
           (Finance64.category x) (Finance64.category y)).

(** [top] is the first 8 entries of the full ranking of the category
    totals. *)
Definition top_categories_of (txs : list Finance64.Tx) (top : list Finance64.CategoryAmount)
    : Prop :=
  exists full,
    top = firstn 8 full
    /\ NoDup (map Finance64.category full)
    /\ (forall c, In c (map Finance64.category full) <-> In c (expense_keys txs))
    /\ (forall e, In e full ->
                  Finance64.amount e = category_total (Finance64.category e) txs)
    /\ StronglySorted (ranks_before txs) full.

(** The state of the summary loop after the transactions [txs]. *)
Definition summarized (txs : list Finance64.Tx) (st : Finance64.Acc) : Prop :=
  Finance64.a_income st = income_total txs
  /\ Finance64.a_spend st = spend_total txs
  /\ Spec.keys_in_first_seen_order (expense_keys txs) (Finance64.a_spendByCategory st)
  /\ forall c, nullish (Map_get (Finance64.a_spendByCategory st) c) 0 = category_total c txs.

(** Every character of [s] is white space. *)
Fixpoint blank (s : string) : Prop :=
  match s with
  | EmptyString => True
  | String c s' => isWhiteSpace c = true /\ blank s'
  end.

(** [k] does not start, or end, with white space. *)
Definition starts_clean (k : string) : Prop :=
  match k with
  | EmptyString => True
  | String c _ => isWhiteSpace c = false
  end.

Definition ends_clean (k : string) : Prop :=
  forall pre c, k = (pre ++ String c EmptyString)%string -> isWhiteSpace c = false.

(** [k] is [l] without the white space at its two ends. *)
Definition trimmed (l k : string) : Prop :=
  exists pre post,
    l = (pre ++ k ++ post)%string /\ blank pre /\ blank post
    /\ starts_clean k /\ ends_clean k.

(** The category key: the trimmed label, or "Uncategorized" when the label is
    null or blank. *)
Definition category_key_rule (raw : option string) (k : string) : Prop :=
  match raw with
  | None => k = "Uncategorized"%string
  | Some l =>
      (blank l /\ k = "Uncategorized"%string)
      \/ (~ blank l /\ trimmed l k)
  end.

(** The amounts are finite; the labels are ASCII. *)
Definition finite_amounts (txs : list Finance64.Tx) : Prop :=
  Forall (fun t => F64.isFinite (Finance64.t_amount t) = true) txs.

Definition ascii_labels (txs : list Finance64.Tx) : Prop :=
  Forall (fun t => Props.is_ascii (nullish (Finance64.t_category t) EmptyString)) txs.

(** The scenario of the specification. *)
Definition scenario_txs : list Finance64.Tx :=
  [ Finance64.mkTx 1000 None;
    Finance64.mkTx (-200) (Some "Groceries"%string);
    Finance64.mkTx (-100) (Some "Streaming"%string) ].

(** ** The score *)




End Spec64.

(* ================================================================== *)
(** * The embedding on small inputs *)
(* ================================================================== *)

Import JS Types.

Example getLabels_week :
  FromTransactions.getLabels P_1W 7
  = ["Mon"; "Tue"; "Wed"; "Thu"; "Fri"; "Sat"; "Sun"]%string.
Proof. reflexivity. Qed.

Example getLabels_all_tail :
  skipn 19 (FromTransactions.getLabels P_ALL 22) = ["P20"; "P21"; "P22"]%string.
Proof. reflexivity. Qed.

Example trim_both_ends : trim "  two words  " = "two words"%string.
Proof. reflexivity. Qed.

Example Math_round_halves : Math_round (5 # 2) = 3 /\ Math_round (- (5 # 2)) = - (2).
Proof. split; reflexivity. Qed.

Example mapCategory_samples :
  FromTransactions.mapCategory (Some "Video streaming"%string) = Subscriptions
  /\ FromTransactions.mapCategory (Some "Public Transport"%string) = Leisure
  /\ FromTransactions.mapCategory (Some "Travel services"%string) = Subscriptions
  /\ FromTransactions.mapCategory None = Essentials.
Proof. repeat split; reflexivity. Qed.

Example sort_is_stable :
  sort Finance.byAmountDesc [("a", 1); ("b", 2); ("c", 1); ("d", 2)]%string
  = [("b", 2); ("d", 2); ("a", 1); ("c", 1)]%string.
Proof. reflexivity. Qed.

Example Map_set_keeps_position :
  Map_set (Map_set (Map_set Map_new "x" 1) "y" 2) "x" 3 = [("x", 3); ("y", 2)]%string.
Proof. reflexivity. Qed.

(** A spend trend of +20% yields one "risk" insight quoting 20. *)
Example trending_up_insight :
  Evaluations.insights
    (Evaluations.buildFinanceEvaluation
       (Evaluations.mkArgs
          {| period := P_1M; currencyCode := None; labels := [];
             series := mkSpendingSeries [] [] [] []; points := [];
             kpis := mkDashboardKpis 0 0 100 (2 # 10) 0 0 0 0;
             recentTransactions := [] |}
          None))
  = [ Evaluations.mkInsight Evaluations.risk "Spending is trending up"
        "Spending is up about 20% vs the previous period. Consider reviewing top categories and recurring charges." ].
Proof. vm_compute. reflexivity. Qed.

(* ================================================================== *)
(** * Numbers, comparisons and clamping *)
(* ================================================================== *)

Lemma Qle_bool_cases (a b : Q) :
  (Qle_bool a b = true /\ a <= b) \/ (Qle_bool a b = false /\ b < a).
Proof.
  destruct (Qle_bool a b) eqn:E.
  - left; split; [reflexivity | now apply Qle_bool_iff].
  - right; split; [reflexivity |].
    apply Qnot_le_lt. intro H. apply Qle_bool_iff in H. congruence.
Qed.



Lemma gtb_true (a b : Q) : gtb a b = true <-> b < a.
Proof.
  unfold gtb. destruct (Qle_bool_cases a b) as [[E H] | [E H]]; rewrite E; simpl; split;
    intros; try congruence; try lra.
Qed.

Lemma ltb_true (a b : Q) : ltb a b = true <-> a < b.
Proof.
  unfold ltb. destruct (Qle_bool_cases b a) as [[E H] | [E H]]; rewrite E; simpl; split;
    intros; try congruence; try lra.
Qed.

Lemma neqb_false (a b : Q) : neqb a b = false <-> a == b.
Proof.
  unfold neqb. rewrite negb_false_iff. apply Qeq_bool_iff.
Qed.





(** A rounded number is within one half of the number it rounds. *)
Lemma Math_round_close (x : Q) : x - (1 # 2) < Math_round x <= x + (1 # 2).
Proof.
  unfold Math_round.
  pose proof (Qfloor_le (x + (1 # 2))) as Hle.
  pose proof (Qlt_floor (x + (1 # 2))) as Hlt.
  rewrite inject_Z_plus in Hlt. change (inject_Z 1) with 1 in Hlt.
  lra.
Qed.

(* ================================================================== *)
(** * The snapshot builder on empty input *)
(* ================================================================== *)

(** C1, as stated, fails: on empty input the builder reports
    [upcomingBillsDueInDays = 7] while the zero snapshot reports [0]. *)
Lemma C1_due_in_days_differs : ~ Spec.agree_everywhere P_1M 0%Z 0%Z.
Proof.
  unfold Spec.agree_everywhere, Spec.kpis_same.
  intros [(_ & _ & _ & _ & _ & _ & _ & H) _].
  vm_compute in H. discriminate H.
Qed.

(** C1 (amended): for every period and timestamp, the zero snapshot and the
    builder on empty accounts and transactions agree on every KPI field except
    [upcomingBillsDueInDays]: the other seven fields are zero in both, while
    [upcomingBillsDueInDays] is 0 in the zero snapshot and 7 in the built one.
    Both have the same labels and the same all-zero series of the configured
    bucket count. *)
Theorem C1_empty_build_matches_zero_but_due (p : FinancePeriod) (now clock : Date) :
  let z := FromTransactions.buildZeroDashboardSnapshot p in
  let b := FromTransactions.buildDashboardSnapshotFromTransactions clock (Spec.emptyArgs p now) in
  let n := FromTransactions.len (FromTransactions.getBucketConfig p) in
  Spec.kpis_zero_but_due (kpis z)
  /\ Spec.kpis_zero_but_due (kpis b)
  /\ upcomingBillsDueInDays (kpis z) == 0
  /\ upcomingBillsDueInDays (kpis b) == 7
  /\ Spec.same_series_shape z b
  /\ Spec.series_all_zero n z
  /\ Spec.series_all_zero n b
  /\ currencyCode z = currencyCode b
  /\ recentTransactions z = recentTransactions b.
Proof.
  destruct p; vm_compute; repeat split; reflexivity.
Qed.

(* ================================================================== *)
(** * The evaluation engine *)
(* ================================================================== *)

Lemma some_nonzero_false (l : list number) :
  some (fun n => neqb n 0) l = false <-> Forall (fun n => n == 0) l.
Proof.
  unfold some. induction l as [| x l IH]; simpl.
  - split; [constructor | reflexivity].
  - rewrite orb_false_iff, IH, neqb_false. split.
    + intros [H1 H2]. now constructor.
    + intro H. inversion H; subst. now split.
Qed.

Lemma hasAnyTx_false (s : DashboardSnapshot) :
  Evaluations.hasAnyTx s = false <-> recentTransactions s = [].
Proof.
  unfold Evaluations.hasAnyTx, Nat.ltb.
  destruct (recentTransactions s); simpl; split; intros; congruence.
Qed.

Lemma noData_iff (s : DashboardSnapshot) :
  Evaluations.noData s = true <-> Spec.no_data_condition s.
Proof.
  unfold Evaluations.noData, Spec.no_data_condition,
    Evaluations.hasAnySeries, Evaluations.hasAnyKpiSignal.
  rewrite !andb_true_iff, !negb_true_iff, !orb_false_iff.
  rewrite hasAnyTx_false, !some_nonzero_false, !neqb_false.
  tauto.
Qed.

Lemma status_no_data_iff (args : Evaluations.Args) :
  Evaluations.status (Evaluations.buildFinanceEvaluation args) = Evaluations.no_data
  <-> Evaluations.noData (Evaluations.snapshot args) = true.
Proof.
  unfold Evaluations.buildFinanceEvaluation.
  destruct (Evaluations.noData (Evaluations.snapshot args)); simpl; split;
    intros; congruence.
Qed.

Lemma status_ok_iff (args : Evaluations.Args) :
  Evaluations.status (Evaluations.buildFinanceEvaluation args) = Evaluations.ok
  <-> Evaluations.noData (Evaluations.snapshot args) = false.
Proof.
  unfold Evaluations.buildFinanceEvaluation.
  destruct (Evaluations.noData (Evaluations.snapshot args)); simpl; split;
    intros; congruence.
Qed.

(** C6: the status is "no_data" exactly when there is no recent transaction,
    every value of [points] and [series.total] is zero and the three KPI
    signals are zero; the result is then the fixed onboarding evaluation
    (score null, one "info" insight, two fixed links), whatever the spending
    summary; in every other case the status is "ok". *)
Theorem C6_no_data_detection (args : Evaluations.Args) :
  let e := Evaluations.buildFinanceEvaluation args in
  (Evaluations.status e = Evaluations.no_data
   <-> Spec.no_data_condition (Evaluations.snapshot args))
  /\ (Spec.no_data_condition (Evaluations.snapshot args) ->
      e = Evaluations.noDataEvaluation
      /\ Evaluations.score e = None
      /\ (exists i, Evaluations.insights e = [i]
                    /\ Evaluations.severity i = Evaluations.info)
      /\ Evaluations.nextActions e =
           [ Evaluations.mkNextAction "Connect a card and bank" "/banking";
             Evaluations.mkNextAction "View dashboard" "/dashboard" ])
  /\ (~ Spec.no_data_condition (Evaluations.snapshot args) ->
      Evaluations.status e = Evaluations.ok).
Proof.
  cbv zeta. split; [| split].
  - rewrite status_no_data_iff. apply noData_iff.
  - intro H. apply noData_iff in H.
    unfold Evaluations.buildFinanceEvaluation. rewrite H.
    split; [reflexivity |]. split; [reflexivity |]. split; [| reflexivity].
    eexists. split; reflexivity.
  - intro H. apply status_ok_iff.
    destruct (Evaluations.noData (Evaluations.snapshot args)) eqn:E; [| reflexivity].
    apply noData_iff in E. contradiction.
Qed.

(** C6 at the zero snapshot of a period. *)
Lemma C6_no_data_detection_witness :
  Evaluations.buildFinanceEvaluation
    (Evaluations.mkArgs (FromTransactions.buildZeroDashboardSnapshot P_1W) None)
  = Evaluations.noDataEvaluation.
Proof.
  apply (C6_no_data_detection
           (Evaluations.mkArgs (FromTransactions.buildZeroDashboardSnapshot P_1W) None)).
  unfold Spec.no_data_condition. simpl.
  repeat split; try reflexivity; repeat constructor.
Defined.

(** C9: with data, the metrics block repeats the snapshot's KPI fields and
    the computed top-category share; that share is null without a summary,
    with a spend of 0 or with no category, and otherwise the first category's
    amount over the spend, clamped to [0, 1]. *)
Theorem C9_metrics_echo (args : Evaluations.Args) :
  let e := Evaluations.buildFinanceEvaluation args in
  let k := kpis (Evaluations.snapshot args) in
  let m := Evaluations.metrics e in
  Evaluations.status e = Evaluations.ok ->
  Evaluations.m_monthlySpend m = monthlySpend k
  /\ Evaluations.m_monthlySpendTrendPct m = monthlySpendTrendPct k
  /\ Evaluations.m_currentBalance m = currentBalance k
  /\ Evaluations.m_currentBalanceTrendPct m = currentBalanceTrendPct k
  /\ Evaluations.m_savingsRate m = savingsRate k
  /\ Evaluations.m_upcomingBillsEstimate m = upcomingBills k
  /\ Evaluations.m_categoryConcentrationTop1Pct m
     = Evaluations.top1ShareOf (Evaluations.spendingSummary args)
  /\ (Evaluations.spendingSummary args = None ->
      Evaluations.m_categoryConcentrationTop1Pct m = None)
  /\ (forall sm, Evaluations.spendingSummary args = Some sm ->
      Evaluations.spend sm == 0 ->
      Evaluations.m_categoryConcentrationTop1Pct m = None)
  /\ (forall sm, Evaluations.spendingSummary args = Some sm ->
      Evaluations.topCategories sm = [] ->
      Evaluations.m_categoryConcentrationTop1Pct m = None)
  /\ (forall sm top1 rest, Evaluations.spendingSummary args = Some sm ->
      0 < Evaluations.spend sm ->
      Evaluations.topCategories sm = top1 :: rest ->
      Evaluations.m_categoryConcentrationTop1Pct m
      = Some (Evaluations.clamp (Finance.amount top1 / Evaluations.spend sm) 0 1)).
Proof.
  cbv zeta. intro Hok. apply status_ok_iff in Hok.
  unfold Evaluations.buildFinanceEvaluation. rewrite Hok.
  cbn [Evaluations.metrics Evaluations.m_monthlySpend Evaluations.m_monthlySpendTrendPct
       Evaluations.m_currentBalance Evaluations.m_currentBalanceTrendPct
       Evaluations.m_savingsRate Evaluations.m_upcomingBillsEstimate
       Evaluations.m_categoryConcentrationTop1Pct].
  repeat (split; [reflexivity |]).
  split; [| split; [| split]].
  - intro H. rewrite H. reflexivity.
  - intros sm H Hz. rewrite H. unfold Evaluations.top1ShareOf.
    assert (E : gtb (Evaluations.spend sm) 0 = false).
    { destruct (gtb (Evaluations.spend sm) 0) eqn:G; [| reflexivity].
      apply gtb_true in G. lra. }
    rewrite E. reflexivity.
  - intros sm H Hn. rewrite H. unfold Evaluations.top1ShareOf. rewrite Hn.
    destruct (gtb (Evaluations.spend sm) 0); reflexivity.
  - intros sm top1 rest H Hp Ht. rewrite H. unfold Evaluations.top1ShareOf. rewrite Ht.
    apply gtb_true in Hp. rewrite Hp. reflexivity.
Qed.

(** C9 at a snapshot with a balance of 120 and a summary whose leading
    category holds 30 of 40 spent. *)
Lemma C9_metrics_echo_witness :
  let s :=
    {| period := P_1M; currencyCode := None; labels := [];
       series := mkSpendingSeries [] [] [] []; points := [];
       kpis := mkDashboardKpis 120 0 40 0 0 0 0 0;
       recentTransactions := [] |} in
  let sm :=
    Evaluations.mkSpendingSummary "PAST_30_DAYS" 0 40 (- (40))
      [Finance.mkCategoryAmount "Groceries" 30; Finance.mkCategoryAmount "Travel" 10] in
  let m := Evaluations.metrics
             (Evaluations.buildFinanceEvaluation (Evaluations.mkArgs s (Some sm))) in
  Evaluations.m_currentBalance m = 120
  /\ Evaluations.m_categoryConcentrationTop1Pct m
     = Some (Evaluations.clamp (30 / 40) 0 1).
Proof.
  intros s sm m.
  assert (Hok : Evaluations.status
                  (Evaluations.buildFinanceEvaluation (Evaluations.mkArgs s (Some sm)))
                = Evaluations.ok) by reflexivity.
  pose proof (C9_metrics_echo (Evaluations.mkArgs s (Some sm)) Hok) as H.
  cbv zeta in H.
  destruct H as (_ & _ & Hb & _ & _ & _ & _ & _ & _ & _ & Hshare).
  split.
  - exact Hb.
  - apply (Hshare sm (Finance.mkCategoryAmount "Groceries" 30)
             [Finance.mkCategoryAmount "Travel" 10]); [reflexivity | | reflexivity].
    simpl. lra.
Defined.

Lemma incomeInsight_shape (sr : number) (ss : option Evaluations.SpendingSummary) :
  Evaluations.incomeInsight sr ss = []
  \/ exists d, Evaluations.incomeInsight sr ss
               = [Evaluations.mkInsight Evaluations.warn "Income not detected" d].
Proof.
  unfold Evaluations.incomeInsight.
  destruct (_ && _ && _); [right; eexists; reflexivity | left; reflexivity].
Qed.

Lemma trendInsight_shape (st : number) :
  Evaluations.trendInsight st = []
  \/ (exists d, Evaluations.trendInsight st
                = [Evaluations.mkInsight Evaluations.risk "Spending is trending up" d])
  \/ (exists d, Evaluations.trendInsight st
                = [Evaluations.mkInsight Evaluations.info "Spending is trending down" d]).
Proof.
  unfold Evaluations.trendInsight.
  destruct (gtb st (15 # 100)); [right; left; eexists; reflexivity |].
  destruct (ltb st (- (15 # 100))); [right; right; eexists; reflexivity | left; reflexivity].
Qed.

Lemma billsInsight_shape (k : DashboardKpis) :
  Evaluations.billsInsight k = []
  \/ exists d, Evaluations.billsInsight k
               = [Evaluations.mkInsight Evaluations.info "Upcoming bills estimate" d].
Proof.
  unfold Evaluations.billsInsight.
  destruct (gtb _ 0); [right; eexists; reflexivity | left; reflexivity].
Qed.

Lemma concentrationInsight_shape (t1 : option number) (ss : option Evaluations.SpendingSummary) :
  Evaluations.concentrationInsight t1 ss = []
  \/ exists d, Evaluations.concentrationInsight t1 ss
               = [Evaluations.mkInsight Evaluations.warn "Spending is concentrated" d].
Proof.
  unfold Evaluations.concentrationInsight.
  destruct t1 as [sh |]; [| left; reflexivity].
  destruct ss as [sm |]; [| left; reflexivity].
  destruct (gtb sh (1 # 2)); [| left; reflexivity].
  destruct (Evaluations.topCategories sm); [left; reflexivity | right; eexists; reflexivity].
Qed.

(** Two string literals differ: decided by the boolean comparison. *)
Ltac literal_mismatch H :=
  apply String.eqb_eq in H; vm_compute in H; discriminate H.

Lemma single_title (t t' : string) (l : list Evaluations.Insight)
    (s : Evaluations.Severity) :
  (l = [] \/ exists d, l = [Evaluations.mkInsight s t' d]) ->
  In t (map Evaluations.title l) -> t = t'.
Proof.
  intros [-> | [d ->]]; simpl.
  - intros [].
  - intros [H | []]. now symmetry.
Qed.

Lemma single_length (l : list Evaluations.Insight) (s : Evaluations.Severity) (t' : string) :
  (l = [] \/ exists d, l = [Evaluations.mkInsight s t' d]) -> (List.length l <= 1)%nat.
Proof. intros [-> | [d ->]]; simpl; lia. Qed.

Lemma trendInsight_length (st : number) :
  (List.length (Evaluations.trendInsight st) <= 1)%nat.
Proof.
  destruct (trendInsight_shape st) as [-> | [[d ->] | [d ->]]]; simpl; lia.
Qed.

(** The two trend insights are the two branches of one conditional. *)
Lemma trendInsight_exclusive (st : number) :
  ~ (In "Spending is trending up"%string (map Evaluations.title (Evaluations.trendInsight st))
     /\ In "Spending is trending down"%string
           (map Evaluations.title (Evaluations.trendInsight st))).
Proof.
  destruct (trendInsight_shape st) as [-> | [[d ->] | [d ->]]]; simpl.
  - intros [[] _].
  - intros [_ [H | []]]. literal_mismatch H.
  - intros [[H | []] _]. literal_mismatch H.
Qed.

(** C10: with data, there are at most four insights, each of severity
    "info", "warn" or "risk", and "Spending is trending up" and "Spending is
    trending down" never appear together. *)
Theorem C10_insights_shape (args : Evaluations.Args) :
  let e := Evaluations.buildFinanceEvaluation args in
  let titles := map Evaluations.title (Evaluations.insights e) in
  Evaluations.status e = Evaluations.ok ->
  (List.length (Evaluations.insights e) <= 4)%nat
  /\ Forall (fun i => Evaluations.severity i = Evaluations.info
                      \/ Evaluations.severity i = Evaluations.warn
                      \/ Evaluations.severity i = Evaluations.risk)
            (Evaluations.insights e)
  /\ ~ (In "Spending is trending up"%string titles
        /\ In "Spending is trending down"%string titles).
Proof.
  cbv zeta. intro Hok. apply status_ok_iff in Hok.
  unfold Evaluations.buildFinanceEvaluation. rewrite Hok.
  cbn [Evaluations.insights].
  set (k := kpis (Evaluations.snapshot args)).
  set (ss := Evaluations.spendingSummary args).
  pose proof (incomeInsight_shape (savingsRate k) ss) as HA.
  pose proof (billsInsight_shape k) as HC.
  pose proof (concentrationInsight_shape (Evaluations.top1ShareOf ss) ss) as HD.
  split; [| split].
  - rewrite !length_app.
    pose proof (single_length _ _ _ HA). pose proof (trendInsight_length (monthlySpendTrendPct k)).
    pose proof (single_length _ _ _ HC). pose proof (single_length _ _ _ HD). lia.
  - apply Forall_forall. intros i _. destruct (Evaluations.severity i); auto.
  - rewrite !map_app. intros [Hup Hdown].
    apply in_app_or in Hup. destruct Hup as [Hup | Hup].
    { apply (single_title _ _ _ _ HA) in Hup. literal_mismatch Hup. }
    apply in_app_or in Hup. destruct Hup as [Hup | Hup].
    2: { apply in_app_or in Hup. destruct Hup as [Hup | Hup].
         - apply (single_title _ _ _ _ HC) in Hup. literal_mismatch Hup.
         - apply (single_title _ _ _ _ HD) in Hup. literal_mismatch Hup. }
    apply in_app_or in Hdown. destruct Hdown as [Hdown | Hdown].
    { apply (single_title _ _ _ _ HA) in Hdown. literal_mismatch Hdown. }
    apply in_app_or in Hdown. destruct Hdown as [Hdown | Hdown].
    2: { apply in_app_or in Hdown. destruct Hdown as [Hdown | Hdown].
         - apply (single_title _ _ _ _ HC) in Hdown. literal_mismatch Hdown.
         - apply (single_title _ _ _ _ HD) in Hdown. literal_mismatch Hdown. }
    exact (trendInsight_exclusive _ (conj Hup Hdown)).
Qed.

(** C10 at a snapshot whose spend trend is +20%. *)
Lemma C10_insights_shape_witness :
  let s :=
    {| period := P_1M; currencyCode := None; labels := [];
       series := mkSpendingSeries [] [] [] []; points := [];
       kpis := mkDashboardKpis 0 0 100 (2 # 10) 0 0 0 0;
       recentTransactions := [] |} in
  (List.length (Evaluations.insights
     (Evaluations.buildFinanceEvaluation (Evaluations.mkArgs s None))) <= 4)%nat.
Proof.
  intro s.
  apply (C10_insights_shape (Evaluations.mkArgs s None)). reflexivity.
Defined.

(* ================================================================== *)
(** * The chart loop: shape and balance of the accumulators *)
(* ================================================================== *)

Lemma add_at_length (l : list number) (idx : nat) (v : number) :
  List.length (add_at l idx v) = List.length l.
Proof.
  revert idx. induction l as [| x l IH]; intros [| idx]; simpl; auto.
Qed.

(** Reading a cell after [arr[idx] += v]. *)
Lemma nth_add_at (l : list number) (idx i : nat) (v : number) :
  nth i (add_at l idx v) 0
  = if (i =? idx)%nat && (idx <? List.length l)%nat then nth i l 0 + v else nth i l 0.
Proof.
  revert idx i. induction l as [| x l IH]; intros idx i.
  - simpl. destruct i; rewrite andb_false_r; reflexivity.
  - destruct idx as [| idx]; destruct i as [| i]; simpl; try reflexivity.
    rewrite IH. reflexivity.
Qed.

Lemma nth_zeros (n i : nat) : nth i (Array_fill n 0) 0 = 0.
Proof.
  unfold Array_fill. revert i. induction n as [| n IH]; intros [| i]; simpl; auto.
Qed.

Lemma chart_step_balanced (cfg : FromTransactions.BucketConfig) (endMs : Z)
    (n : nat) (b : FromTransactions.Buckets) (t : FromTransactions.TxLike) :
  Spec.balanced n b -> Spec.balanced n (FromTransactions.chart_step cfg endMs b t).
Proof.
  intros (Ht & He & Hl & Hs & Hsum).
  unfold FromTransactions.chart_step.
  destruct (geb _ 0); [repeat split; assumption |].
  destruct (_ || _); [repeat split; assumption |].
  set (idx := toIndex _). set (v := - FromTransactions.tx_amount t).
  destruct (FromTransactions.mapCategory _); unfold Spec.balanced; simpl;
    rewrite ?add_at_length; repeat (split; [assumption |]);
    intro i; rewrite !nth_add_at, ?Ht, ?He, ?Hl, ?Hs;
    specialize (Hsum i);
    destruct ((i =? idx)%nat && (idx <? n)%nat); lra.
Qed.

Lemma chart_loop_balanced (cfg : FromTransactions.BucketConfig) (endMs : Z)
    (txs : list FromTransactions.TxLike) :
  Spec.balanced (FromTransactions.len cfg) (FromTransactions.chart_loop cfg endMs txs).
Proof.
  unfold FromTransactions.chart_loop.
  set (b0 := FromTransactions.mkBuckets _ _ _ _).
  assert (H0 : Spec.balanced (FromTransactions.len cfg) b0).
  { unfold Spec.balanced, b0.
    cbn [FromTransactions.b_total FromTransactions.b_essentials
         FromTransactions.b_leisure FromTransactions.b_subscriptions].
    unfold Array_fill at 1 2 3 4. rewrite !repeat_length.
    repeat (split; [reflexivity |]). intro i.
    rewrite !nth_zeros. lra. }
  clearbody b0. revert b0 H0.
  induction txs as [| t txs IH]; intros b0 H0; simpl.
  - exact H0.
  - apply IH. apply chart_step_balanced. exact H0.
Qed.

(** Rounding a total and its three parts separately moves them at most one
    unit apart. *)
Lemma round_sum_close (T E L S : Q) :
  T == E + L + S ->
  Qabs (Math_round T - (Math_round E + Math_round L + Math_round S)) <= 1.
Proof.
  intro H.
  pose proof (Math_round_close T) as HT. pose proof (Math_round_close E) as HE.
  pose proof (Math_round_close L) as HL. pose proof (Math_round_close S) as HS.
  unfold Math_round in *.
  set (zT := Qfloor (T + (1 # 2))) in *. set (zE := Qfloor (E + (1 # 2))) in *.
  set (zL := Qfloor (L + (1 # 2))) in *. set (zS := Qfloor (S + (1 # 2))) in *.
  assert (Hd : inject_Z zT - (inject_Z zE + inject_Z zL + inject_Z zS)
               = inject_Z (zT - (zE + zL + zS))).
  { unfold Z.sub. rewrite !inject_Z_plus, inject_Z_opp, !inject_Z_plus. reflexivity. }
  assert (Hlo : inject_Z (- 2) < inject_Z (zT - (zE + zL + zS))).
  { rewrite <- Hd. change (inject_Z (- 2)) with (- (2)). lra. }
  assert (Hhi : inject_Z (zT - (zE + zL + zS)) < inject_Z 2).
  { rewrite <- Hd. change (inject_Z 2) with 2. lra. }
  rewrite <- Zlt_Qlt in Hlo, Hhi.
  rewrite Hd. apply Qabs_Qle_condition. split.
  - change (- (1)) with (inject_Z (- 1)). rewrite <- Zle_Qle. lia.
  - change 1 with (inject_Z 1). rewrite <- Zle_Qle. lia.
Qed.

(* ================================================================== *)
(** * Strings: substring search and case *)
(* ================================================================== *)

Lemma prefix_iff_app (p s : string) :
  prefix p s = true <-> exists post, s = (p ++ post)%string.
Proof.
  revert s. induction p as [| a p IH]; intro s.
  - simpl. destruct s; split; intros; try reflexivity; eexists; reflexivity.
  - destruct s as [| b s]; simpl.
    + split; [discriminate | intros [post H]; discriminate H].
    + destruct (ascii_dec a b) as [-> | Hne].
      * rewrite IH. split; intros [post H]; exists post; [now rewrite H | now inversion H].
      * split; [discriminate | intros [post H]; inversion H; congruence].
Qed.

Lemma includes_unfold (s pat : string) :
  includes s pat
  = if prefix pat s then true
    else match s with EmptyString => false | String _ s' => includes s' pat end.
Proof. destruct s; reflexivity. Qed.

(** [s.includes(pat)] holds exactly when [pat] occurs inside [s]. *)
Lemma includes_iff (s pat : string) :
  includes s pat = true <-> exists pre post, s = (pre ++ pat ++ post)%string.
Proof.
  split.
  - induction s as [| c s IH]; rewrite includes_unfold;
      destruct (prefix pat _) eqn:E; intro H; try discriminate H.
    + apply prefix_iff_app in E. destruct E as [post E]. exists EmptyString, post. exact E.
    + apply prefix_iff_app in E. destruct E as [post E]. exists EmptyString, post. exact E.
    + destruct (IH H) as (pre & post & ->). exists (String c pre), post. reflexivity.
  - intros (pre & post & ->). induction pre as [| c pre IH]; rewrite includes_unfold.
    + simpl. assert (E : prefix pat (pat ++ post) = true)
        by (apply prefix_iff_app; eexists; reflexivity).
      rewrite E. reflexivity.
    + destruct (prefix pat _); [reflexivity | exact IH].
Qed.

Lemma toUpperCase_app (a b : string) :
  toUpperCase (a ++ b) = (toUpperCase a ++ toUpperCase b)%string.
Proof.
  induction a as [| c a IH]; simpl; [reflexivity | now rewrite IH].
Qed.

(** A split of the upper-cased string comes from a split of the string. *)
Lemma toUpperCase_split (s a b : string) :
  toUpperCase s = (a ++ b)%string ->
  exists s1 s2, s = (s1 ++ s2)%string /\ toUpperCase s1 = a /\ toUpperCase s2 = b.
Proof.
  revert s. induction a as [| c a IH]; intros s H.
  - exists EmptyString, s. repeat split. exact H.
  - destruct s as [| d s]; simpl in H; [discriminate H |].
    inversion H as [[Hc Hs]].
    destruct (IH s Hs) as (s1 & s2 & -> & H1 & H2).
    exists (String d s1), s2. simpl. rewrite H1. repeat split. exact H2.
Qed.

(** Searching the upper-cased label for an upper-case token is a
    case-insensitive substring match. *)
Lemma includes_upper_iff (label token : string) :
  toUpperCase token = token ->
  includes (toUpperCase label) token = true <-> Spec.ci_contains label token.
Proof.
  intro Htok. unfold Spec.ci_contains, Spec.same_ignoring_case.
  rewrite includes_iff, Htok. split.
  - intros (pre & post & H).
    apply toUpperCase_split in H. destruct H as (s1 & s23 & -> & H1 & H23).
    apply toUpperCase_split in H23. destruct H23 as (s2 & s3 & -> & H2 & H3).
    exists s1, s2, s3. split; [reflexivity | exact H2].
  - intros (pre & mid & post & -> & Hm).
    exists (toUpperCase pre), (toUpperCase post).
    rewrite !toUpperCase_app, Hm. reflexivity.
Qed.

Lemma mapCategory_rule (raw : option string) :
  Spec.category_rule raw (FromTransactions.mapCategory raw).
Proof.
  unfold Spec.category_rule, FromTransactions.mapCategory.
  cbv zeta. set (l := nullish raw EmptyString).
  assert (Hsub : includes (toUpperCase l) "SUBSCRIPT" || includes (toUpperCase l) "SERVICE"
                 || includes (toUpperCase l) "STREAM" = true
                 <-> Spec.subscription_label l).
  { unfold Spec.subscription_label. rewrite !orb_true_iff.
    rewrite !includes_upper_iff by reflexivity. tauto. }
  assert (Hlei : includes (toUpperCase l) "ENTERTAIN" || includes (toUpperCase l) "TRAVEL"
                 || includes (toUpperCase l) "TRANSPORT"
                 || includes (toUpperCase l) "RECREATION" = true
                 <-> Spec.leisure_label l).
  { unfold Spec.leisure_label. rewrite !orb_true_iff.
    rewrite !includes_upper_iff by reflexivity. tauto. }
  destruct (_ || _ || includes (toUpperCase l) "STREAM") eqn:E1.
  - apply Hsub. reflexivity.
  - assert (Hns : ~ Spec.subscription_label l)
      by (intro H; apply Hsub in H; discriminate H).
    destruct (_ || _ || _ || _) eqn:E2.
    + split; [exact Hns | apply Hlei; reflexivity].
    + split; [exact Hns |]. intro H. apply Hlei in H. discriminate H.
Qed.

(** The keyword rule names one category, the one [mapCategory] returns. *)
Lemma category_rule_iff (raw : option string) (c : SpendingCategory) :
  Spec.category_rule raw c <-> FromTransactions.mapCategory raw = c.
Proof.
  split.
  - intro H. pose proof (mapCategory_rule raw) as H'.
    unfold Spec.category_rule in H, H'. cbv zeta in H, H'.
    destruct (FromTransactions.mapCategory raw); destruct c;
      try reflexivity; exfalso; tauto.
  - intros <-. apply mapCategory_rule.
Qed.

(* ================================================================== *)
(** * The chart loop computes the bucket sums *)
(* ================================================================== *)

(** Clamping an integer between 0 and [n - 1] as numbers, then reading it as
    an index, is clamping it as an integer. *)
Lemma Qfloor_clamp_Z (n z : Z) :
  Qfloor (Math_max 0 (Math_min (inject_Z n - 1) (inject_Z z)))
  = Z.max 0 (Z.min (n - 1) z).
Proof.
  assert (Hhi : inject_Z n - 1 == inject_Z (n - 1)).
  { unfold Z.sub. rewrite inject_Z_plus, inject_Z_opp. reflexivity. }
  unfold Math_max, Math_min.
  destruct (Qle_bool_cases (inject_Z n - 1) (inject_Z z)) as [[E1 H1] | [E1 H1]];
    rewrite E1; rewrite Hhi in H1.
  - rewrite <- Zle_Qle in H1.
    destruct (Qle_bool_cases 0 (inject_Z n - 1)) as [[E2 H2] | [E2 H2]];
      rewrite E2; rewrite Hhi in H2; change 0 with (inject_Z 0) in H2.
    + rewrite <- Zle_Qle in H2. rewrite (Qfloor_comp _ _ Hhi), Qfloor_Z. lia.
    + rewrite <- Zlt_Qlt in H2. change (Qfloor 0) with 0%Z. lia.
  - rewrite <- Zlt_Qlt in H1.
    destruct (Qle_bool_cases 0 (inject_Z z)) as [[E2 H2] | [E2 H2]];
      rewrite E2; change 0 with (inject_Z 0) in H2.
    + rewrite <- Zle_Qle in H2. rewrite Qfloor_Z. lia.
    + rewrite <- Zlt_Qlt in H2. change (Qfloor 0) with 0%Z. lia.
Qed.

Lemma toIndex_bucketIdx (cfg : FromTransactions.BucketConfig) (now ts : Z) :
  toIndex (FromTransactions.bucketIdx cfg now ts) = Z.to_nat (Spec.bucket_of cfg now ts).
Proof.
  unfold toIndex, FromTransactions.bucketIdx, FromTransactions.clamp, Math_floor,
    Spec.bucket_of, Spec.bucketWidth, Spec.windowStart,
    FromTransactions.segmentMs, FromTransactions.startMs.
  rewrite Qfloor_clamp_Z.
  replace (now - (now - FromTransactions.windowDays cfg * FromTransactions.msPerDay))%Z
    with (FromTransactions.windowDays cfg * FromTransactions.msPerDay)%Z by lia.
  reflexivity.
Qed.

Lemma bucket_of_range (cfg : FromTransactions.BucketConfig) (now ts : Z) :
  (1 <= FromTransactions.len cfg)%nat ->
  (0 <= Spec.bucket_of cfg now ts <= Z.of_nat (FromTransactions.len cfg) - 1)%Z.
Proof. unfold Spec.bucket_of. lia. Qed.

(** Income and out-of-window transactions leave the accumulators alone. *)
Lemma chart_step_skip (cfg : FromTransactions.BucketConfig) (now : Z)
    (b : FromTransactions.Buckets) (t : FromTransactions.TxLike) :
  Spec.in_chart cfg now t = false -> FromTransactions.chart_step cfg now b t = b.
Proof.
  unfold Spec.in_chart, Spec.windowStart, FromTransactions.chart_step,
    FromTransactions.startMs, ltb, geb.
  destruct (Qle_bool 0 (FromTransactions.tx_amount t)); [reflexivity |].
  rewrite Z.geb_leb.
  destruct (Z.leb_spec (now - FromTransactions.windowDays cfg * FromTransactions.msPerDay)
              (FromTransactions.tx_date t));
    destruct (Z.ltb_spec (FromTransactions.tx_date t) now);
    destruct (Z.ltb_spec (FromTransactions.tx_date t)
                (now - FromTransactions.windowDays cfg * FromTransactions.msPerDay));
    destruct (Z.leb_spec now (FromTransactions.tx_date t));
    simpl; intro Hin; try reflexivity; try discriminate Hin; lia.
Qed.

Lemma getBucketConfig_len (p : FinancePeriod) :
  (1 <= FromTransactions.len (FromTransactions.getBucketConfig p))%nat.
Proof. destruct p; simpl; lia. Qed.

(* ================================================================== *)
(** * Insertion-ordered maps *)
(* ================================================================== *)

Section MapFacts.
Context {V : Type}.
Implicit Types (m : Map V) (k : string) (v : V).

Lemma Map_get_None m k : Map_get m k = None <-> ~ In k (Spec.keys m).
Proof.
  induction m as [| [k' v'] m IH]; simpl.
  - tauto.
  - destruct (String.eqb_spec k k') as [-> | Hne].
    + split; [discriminate | intro H; exfalso; apply H; now left].
    + rewrite IH. split; [intros H [E | I]; [congruence | contradiction] | tauto].
Qed.

Lemma Map_get_set_same m k v : Map_get (Map_set m k v) k = Some v.
Proof.
  induction m as [| [k' v'] m IH]; simpl.
  - now rewrite String.eqb_refl.
  - destruct (String.eqb_spec k k') as [-> | Hne]; simpl.
    + now rewrite String.eqb_refl.
    + destruct (String.eqb_spec k k'); [contradiction | exact IH].
Qed.

Lemma Map_get_set_other m k k' v :
  k' <> k -> Map_get (Map_set m k v) k' = Map_get m k'.
Proof.
  intro Hne. induction m as [| [k0 v0] m IH]; simpl.
  - destruct (String.eqb_spec k' k); [contradiction | reflexivity].
  - destruct (String.eqb_spec k k0) as [-> | Hk]; simpl.
    + destruct (String.eqb_spec k' k0); [contradiction | reflexivity].
    + destruct (String.eqb_spec k' k0); [reflexivity | exact IH].
Qed.

(** Setting a key already present leaves the key order alone. *)
Lemma keys_set_present m k v :
  In k (Spec.keys m) -> Spec.keys (Map_set m k v) = Spec.keys m.
Proof.
  induction m as [| [k' v'] m IH]; simpl; [tauto |].
  intros [-> | Hin].
  - now rewrite String.eqb_refl.
  - destruct (String.eqb_spec k k'); simpl; [reflexivity |].
    f_equal. apply IH. exact Hin.
Qed.

(** Setting a new key appends it. *)
Lemma keys_set_absent m k v :
  ~ In k (Spec.keys m) -> Spec.keys (Map_set m k v) = Spec.keys m ++ [k].
Proof.
  induction m as [| [k' v'] m IH]; simpl; [reflexivity |].
  intro Hnin. destruct (String.eqb_spec k k') as [-> | Hne]; simpl.
  - exfalso. apply Hnin. now left.
  - f_equal. apply IH. tauto.
Qed.

Lemma Map_get_In m k v :
  NoDup (Spec.keys m) -> In (k, v) m -> Map_get m k = Some v.
Proof.
  induction m as [| [k' v'] m IH]; simpl; [tauto |].
  intros Hnd [E | Hin].
  - inversion E; subst. now rewrite String.eqb_refl.
  - inversion Hnd as [| ? ? Hnotin Hnd']; subst.
    destruct (String.eqb_spec k k') as [-> | Hne].
    + exfalso. apply Hnotin. change k' with (fst (k', v)). now apply in_map.
    + now apply IH.
Qed.

End MapFacts.

Lemma first_index_lt (k : string) (l : list string) :
  In k l -> (Spec.first_index k l < List.length l)%nat.
Proof.
  induction l as [| x l IH]; simpl; [tauto |].
  intro H. destruct (String.eqb_spec k x) as [-> | Hne]; [lia |].
  destruct H as [E | H]; [congruence |]. apply IH in H. lia.
Qed.

Lemma first_index_app_in (k : string) (l l' : list string) :
  In k l -> Spec.first_index k (l ++ l') = Spec.first_index k l.
Proof.
  induction l as [| x l IH]; simpl; [tauto |].
  intro H. destruct (String.eqb_spec k x) as [-> | Hne]; [reflexivity |].
  destruct H as [E | H]; [congruence |]. now rewrite IH.
Qed.

Lemma first_index_app_new (k : string) (l : list string) :
  ~ In k l -> Spec.first_index k (l ++ [k]) = List.length l.
Proof.
  induction l as [| x l IH]; simpl.
  - now rewrite String.eqb_refl.
  - intro H. destruct (String.eqb_spec k x) as [-> | Hne]; [tauto |].
    rewrite IH by tauto. reflexivity.
Qed.

Lemma StronglySorted_weaken {A : Type} (R R' : A -> A -> Prop) (l : list A) :
  (forall a b, In a l -> In b l -> R a b -> R' a b) ->
  StronglySorted R l -> StronglySorted R' l.
Proof.
  intros Himp Hs. induction Hs as [| a l Hs IH Hall]; constructor.
  - apply IH. intros x y Hx Hy. apply Himp; now right.
  - rewrite Forall_forall in *. intros y Hy. apply Himp; [now left | now right | auto].
Qed.

Lemma StronglySorted_snoc {A : Type} (R : A -> A -> Prop) (l : list A) (x : A) :
  StronglySorted R l -> Forall (fun a => R a x) l -> StronglySorted R (l ++ [x]).
Proof.
  intros Hs Hall. induction Hs as [| a l Hs IH Ha]; simpl.
  - constructor; constructor.
  - inversion Hall; subst. constructor.
    + now apply IH.
    + apply Forall_app. split; [exact Ha | now constructor].
Qed.

(** One more [set] keeps the keys in first-seen order. *)
Lemma keys_order_step {V : Type} (ks : list string) (m : Map V) (k : string) (v : V) :
  Spec.keys_in_first_seen_order ks m ->
  Spec.keys_in_first_seen_order (ks ++ [k]) (Map_set m k v).
Proof.
  intros (Hnd & Hin & Hs). unfold Spec.keys_in_first_seen_order.
  destruct (in_dec string_dec k (Spec.keys m)) as [Hk | Hk].
  - rewrite (keys_set_present _ _ _ Hk). split; [exact Hnd |]. split.
    + intro k'. rewrite in_app_iff, Hin. simpl.
      split; [tauto |]. intros [H | [<- | []]]; [exact H | now apply Hin].
    + apply (StronglySorted_weaken (Spec.first_seen_before ks)); [| exact Hs].
      unfold Spec.first_seen_before. intros a b Ha Hb Hab.
      rewrite !first_index_app_in by now apply Hin. exact Hab.
  - rewrite (keys_set_absent _ _ _ Hk). split; [| split].
    + apply NoDup_app; [exact Hnd | constructor; [intros [] | constructor] |].
      intros a Ha [<- | []]. contradiction.
    + intro k'. rewrite !in_app_iff, Hin. reflexivity.
    + apply StronglySorted_snoc.
      * apply (StronglySorted_weaken (Spec.first_seen_before ks)); [| exact Hs].
        unfold Spec.first_seen_before. intros a b Ha Hb Hab.
        rewrite !first_index_app_in by now apply Hin. exact Hab.
      * apply Forall_forall. intros a Ha. unfold Spec.first_seen_before.
        rewrite first_index_app_in by now apply Hin.
        rewrite first_index_app_new by (intro H; apply Hk; now apply Hin).
        apply first_index_lt. now apply Hin.
Qed.

Lemma keys_order_empty {V : Type} :
  Spec.keys_in_first_seen_order [] (@Map_new V).
Proof.
  unfold Spec.keys_in_first_seen_order, Map_new. simpl.
  split; [constructor |]. split; [tauto | constructor].
Qed.

(* ================================================================== *)
(** * Currency inference *)
(* ================================================================== *)

Lemma isUpper_toUpperChar (x : ascii) : isUpper (toUpperChar x) = Spec.isLetter x.
Proof. destruct x as [[] [] [] [] [] [] [] []]; reflexivity. Qed.

(** A code is kept when, trimmed, it is three ASCII letters; it is kept in
    upper case. *)
Lemma normalizeCurrencyCode_spec (raw : option string) (c : string) :
  Currency.normalizeCurrencyCode raw = Some c
  <-> Spec.three_letters (trim (nullish raw EmptyString))
      /\ c = toUpperCase (trim (nullish raw EmptyString)).
Proof.
  unfold Currency.normalizeCurrencyCode, Spec.three_letters. cbv zeta.
  set (t := trim (nullish raw EmptyString)).
  destruct t as [| x [| y [| z [| w t]]]]; simpl;
    try (split; [discriminate | intros [(x' & y' & z' & H & _) _]; discriminate H]).
  rewrite !isUpper_toUpperChar.
  destruct (Spec.isLetter x) eqn:Ex; destruct (Spec.isLetter y) eqn:Ey;
    destruct (Spec.isLetter z) eqn:Ez; simpl;
    try (split; [discriminate
                | intros [(x' & y' & z' & H & Hx & Hy & Hz) _]; inversion H; subst; congruence]).
  split.
  - intro H. inversion H. split; [| reflexivity].
    exists x, y, z. repeat split; assumption.
  - intros [_ ->]. reflexivity.
Qed.

Lemma normalizeCurrencyCode_truthy (raw : option string) (c : string) :
  Currency.normalizeCurrencyCode raw = Some c -> truthy c = true.
Proof.
  intro H. apply normalizeCurrencyCode_spec in H.
  destruct H as [(x & y & z & Ht & _) ->]. rewrite Ht. reflexivity.
Qed.

Lemma occurrences_app (c : string) (l l' : list string) :
  Spec.occurrences c (l ++ l') = (Spec.occurrences c l + Spec.occurrences c l')%nat.
Proof. unfold Spec.occurrences. apply count_occ_app. Qed.

Section Counting.
Context {Account : Type} (currencyCode : Account -> option string).

(** The first loop counts the normalized codes. *)
Lemma countAccount_counted (accounts : list Account) :
  Spec.counted (Spec.normalized_codes currencyCode accounts)
    (fold_left (Currency.countAccount currencyCode) accounts Map_new).
Proof.
  induction accounts as [| a accounts IH] using rev_ind.
  - split; [apply keys_order_empty | reflexivity].
  - rewrite fold_left_app. simpl fold_left.
    unfold Spec.normalized_codes in *. rewrite flat_map_app. simpl flat_map.
    set (codes := flat_map _ accounts) in *.
    set (m := fold_left _ accounts Map_new) in *.
    unfold Currency.countAccount.
    destruct (Currency.normalizeCurrencyCode (currencyCode a)) as [code |] eqn:En.
    2: { simpl. rewrite app_nil_r. exact IH. }
    rewrite (normalizeCurrencyCode_truthy _ _ En). simpl negb. cbv iota.
    rewrite app_nil_r. destruct IH as [Hk Hc]. split.
    + apply keys_order_step. exact Hk.
    + intro c. rewrite occurrences_app. unfold Spec.occurrences at 2. simpl.
      destruct (string_dec code c) as [-> | Hne].
      * rewrite Map_get_set_same. simpl. rewrite Hc. lia.
      * rewrite Map_get_set_other by congruence. rewrite Hc. lia.
Qed.

End Counting.

(** The second loop keeps the first entry of highest count. *)
Lemma pickBest_fold (es : list (string * nat)) :
  forall (best best' : option string) (bc bc' : nat),
  fold_left Currency.pickBest es (best, bc) = (best', bc') ->
  (forall e, In e es -> (snd e <= bc')%nat)
  /\ (bc <= bc')%nat
  /\ ((best' = best /\ bc' = bc)
      \/ exists es1 c es2,
           es = es1 ++ (c, bc') :: es2
           /\ best' = Some c
           /\ (bc < bc')%nat
           /\ forall e, In e es1 -> (snd e < bc')%nat).
Proof.
  induction es as [| [code count] es IH]; intros best best' bc bc' H; simpl in H.
  - inversion H; subst. split; [intros e [] |]. split; [lia | left; auto].
  - destruct (Nat.ltb_spec bc count) as [Hlt | Hge].
    + destruct (IH _ _ _ _ H) as (Hall & Hle & Hcase).
      split; [intros e [<- | He]; [simpl; lia | now apply Hall] |].
      split; [lia |]. right.
      destruct Hcase as [[-> ->] | (es1 & c & es2 & -> & -> & Hlt' & Hes1)].
      * exists [], code, es. repeat split; auto. intros e [].
      * exists ((code, count) :: es1), c, es2. repeat split; auto; try lia.
        intros e [<- | He]; [simpl; lia | now apply Hes1].
    + destruct (IH _ _ _ _ H) as (Hall & Hle & Hcase).
      split; [intros e [<- | He]; [simpl; lia | now apply Hall] |].
      split; [lia |].
      destruct Hcase as [[-> ->] | (es1 & c & es2 & -> & -> & Hlt' & Hes1)].
      * left; auto.
      * right. exists ((code, count) :: es1), c, es2. repeat split; auto.
        intros e [<- | He]; [simpl; lia | now apply Hes1].
Qed.

Lemma StronglySorted_mid {A : Type} (R : A -> A -> Prop) (l1 l2 : list A) (a b : A) :
  StronglySorted R (l1 ++ a :: l2) -> In b l2 -> R a b.
Proof.
  induction l1 as [| x l1 IH]; simpl; intros Hs Hb.
  - inversion Hs as [| ? ? _ Hall]; subst. rewrite Forall_forall in Hall. now apply Hall.
  - inversion Hs; subst. now apply IH.
Qed.

Lemma occurrences_pos (c : string) (l : list string) :
  In c l <-> (0 < Spec.occurrences c l)%nat.
Proof. unfold Spec.occurrences. apply count_occ_In. Qed.

(** From a counted map, the second loop returns the most frequent code,
    first seen among the most frequent. *)
Lemma pickBest_counted (codes : list string) (m : Map nat) (best : option string) (bc : nat) :
  Spec.counted codes m ->
  fold_left Currency.pickBest (Map_entries m) (None, 0%nat) = (best, bc) ->
  Spec.most_frequent_first_seen codes best.
Proof.
  intros [(Hnd & Hin & Hs) Hc] H. unfold Map_entries in H.
  assert (Hval : forall c n, In (c, n) m -> n = Spec.occurrences c codes).
  { intros c n Hm. rewrite <- Hc, (Map_get_In _ _ _ Hnd Hm). reflexivity. }
  assert (Hkey : forall c, In c codes -> exists n, In (c, n) m).
  { intros c Hcin. apply Hin in Hcin. unfold Spec.keys in Hcin.
    apply in_map_iff in Hcin. destruct Hcin as ([c' n] & E & Hm). simpl in E. subst.
    now exists n. }
  destruct (pickBest_fold _ _ _ _ _ H) as (Hall & _ & Hcase).
  destruct Hcase as [[-> ->] | (es1 & c & es2 & Hm & -> & Hpos & Hes1)].
  - simpl. destruct codes as [| c codes]; [reflexivity | exfalso].
    destruct (Hkey c (or_introl eq_refl)) as [n Hm].
    pose proof (Hall _ Hm) as Hle. simpl in Hle.
    pose proof (Hval _ _ Hm) as Hn.
    assert (0 < Spec.occurrences c (c :: codes))%nat
      by (apply occurrences_pos; now left).
    lia.
  - assert (Hcm : In (c, bc) m) by (rewrite Hm; apply in_elt).
    pose proof (Hval _ _ Hcm) as Hbc.
    simpl. split; [| split].
    + apply occurrences_pos. lia.
    + intro c'. destruct (in_dec string_dec c' codes) as [Hi | Hi].
      * destruct (Hkey _ Hi) as [n Hn].
        pose proof (Hall _ Hn) as Hle. simpl in Hle.
        rewrite <- (Hval _ _ Hn). lia.
      * unfold Spec.occurrences at 1. rewrite (count_occ_not_In string_dec) in Hi.
        rewrite Hi. lia.
    + intros c' Hne Heq.
      assert (Hi : In c' codes) by (apply occurrences_pos; lia).
      destruct (Hkey _ Hi) as [n Hn]. pose proof (Hval _ _ Hn) as Hn'.
      rewrite Hm in Hn. apply in_app_or in Hn. destruct Hn as [Hn | [E | Hn]].
      * apply Hes1 in Hn. simpl in Hn. lia.
      * inversion E. congruence.
      * unfold Spec.keys in Hs. rewrite Hm, map_app in Hs. simpl in Hs.
        apply (StronglySorted_mid _ _ _ _ _ Hs).
        change c' with (fst (c', n)). now apply in_map.
Qed.

(* ================================================================== *)
(** * The stable sort *)
(* ================================================================== *)

Section SortFacts.
Context {A : Type} (after : A -> A -> bool) (rank : A -> Q).
(** The comparator orders by descending [rank]. *)
Hypothesis after_spec : forall x y, after x y = true <-> rank x < rank y.
(** The order of the input. *)
Variable before : A -> A -> Prop.

Lemma insert_perm (x : A) (l : list A) : Permutation (insert after x l) (x :: l).
Proof.
  induction l as [| y l IH]; simpl; [reflexivity |].
  destruct (after x y); [| reflexivity].
  rewrite IH. apply perm_swap.
Qed.

Lemma sort_perm (l : list A) : Permutation (sort after l) l.
Proof.
  unfold sort. induction l as [| x l IH]; simpl; [reflexivity |].
  rewrite insert_perm. now constructor.
Qed.

Lemma insert_sorted (x : A) (l : list A) :
  StronglySorted (Spec.sorted_before rank before) l -> Forall (before x) l ->
  StronglySorted (Spec.sorted_before rank before) (insert after x l).
Proof.
  intros Hs Hb. induction Hs as [| y l Hs IH Hy]; simpl.
  - constructor; constructor.
  - inversion Hb as [| ? ? Hxy Hxl]; subst.
    destruct (after x y) eqn:E.
    + apply after_spec in E. constructor; [now apply IH |].
      apply (Permutation_Forall (Permutation_sym (insert_perm x l))).
      constructor; [left; exact E | exact Hy].
    + assert (Hge : rank y <= rank x).
      { apply Qnot_lt_le. intro H. apply after_spec in H. congruence. }
      constructor; [constructor; assumption |].
      constructor.
      * destruct (Qlt_le_dec (rank y) (rank x)) as [Hlt | Hle];
          [left; exact Hlt | right; split; [lra | exact Hxy]].
      * rewrite Forall_forall in *. intros z Hz.
        destruct (Hy z Hz) as [Hlt | [Heq Hyz]].
        -- left. lra.
        -- destruct (Qlt_le_dec (rank z) (rank x)) as [Hlt | Hle];
             [left; exact Hlt | right; split; [lra | now apply Hxl]].
Qed.

(** Sorting a list whose order is [before] ranks it by [sorted_before]. *)
Lemma sort_sorted (l : list A) :
  StronglySorted before l -> StronglySorted (Spec.sorted_before rank before) (sort after l).
Proof.
  unfold sort. induction 1 as [| x l Hs IH Hx]; simpl; [constructor |].
  apply insert_sorted; [exact IH |].
  apply (Permutation_Forall (Permutation_sym (sort_perm l))). exact Hx.
Qed.

End SortFacts.

Lemma StronglySorted_map {A B : Type} (f : A -> B) (R : B -> B -> Prop) (l : list A) :
  StronglySorted R (map f l) <-> StronglySorted (fun a b => R (f a) (f b)) l.
Proof.
  induction l as [| x l IH]; simpl.
  - split; constructor.
  - split; intro H; inversion H; subst; constructor;
      try (now apply IH); rewrite Forall_forall in *.
    + intros y Hy. match goal with H : forall _, In _ (map f l) -> _ |- _ => apply H end.
      now apply in_map.
    + intros y Hy. apply in_map_iff in Hy. destruct Hy as (a & <- & Ha). auto.
Qed.

(* ================================================================== *)
(** * Further properties of the snapshot builder *)
(* ================================================================== *)

Lemma StronglySorted_app_inv {A : Type} (R : A -> A -> Prop) (l1 l2 : list A) :
  StronglySorted R (l1 ++ l2) ->
  StronglySorted R l1 /\ StronglySorted R l2
  /\ forall a b, In a l1 -> In b l2 -> R a b.
Proof.
  induction l1 as [| x l1 IH]; simpl; intro H.
  - split; [constructor |]. split; [exact H | intros a b []].
  - inversion H as [| ? ? Hs Hall]; subst.
    destruct (IH Hs) as (H1 & H2 & H12).
    rewrite Forall_forall in Hall. split; [| split; [exact H2 |]].
    + constructor; [exact H1 |]. apply Forall_forall. intros y Hy.
      apply Hall, in_or_app. now left.
    + intros a b [<- | Ha] Hb; [apply Hall, in_or_app; now right | now apply H12].
Qed.

Lemma byDateDesc_spec (x y : FromTransactions.TxLike) :
  (0 <? FromTransactions.tx_date y - FromTransactions.tx_date x)%Z = true
  <-> inject_Z (FromTransactions.tx_date x) < inject_Z (FromTransactions.tx_date y).
Proof. rewrite <- Zlt_Qlt, Z.ltb_lt. lia. Qed.

(** The transactions sorted as [recentTransactions] sorts them: a
    rearrangement of the input in which no transaction precedes a newer
    one. *)
Lemma sort_by_date (txs : list FromTransactions.TxLike) :
  let sorted :=
    sort (fun a b => (0 <? FromTransactions.tx_date b - FromTransactions.tx_date a)%Z) txs in
  Permutation sorted txs
  /\ StronglySorted
       (fun a b => (FromTransactions.tx_date b <= FromTransactions.tx_date a)%Z) sorted.
Proof.
  cbv zeta. split; [apply sort_perm |].
  assert (Hin : StronglySorted (fun _ _ : FromTransactions.TxLike => True) txs).
  { induction txs; constructor; [assumption | apply Forall_forall; auto]. }
  apply (sort_sorted _ _ byDateDesc_spec) in Hin.
  refine (StronglySorted_weaken _ _ _ _ Hin).
  intros a b _ _ H. unfold Spec.sorted_before in H. rewrite Zle_Qle.
  destruct H as [H | [H _]]; lra.
Qed.

(** X1: the recent transactions are the display records of the 4 newest
    input transactions (all of them when there are fewer), newest first;
    nothing left out is newer than anything listed; a record carries a
    category exactly when its amount is negative. *)
Theorem X1_recent_transactions (clock : Date) (args : FromTransactions.Args) :
  let txs := FromTransactions.arg_transactions args in
  let recent :=
    recentTransactions (FromTransactions.buildDashboardSnapshotFromTransactions clock args) in
  (exists chosen rest,
      Permutation (chosen ++ rest) txs
      /\ recent = map FromTransactions.toDemoTransaction chosen
      /\ List.length chosen = Nat.min 4 (List.length txs)
      /\ StronglySorted
           (fun a b => (FromTransactions.tx_date b <= FromTransactions.tx_date a)%Z) chosen
      /\ forall c r, In c chosen -> In r rest ->
                     (FromTransactions.tx_date r <= FromTransactions.tx_date c)%Z)
  /\ Forall (fun d => (dt_category d = None <-> 0 <= dt_amount d)) recent.
Proof.
  cbv zeta.
  unfold FromTransactions.buildDashboardSnapshotFromTransactions.
  cbn [recentTransactions]. unfold slice0.
  destruct (sort_by_date (FromTransactions.arg_transactions args)) as [Hperm Hsorted].
  cbv zeta in Hperm, Hsorted.
  set (sorted := sort _ _) in *.
  rewrite firstn_map, firstn_firstn. change (Nat.min 4 6) with 4%nat.
  split.
  - exists (firstn 4 sorted), (skipn 4 sorted).
    rewrite firstn_skipn. split; [exact Hperm |]. split; [reflexivity |].
    split; [rewrite length_firstn, (Permutation_length Hperm); reflexivity |].
    rewrite <- (firstn_skipn 4 sorted) in Hsorted.
    apply StronglySorted_app_inv in Hsorted. destruct Hsorted as (H1 & _ & H12).
    split; [exact H1 | exact H12].
  - apply Forall_forall. intros d Hd. apply in_map_iff in Hd.
    destruct Hd as (t & <- & _). unfold FromTransactions.toDemoTransaction. simpl.
    destruct (ltb (FromTransactions.tx_amount t) 0) eqn:E.
    + apply ltb_true in E. split; [discriminate | intro; lra].
    + split; [| reflexivity]. intros _. apply Qnot_lt_le. intro H.
      apply ltb_true in H. congruence.
Qed.



Lemma Math_round_nonneg_integer (x : Q) : 0 <= x -> Props.nonneg_integer (Math_round x).
Proof.
  intro H. unfold Math_round. eexists. split; [| reflexivity].
  change 0%Z with (Qfloor 0). apply Qfloor_resp_le. lra.
Qed.





(** A loop over a filtered list is the loop over the whole list when the body
    passes over what the filter drops. *)
Lemma fold_left_filter_skip {A B : Type} (step : A -> B -> A) (keep : B -> bool)
    (l : list B) :
  (forall s t, keep t = false -> step s t = s) ->
  forall st, fold_left step (filter keep l) st = fold_left step l st.
Proof.
  intro Hskip. induction l as [| t l IH]; intro st; simpl; [reflexivity |].
  destruct (keep t) eqn:E; simpl.
  - apply IH.
  - rewrite (Hskip st t E). apply IH.
Qed.

Lemma filter_filter_implied {B : Type} (p keep : B -> bool) (l : list B) :
  (forall t, p t = true -> keep t = true) -> filter p (filter keep l) = filter p l.
Proof.
  intro Himp. induction l as [| t l IH]; simpl; [reflexivity |].
  destruct (keep t) eqn:E; simpl.
  - rewrite IH. reflexivity.
  - destruct (p t) eqn:Ep; [apply Himp in Ep; congruence | exact IH].
Qed.

Lemma chart_loop_cutoff (cfg : FromTransactions.BucketConfig) (now cutoff : Z)
    (txs : list FromTransactions.TxLike) :
  (cutoff <= FromTransactions.startMs cfg now)%Z ->
  FromTransactions.chart_loop cfg now
    (filter (fun t => (cutoff <=? FromTransactions.tx_date t)%Z) txs)
  = FromTransactions.chart_loop cfg now txs.
Proof.
  intro Hc. unfold FromTransactions.chart_loop. apply fold_left_filter_skip.
  intros b t Ht. apply Z.leb_gt in Ht. apply chart_step_skip.
  unfold Spec.in_chart, Spec.windowStart. unfold FromTransactions.startMs in Hc.
  destruct (Z.leb_spec
              (now - FromTransactions.windowDays cfg * FromTransactions.msPerDay)
              (FromTransactions.tx_date t)); [lia |].
  rewrite andb_false_r. reflexivity.
Qed.

Lemma sumRange_cutoff (txs : list FromTransactions.TxLike) (start end_ cutoff : Z) :
  (cutoff <= start)%Z ->
  FromTransactions.sumRange
    (filter (fun t => (cutoff <=? FromTransactions.tx_date t)%Z) txs) start end_
  = FromTransactions.sumRange txs start end_.
Proof.
  intro Hc. unfold FromTransactions.sumRange. apply fold_left_filter_skip.
  intros st t Ht. apply Z.leb_gt in Ht. unfold FromTransactions.sumRange_step.
  destruct (Z.ltb_spec (FromTransactions.tx_date t) start); [reflexivity | lia].
Qed.

Lemma fetch_window_covers (now : Z) (p : FinancePeriod) :
  (SnapshotFetch.from now p
   <= FromTransactions.startMs (FromTransactions.getBucketConfig p) now)%Z
  /\ (SnapshotFetch.from now p <= now - 2 * (30 * FromTransactions.msPerDay))%Z
  /\ (SnapshotFetch.from now p <= now - 7 * FromTransactions.msPerDay)%Z.
Proof.
  unfold SnapshotFetch.from, FromTransactions.startMs, FromTransactions.msPerDay.
  destruct p; simpl; lia.
Qed.

(** X3: the history fetched by the callers is enough.  Restricting the
    transactions to those dated on or after [now - maxDays(period)] days, as
    the query of [getFinanceSnapshotForUser] does, changes neither the series
    nor any KPI, the labels or the currency code of the snapshot. *)
Theorem X3_fetch_window_suffices (clock : Date) (args : FromTransactions.Args) :
  let now := nullish (FromTransactions.arg_now args) clock in
  let fetched :=
    filter (SnapshotFetch.inHistory now (FromTransactions.arg_period args))
      (FromTransactions.arg_transactions args) in
  let a := FromTransactions.buildDashboardSnapshotFromTransactions clock
             (Props.with_transactions args fetched) in
  let b := FromTransactions.buildDashboardSnapshotFromTransactions clock args in
  series a = series b /\ points a = points b /\ kpis a = kpis b
  /\ labels a = labels b /\ currencyCode a = currencyCode b.
Proof.
  cbv zeta.
  unfold FromTransactions.buildDashboardSnapshotFromTransactions, Props.with_transactions.
  cbn [series points kpis labels currencyCode FromTransactions.arg_period
       FromTransactions.arg_accounts FromTransactions.arg_transactions
       FromTransactions.arg_now].
  set (now := nullish (FromTransactions.arg_now args) clock).
  set (p := FromTransactions.arg_period args).
  set (txs := FromTransactions.arg_transactions args).
  destruct (fetch_window_covers now p) as (Hchart & H60 & H7).
  unfold SnapshotFetch.inHistory.
  rewrite (chart_loop_cutoff _ _ _ txs Hchart).
  rewrite !(sumRange_cutoff txs) by lia.
  rewrite (filter_filter_implied
             (fun t => (FromTransactions.tx_date t >=? now - 7 * FromTransactions.msPerDay)%Z)).
  2: { intros t Ht. apply Z.geb_le in Ht. apply Z.leb_le. lia. }
  repeat split; reflexivity.
Qed.

(* ================================================================== *)
(** * The snapshot builder followed by the evaluation engine *)
(* ================================================================== *)

Lemma recent_length (clock : Date) (args : FromTransactions.Args) :
  List.length
    (recentTransactions (FromTransactions.buildDashboardSnapshotFromTransactions clock args))
  = Nat.min 4 (List.length (FromTransactions.arg_transactions args)).
Proof.
  unfold FromTransactions.buildDashboardSnapshotFromTransactions.
  cbn [recentTransactions]. unfold slice0.
  rewrite firstn_map, firstn_firstn, length_map, length_firstn.
  rewrite (Permutation_length (sort_perm _ _)). reflexivity.
Qed.

(* ================================================================== *)
(** * Further properties of the spending summary *)
(* ================================================================== *)

Lemma Map_get_Some_In {V : Type} (m : Map V) (k : string) (v : V) :
  Map_get m k = Some v -> In (k, v) m.
Proof.
  induction m as [| [k' v'] m IH]; simpl; [discriminate |].
  destruct (String.eqb_spec k k') as [-> | Hne].
  - intro H. inversion H. now left.
  - intro H. right. now apply IH.
Qed.










(* ================================================================== *)
(** * Further properties of the score *)
(* ================================================================== *)

Lemma clamp_mono (x y lo hi : Q) :
  x <= y -> Math_max lo (Math_min hi x) <= Math_max lo (Math_min hi y).
Proof.
  intro H. unfold Math_max, Math_min.
  destruct (Qle_bool_cases hi x) as [[E1 G1] | [E1 G1]]; rewrite E1;
  destruct (Qle_bool_cases hi y) as [[E2 G2] | [E2 G2]]; rewrite E2;
  try (destruct (Qle_bool_cases lo hi) as [[E3 G3] | [E3 G3]]; rewrite E3);
  try (destruct (Qle_bool_cases lo x) as [[E4 G4] | [E4 G4]]; rewrite E4);
  try (destruct (Qle_bool_cases lo y) as [[E5 G5] | [E5 G5]]; rewrite E5);
  lra.
Qed.

Lemma Math_round_mono (x y : Q) : x <= y -> Math_round x <= Math_round y.
Proof.
  intro H. unfold Math_round. rewrite <- Zle_Qle. apply Qfloor_resp_le. lra.
Qed.

(** The score moves with its inputs: up with the savings rate and the balance
    trend, down with the spend trend. *)
Lemma scoreOf_mono (sr sr' st st' bt bt' : number) (t1 : option number) :
  sr <= sr' -> st' <= st -> bt <= bt' ->
  Evaluations.scoreOf sr st bt t1 <= Evaluations.scoreOf sr' st' bt' t1.
Proof.
  intros Hs Ht Hb. unfold Evaluations.scoreOf, Evaluations.clamp.
  apply Math_round_mono, clamp_mono.
  pose proof (clamp_mono ((sr - (2 # 10)) * 120) ((sr' - (2 # 10)) * 120) (- (30)) 40) as H1.
  pose proof (clamp_mono (- st * 25) (- st' * 25) (- (15)) 15) as H2.
  pose proof (clamp_mono (bt * 20) (bt' * 20) (- (10)) 10) as H3.
  destruct t1; lra.
Qed.

(** X10: between two evaluations with data and the same spending summary,
    the one whose snapshot has the higher (or equal) savings rate and balance
    trend and the lower (or equal) spend trend never scores lower. *)
Theorem X10_score_monotone (s s' : DashboardSnapshot)
    (ss : option Evaluations.SpendingSummary) :
  let e := Evaluations.buildFinanceEvaluation (Evaluations.mkArgs s ss) in
  let e' := Evaluations.buildFinanceEvaluation (Evaluations.mkArgs s' ss) in
  Evaluations.status e = Evaluations.ok ->
  Evaluations.status e' = Evaluations.ok ->
  savingsRate (kpis s) <= savingsRate (kpis s') ->
  monthlySpendTrendPct (kpis s') <= monthlySpendTrendPct (kpis s) ->
  currentBalanceTrendPct (kpis s) <= currentBalanceTrendPct (kpis s') ->
  exists sc sc',
    Evaluations.score e = Some sc /\ Evaluations.score e' = Some sc' /\ sc <= sc'.
Proof.
  cbv zeta. intros Hok Hok' Hs Ht Hb.
  apply status_ok_iff in Hok, Hok'. cbn [Evaluations.snapshot] in Hok, Hok'.
  unfold Evaluations.buildFinanceEvaluation.
  cbn [Evaluations.snapshot Evaluations.spendingSummary]. rewrite Hok, Hok'.
  cbn [Evaluations.score]. eexists. eexists.
  split; [reflexivity |]. split; [reflexivity |].
  apply scoreOf_mono; assumption.
Qed.

(** X10 on two snapshots that differ in their savings rate, 10% and 30%. *)
Lemma X10_score_monotone_witness :
  let snap sr :=
    {| period := P_1M; currencyCode := None; labels := [];
       series := mkSpendingSeries [] [] [] []; points := [];
       kpis := mkDashboardKpis 500 0 100 0 sr 0 0 0;
       recentTransactions := [] |} in
  exists sc sc',
    Evaluations.score
      (Evaluations.buildFinanceEvaluation (Evaluations.mkArgs (snap (1 # 10)) None)) = Some sc
    /\ Evaluations.score
         (Evaluations.buildFinanceEvaluation (Evaluations.mkArgs (snap (3 # 10)) None)) = Some sc'
    /\ sc <= sc'.
Proof.
  intro snap.
  apply (X10_score_monotone (snap (1 # 10)) (snap (3 # 10)) None);
    try reflexivity; simpl; lra.
Defined.




(* ================================================================== *)
(** * Further properties of the currency code *)
(* ================================================================== *)

Lemma isUpper_not_space (x : ascii) : isUpper x = true -> isWhiteSpace x = false.
Proof.
  destruct x as [[] [] [] [] [] [] [] []]; intro H; try reflexivity; discriminate H.
Qed.

Lemma toUpperChar_upper (x : ascii) : isUpper x = true -> toUpperChar x = x.
Proof.
  destruct x as [[] [] [] [] [] [] [] []]; intro H; try reflexivity; discriminate H.
Qed.

(** A string the test accepts is three upper-case letters, which trimming
    and upper-casing leave alone. *)
Lemma isIso3_fixed (c : string) :
  Currency.isIso3 c = true -> toUpperCase (trim c) = c.
Proof.
  destruct c as [| x [| y [| z [| w c]]]]; simpl; try discriminate.
  rewrite !andb_true_iff. intros [[Hx Hy] Hz].
  unfold trim. simpl.
  rewrite (isUpper_not_space _ Hx). simpl.
  rewrite (isUpper_not_space _ Hz). simpl.
  rewrite !toUpperChar_upper by assumption. reflexivity.
Qed.

Lemma normalizeCurrencyCode_iso3 (raw : option string) (c : string) :
  Currency.normalizeCurrencyCode raw = Some c -> Currency.isIso3 c = true.
Proof.
  unfold Currency.normalizeCurrencyCode. cbv zeta.
  destruct (Currency.isIso3 _) eqn:E; simpl; [| discriminate].
  intro H. inversion H; subst. exact E.
Qed.

(** X12: a normalized currency code is three upper-case ASCII letters, and
    normalizing it again returns it unchanged. *)
Theorem X12_normalize_idempotent (raw : option string) (c : string) :
  Currency.normalizeCurrencyCode raw = Some c ->
  Currency.isIso3 c = true /\ Currency.normalizeCurrencyCode (Some c) = Some c.
Proof.
  intro H. pose proof (normalizeCurrencyCode_iso3 _ _ H) as Hiso.
  split; [exact Hiso |].
  unfold Currency.normalizeCurrencyCode. cbv zeta. simpl nullish.
  rewrite (isIso3_fixed _ Hiso), Hiso. reflexivity.
Qed.

(** X12 on the code " eur ". *)
Lemma X12_normalize_idempotent_witness :
  Currency.normalizeCurrencyCode (Some "EUR"%string) = Some "EUR"%string.
Proof.
  apply (X12_normalize_idempotent (Some " eur "%string) "EUR"). reflexivity.
Defined.

Lemma normalized_codes_iso3 {Account : Type} (cc : Account -> option string)
    (accounts : list Account) (c : string) :
  In c (Spec.normalized_codes cc accounts) -> Currency.isIso3 c = true.
Proof.
  unfold Spec.normalized_codes. rewrite in_flat_map. intros (a & _ & Hc).
  destruct (Currency.normalizeCurrencyCode (cc a)) as [c' |] eqn:E; [| destruct Hc].
  destruct Hc as [<- | []]. exact (normalizeCurrencyCode_iso3 _ _ E).
Qed.

(** X13: the fallback decides only when no account does.  When some account
    has a valid code the result is the one inferred without a fallback; when
    none has, it is the normalized fallback (absent when the fallback is
    absent or invalid).  Whatever is returned is three upper-case letters. *)
Theorem X13_currency_fallback {Account : Type} (cc : Account -> option string)
    (accounts : list Account) (fallback : option string) :
  Currency.inferCurrencyCodeFromAccounts cc accounts fallback
  = match Spec.normalized_codes cc accounts with
    | [] => Currency.normalizeCurrencyCode fallback
    | _ :: _ => Currency.inferCurrencyCodeFromAccounts cc accounts None
    end
  /\ forall c, Currency.inferCurrencyCodeFromAccounts cc accounts fallback = Some c ->
               Currency.isIso3 c = true.
Proof.
  unfold Currency.inferCurrencyCodeFromAccounts.
  destruct (fold_left Currency.pickBest _ _) as [best bc] eqn:E.
  apply (pickBest_counted _ _ _ _ (countAccount_counted cc accounts)) in E.
  destruct best as [c |]; simpl in E |- *.
  - destruct E as (Hin & _). split.
    + destruct (Spec.normalized_codes cc accounts); [destruct Hin | reflexivity].
    + intros c' H. inversion H; subst. exact (normalized_codes_iso3 _ _ _ Hin).
  - rewrite E. split; [reflexivity |].
    intros c H. exact (normalizeCurrencyCode_iso3 _ _ H).
Qed.

(* ================================================================== *)
(** * Further properties of the chart's shape *)
(* ================================================================== *)

Lemma bucketWidth_pos (p : FinancePeriod) :
  0 < Spec.bucketWidth (FromTransactions.getBucketConfig p).
Proof. destruct p; reflexivity. Qed.

Lemma bucket_of_mono (p : FinancePeriod) (now ts1 ts2 : Z) :
  (ts1 <= ts2)%Z ->
  (Spec.bucket_of (FromTransactions.getBucketConfig p) now ts1
   <= Spec.bucket_of (FromTransactions.getBucketConfig p) now ts2)%Z.
Proof.
  intro H. unfold Spec.bucket_of.
  set (cfg := FromTransactions.getBucketConfig p).
  assert (Hf : (Qfloor (inject_Z (ts1 - Spec.windowStart cfg now) / Spec.bucketWidth cfg)
                <= Qfloor (inject_Z (ts2 - Spec.windowStart cfg now) / Spec.bucketWidth cfg))%Z).
  { apply Qfloor_resp_le. unfold Qdiv. apply Qmult_le_compat_r.
    - rewrite <- Zle_Qle. lia.
    - apply Qlt_le_weak, Qinv_lt_0_compat, bucketWidth_pos. }
  lia.
Qed.

Lemma bucket_of_start (p : FinancePeriod) (now : Z) :
  Spec.bucket_of (FromTransactions.getBucketConfig p) now
    (Spec.windowStart (FromTransactions.getBucketConfig p) now) = 0%Z.
Proof.
  unfold Spec.bucket_of. rewrite Z.sub_diag.
  destruct p; reflexivity.
Qed.

Lemma bucket_of_last (p : FinancePeriod) (now : Z) :
  Spec.bucket_of (FromTransactions.getBucketConfig p) now (now - 1)
  = (Z.of_nat (FromTransactions.len (FromTransactions.getBucketConfig p)) - 1)%Z.
Proof.
  unfold Spec.bucket_of, Spec.windowStart.
  replace (now - 1 - (now - FromTransactions.windowDays (FromTransactions.getBucketConfig p)
                            * FromTransactions.msPerDay))%Z
    with (FromTransactions.windowDays (FromTransactions.getBucketConfig p)
          * FromTransactions.msPerDay - 1)%Z by lia.
  destruct p; reflexivity.
Qed.

(** X14: the chart runs forward in time.  For every period, a later
    timestamp never gets a smaller bucket index than an earlier one; the start
    of the window gets bucket 0 and the last millisecond before [now] the last
    bucket. *)
Theorem X14_buckets_follow_time (p : FinancePeriod) (now ts1 ts2 : Z) :
  let cfg := FromTransactions.getBucketConfig p in
  (ts1 <= ts2)%Z ->
  (toIndex (FromTransactions.bucketIdx cfg now ts1)
   <= toIndex (FromTransactions.bucketIdx cfg now ts2))%nat
  /\ toIndex (FromTransactions.bucketIdx cfg now (FromTransactions.startMs cfg now)) = 0%nat
  /\ toIndex (FromTransactions.bucketIdx cfg now (now - 1))
     = (FromTransactions.len cfg - 1)%nat.
Proof.
  cbv zeta. intro H. rewrite !toIndex_bucketIdx.
  pose proof (bucket_of_mono p now ts1 ts2 H) as Hm.
  pose proof (bucket_of_range _ now ts1 (getBucketConfig_len p)) as Hr.
  split; [lia |]. split.
  - change (FromTransactions.startMs (FromTransactions.getBucketConfig p) now)
      with (Spec.windowStart (FromTransactions.getBucketConfig p) now).
    rewrite bucket_of_start. reflexivity.
  - rewrite bucket_of_last. pose proof (getBucketConfig_len p). lia.
Qed.

(** X14 on a monthly chart read at day 30: day 9 falls in bucket 3 and day
    21 in bucket 8. *)
Lemma X14_buckets_follow_time_witness :
  let cfg := FromTransactions.getBucketConfig P_1M in
  let day := FromTransactions.msPerDay in
  (toIndex (FromTransactions.bucketIdx cfg (30 * day) (9 * day))
   <= toIndex (FromTransactions.bucketIdx cfg (30 * day) (21 * day)))%nat.
Proof.
  intros cfg day.
  apply (X14_buckets_follow_time P_1M (30 * day) (9 * day) (21 * day)).
  unfold day, FromTransactions.msPerDay. lia.
Defined.

Lemma getLabels_shape (p : FinancePeriod) :
  let n := FromTransactions.len (FromTransactions.getBucketConfig p) in
  List.length (FromTransactions.getLabels p n) = n
  /\ NoDup (FromTransactions.getLabels p n).
Proof.
  cbv zeta. split; [destruct p; reflexivity |].
  assert (H : nodup string_dec
                (FromTransactions.getLabels p
                   (FromTransactions.len (FromTransactions.getBucketConfig p)))
              = FromTransactions.getLabels p
                  (FromTransactions.len (FromTransactions.getBucketConfig p)))
    by (destruct p; vm_compute; reflexivity).
  rewrite <- H. apply NoDup_nodup.
Qed.

(** X15: both builders return a snapshot of the requested period with one
    label per bucket, all labels distinct, and [points] equal to the total
    series; the zero snapshot has no currency code and no transactions. *)
Theorem X15_snapshot_shape (clock : Date) (args : FromTransactions.Args) :
  let p := FromTransactions.arg_period args in
  let n := FromTransactions.len (FromTransactions.getBucketConfig p) in
  let b := FromTransactions.buildDashboardSnapshotFromTransactions clock args in
  let z := FromTransactions.buildZeroDashboardSnapshot p in
  (period b = p /\ List.length (labels b) = n /\ NoDup (labels b)
   /\ List.length (points b) = n /\ List.length (recentTransactions b) <= 4)%nat
  /\ (period z = p /\ labels z = labels b /\ List.length (total (series z)) = n
      /\ points z = total (series z)
      /\ currencyCode z = None /\ recentTransactions z = []).
Proof.
  cbv zeta.
  destruct (getLabels_shape (FromTransactions.arg_period args)) as [Hl Hn].
  cbv zeta in Hl, Hn.
  pose proof (recent_length clock args) as Hr.
  destruct (chart_loop_balanced
              (FromTransactions.getBucketConfig (FromTransactions.arg_period args))
              (nullish (FromTransactions.arg_now args) clock)
              (FromTransactions.arg_transactions args)) as (Ht & _).
  split.
  - split; [reflexivity |]. split; [exact Hl |]. split; [exact Hn |].
    split; [| lia].
    unfold FromTransactions.buildDashboardSnapshotFromTransactions.
    cbn [points total]. rewrite length_map. exact Ht.
  - unfold FromTransactions.buildZeroDashboardSnapshot.
    cbn [period labels series total points currencyCode recentTransactions].
    repeat (split; [reflexivity |]).
    split; [unfold Array_fill; apply repeat_length |].
    repeat split; reflexivity.
Qed.

(* ================================================================== *)
(** * The random number generator *)
(* ================================================================== *)

(** The FNV-1a test vectors, and the first output of Mulberry32 from state 0. *)
Example hashStringToUint32_vectors :
  Rng.hashStringToUint32 "" = 2166136261%Z
  /\ Rng.hashStringToUint32 "a" = 3826002220%Z
  /\ Rng.hashStringToUint32 "foobar" = 3214735720%Z.
Proof. repeat split; reflexivity. Qed.

Example next_from_zero : fst (Rng.next 0) == 1144304738 # 4294967296.
Proof. vm_compute. reflexivity. Qed.

Lemma shru_0_range (a : Z) : (0 <= Rng.shru a 0 < Rng.two32)%Z.
Proof.
  unfold Rng.shru, Rng.toUint32. rewrite Z.shiftr_0_r.
  apply Z.mod_pos_bound. reflexivity.
Qed.

Lemma next_range (state : Z) : 0 <= fst (Rng.next state) < 1.
Proof.
  assert (Hx : exists x, fst (Rng.next state) = inject_Z (Rng.shru x 0) / inject_Z Rng.two32)
    by (eexists; reflexivity).
  destruct Hx as [x ->].
  destruct (shru_0_range x) as [Hlo Hhi].
  rewrite Zle_Qle in Hlo. rewrite Zlt_Qlt in Hhi.
  change (inject_Z 0) with 0 in Hlo.
  assert (H2 : 0 < inject_Z Rng.two32) by reflexivity.
  split.
  - apply Qle_shift_div_l; lra.
  - apply Qlt_shift_div_r; lra.
Qed.

(** [int] from a number [r] in the half-open unit interval. *)
Lemma int_of_unit (r : Q) (lo hi : Z) :
  0 <= r < 1 -> (lo <= hi)%Z ->
  let f := Qfloor (r * (inject_Z hi - inject_Z lo + 1)) in
  (0 <= f <= hi - lo)%Z.
Proof.
  intros [H0 H1] Hle. cbv zeta.
  set (n := inject_Z hi - inject_Z lo + 1).
  assert (Hn : n == inject_Z (hi - lo + 1)).
  { unfold n, Z.sub. rewrite !inject_Z_plus, inject_Z_opp. reflexivity. }
  assert (Hn1 : 1 <= n).
  { rewrite Hn. change 1 with (inject_Z 1). rewrite <- Zle_Qle. lia. }
  assert (Hlo : 0 <= r * n) by (apply Qmult_le_0_compat; lra).
  assert (Hhi : r * n < n).
  { setoid_replace n with (1 * n) at 2 by ring. apply Qmult_lt_compat_r; lra. }
  split.
  - change 0%Z with (Qfloor 0). apply Qfloor_resp_le. exact Hlo.
  - pose proof (Qfloor_le (r * n)) as Hf.
    assert (Hlt : inject_Z (Qfloor (r * n)) < inject_Z (hi - lo + 1)).
    { rewrite <- Hn. lra. }
    rewrite <- Zlt_Qlt in Hlt. lia.
Qed.

(** X16: the generator stays in range.  From any state, [next] returns a
    number in [0, 1); [int(lo, hi)] with integers [lo <= hi] returns an
    integer between [lo] and [hi], both included; [pick] on a non-empty array
    returns one of its elements (never [undefined]). *)
Theorem X16_rng_ranges (state : Z) :
  0 <= fst (Rng.next state) < 1
  /\ (forall lo hi : Z, (lo <= hi)%Z ->
        Props.integer_between lo hi (fst (Rng.int state (inject_Z lo) (inject_Z hi))))
  /\ (forall (T : Type) (arr : list T), arr <> [] ->
        exists x, fst (Rng.pick state arr) = Some x /\ In x arr).
Proof.
  pose proof (next_range state) as Hr.
  split; [exact Hr |]. split.
  - intros lo hi Hle. unfold Rng.int.
    destruct (Rng.next state) as [r st'] eqn:E. cbn [fst] in *.
    destruct (int_of_unit r lo hi Hr Hle) as [H0 H1]. cbv zeta in H0, H1.
    unfold Props.integer_between, Math_floor.
    exists (Qfloor (r * (inject_Z hi - inject_Z lo + 1)) + lo)%Z.
    split; [rewrite inject_Z_plus; reflexivity | lia].
  - intros T arr Hne. unfold Rng.pick, Rng.int.
    destruct (Rng.next state) as [r st'] eqn:E. cbn [fst] in *.
    assert (Hlen : (0 <= Z.of_nat (List.length arr) - 1)%Z).
    { destruct arr; [contradiction | simpl List.length; lia]. }
    destruct (int_of_unit r 0 (Z.of_nat (List.length arr) - 1) Hr Hlen) as [H0 H1].
    cbv zeta in H0, H1.
    assert (Harg : r * (inject_Z (Z.of_nat (List.length arr)) - 1 - 0 + 1)
                   == r * (inject_Z (Z.of_nat (List.length arr) - 1) - inject_Z 0 + 1)).
    { unfold Z.sub. rewrite inject_Z_plus, inject_Z_opp. reflexivity. }
    unfold toIndex, Math_floor.
    assert (Hidx : Qfloor (inject_Z (Qfloor (r * (inject_Z (Z.of_nat (List.length arr)) - 1 - 0 + 1))) + 0)
                   = Qfloor (r * (inject_Z (Z.of_nat (List.length arr) - 1) - inject_Z 0 + 1))).
    { rewrite <- (Qfloor_comp _ _ Harg).
      rewrite (Qfloor_comp _ (inject_Z (Qfloor (r * (inject_Z (Z.of_nat (List.length arr)) - 1 - 0 + 1)))))
        by ring.
      apply Qfloor_Z. }
    rewrite Hidx.
    set (f := Qfloor _) in *.
    destruct (nth_error arr (Z.to_nat f)) as [x |] eqn:En.
    + exists x. split; [reflexivity | exact (nth_error_In _ _ En)].
    + apply nth_error_None in En. lia.
Qed.

(** X16 on the generator seeded with "demo": a die roll. *)
Lemma X16_rng_ranges_witness :
  Props.integer_between 1 6 (fst (Rng.int (Rng.createRng "demo") 1 6)).
Proof.
  apply (X16_rng_ranges (Rng.createRng "demo")). lia.
Defined.

(* ================================================================== *)
(** * The demo split of a bucket *)
(* ================================================================== *)

(** Rounding two shares that leave room for a third: the remainder is not
    negative and the three parts add up. *)
Lemma split_core (total x y : Q) :
  0 <= x -> 0 <= y -> x + y + 1 <= total ->
  let e := Math_round x in
  let l := Math_round y in
  let s := Math_max 0 (total - e - l) in
  e + l + s == total /\ 0 <= e /\ 0 <= l /\ 0 <= s.
Proof.
  intros Hx Hy Hroom. cbv zeta.
  pose proof (Math_round_close x) as Hcx. pose proof (Math_round_close y) as Hcy.
  destruct (Math_round_nonneg_integer x Hx) as (zx & Hzx & Ex).
  destruct (Math_round_nonneg_integer y Hy) as (zy & Hzy & Ey).
  assert (H0x : 0 <= Math_round x)
    by (rewrite Ex; change 0 with (inject_Z 0); rewrite <- Zle_Qle; exact Hzx).
  assert (H0y : 0 <= Math_round y)
    by (rewrite Ey; change 0 with (inject_Z 0); rewrite <- Zle_Qle; exact Hzy).
  unfold Math_max.
  destruct (Qle_bool_cases 0 (total - Math_round x - Math_round y)) as [[E G] | [E G]];
    rewrite E; repeat split; lra.
Qed.

Ltac evaluate_ratio r :=
  let v := eval vm_compute in r in change r with v.

(** For every bucket index the two leading shares leave at least 14% for
    the third. *)
Lemma split_shares (idx : nat) :
  let sum := DemoDashboard.essentialsRatio idx + DemoDashboard.leisureRatio idx
             + DemoDashboard.subscriptionsRatio idx in
  let ce := DemoDashboard.essentialsRatio idx / sum in
  let cl := DemoDashboard.leisureRatio idx / sum in
  0 <= ce /\ 0 <= cl /\ ce + cl <= 86 # 100.
Proof.
  cbv zeta.
  unfold DemoDashboard.essentialsRatio, DemoDashboard.leisureRatio,
    DemoDashboard.subscriptionsRatio, DemoDashboard.modulo.
  pose proof (Nat.mod_upper_bound idx 5 ltac:(lia)) as H5.
  pose proof (Nat.mod_upper_bound idx 3 ltac:(lia)) as H3.
  pose proof (Nat.mod_upper_bound idx 4 ltac:(lia)) as H4.
  set (a := (idx mod 5)%nat) in *. set (b := (idx mod 3)%nat) in *.
  set (c := (idx mod 4)%nat) in *. clearbody a b c.
  destruct a as [| [| [| [| [| a]]]]]; try lia;
    destruct b as [| [| [| b]]]; try lia;
    destruct c as [| [| [| [| c]]]]; try lia;
    vm_compute; repeat split; discriminate.
Qed.

(** X17: [splitSpending] loses nothing.  For a total of at least 8 (the
    series builder passes at least 120) and every bucket index, the three
    parts are non-negative and add up to the total exactly. *)
Theorem X17_split_adds_up (total : number) (idx : nat) :
  8 <= total ->
  let r := DemoDashboard.splitSpending total idx in
  DemoDashboard.essentials r + DemoDashboard.leisure r + DemoDashboard.subscriptions r
  == total
  /\ 0 <= DemoDashboard.essentials r
  /\ 0 <= DemoDashboard.leisure r
  /\ 0 <= DemoDashboard.subscriptions r.
Proof.
  intro Ht. cbv zeta. unfold DemoDashboard.splitSpending. cbv zeta.
  cbn [DemoDashboard.essentials DemoDashboard.leisure DemoDashboard.subscriptions].
  destruct (split_shares idx) as (He & Hl & Hel). cbv zeta in He, Hl, Hel.
  set (ce := DemoDashboard.essentialsRatio idx / _) in *.
  set (cl := DemoDashboard.leisureRatio idx / _) in *.
  clearbody ce cl.
  apply (split_core total (total * ce) (total * cl)).
  - apply Qmult_le_0_compat; lra.
  - apply Qmult_le_0_compat; lra.
  - assert (H : total * ce + total * cl == total * (ce + cl)) by ring.
    rewrite H.
    assert (H' : total * (ce + cl) <= total * (86 # 100)).
    { rewrite !(Qmult_comm total). apply Qmult_le_compat_r; lra. }
    lra.
Qed.

(** X17 on the smallest total the series builder passes. *)
Lemma X17_split_adds_up_witness :
  let r := DemoDashboard.splitSpending 120 3 in
  DemoDashboard.essentials r + DemoDashboard.leisure r + DemoDashboard.subscriptions r == 120.
Proof.
  intro r. apply (X17_split_adds_up 120 3). vm_compute. discriminate.
Defined.

(* ================================================================== *)
(** * Reading the question *)
(* ================================================================== *)

Lemma toLowerChar_toUpperChar (c : ascii) :
  Orchestrator.toLowerChar (toUpperChar c) = Orchestrator.toLowerChar c.
Proof. destruct c as [[] [] [] [] [] [] [] []]; reflexivity. Qed.

Lemma toLowerCase_toUpperCase (s : string) :
  Orchestrator.toLowerCase (toUpperCase s) = Orchestrator.toLowerCase s.
Proof.
  induction s as [| c s IH]; simpl; [reflexivity |].
  rewrite toLowerChar_toUpperChar, IH. reflexivity.
Qed.

(** X18: the three readings of a question ignore case.  For an ASCII text,
    the text in upper case gets the same period, the same timeframe and the
    same finance-question verdict as the text itself. *)
Theorem X18_question_case_insensitive (text : string) :
  Props.is_ascii text ->
  Orchestrator.inferPeriodFromText (toUpperCase text) = Orchestrator.inferPeriodFromText text
  /\ Orchestrator.inferTimeframeFromText (toUpperCase text)
     = Orchestrator.inferTimeframeFromText text
  /\ Orchestrator.looksLikeFinanceQuestion (toUpperCase text)
     = Orchestrator.looksLikeFinanceQuestion text.
Proof.
  intros _.
  unfold Orchestrator.inferPeriodFromText, Orchestrator.inferTimeframeFromText,
    Orchestrator.looksLikeFinanceQuestion.
  rewrite toLowerCase_toUpperCase. repeat split; reflexivity.
Qed.

(** X18 on a question typed in capitals. *)
Lemma X18_question_case_insensitive_witness :
  Orchestrator.inferPeriodFromText "WHAT DID I SPEND THIS WEEK?" = P_1W
  /\ Orchestrator.looksLikeFinanceQuestion "WHAT DID I SPEND THIS WEEK?" = true.
Proof.
  assert (Ha : Props.is_ascii "what did i spend this week?")
    by (simpl; repeat (split; [apply Nat.ltb_lt; reflexivity |]); exact I).
  destruct (X18_question_case_insensitive "what did i spend this week?" Ha)
    as (Hp & _ & Hq).
  split; [exact Hp | exact Hq].
Defined.

(* ================================================================== *)
(** * The Plaid configuration *)
(* ================================================================== *)

Lemma present_Some (s : option string) :
  Env.present s = true -> s = Some (nullish s EmptyString) /\ nullish s EmptyString <> EmptyString.
Proof.
  destruct s as [x |]; simpl; [| discriminate].
  destruct x; simpl; [discriminate |]. intros _. split; [reflexivity | discriminate].
Qed.

(** X19: [requirePlaidEnv] returns exactly when [isPlaidConfigured] holds.
    What it returns carries the three non-empty secrets of the environment,
    and [requireBankTokenEncryptionKey] then returns the same key; when the
    configuration is incomplete both the client id / secret check and the key
    check throw. *)
Theorem X19_plaid_configuration (env : Env.ServerEnv) :
  (Env.isPlaidConfigured env = true <-> exists r, Env.requirePlaidEnv env = Env.Ok r)
  /\ (forall r, Env.requirePlaidEnv env = Env.Ok r ->
        Env.PLAID_CLIENT_ID env = Some (Env.r_PLAID_CLIENT_ID r)
        /\ Env.PLAID_SECRET env = Some (Env.r_PLAID_SECRET r)
        /\ Env.BANK_TOKEN_ENCRYPTION_KEY env = Some (Env.r_BANK_TOKEN_ENCRYPTION_KEY r)
        /\ Env.r_PLAID_CLIENT_ID r <> EmptyString
        /\ Env.r_PLAID_SECRET r <> EmptyString
        /\ Env.r_BANK_TOKEN_ENCRYPTION_KEY r <> EmptyString
        /\ Env.requireBankTokenEncryptionKey env = Env.Ok (Env.r_BANK_TOKEN_ENCRYPTION_KEY r))
  /\ (Env.isPlaidConfigured env = false ->
        exists message, Env.requirePlaidEnv env = Env.Throw message).
Proof.
  unfold Env.isPlaidConfigured, Env.requirePlaidEnv, Env.requireBankTokenEncryptionKey.
  destruct (Env.present (Env.PLAID_CLIENT_ID env)) eqn:E1;
    destruct (Env.present (Env.PLAID_SECRET env)) eqn:E2;
    destruct (Env.present (Env.BANK_TOKEN_ENCRYPTION_KEY env)) eqn:E3; simpl;
    (split; [split; [try discriminate; intros _; eexists; reflexivity
                    | try (intros _; reflexivity); intros [r H]; discriminate H] |]);
    (split; [| try discriminate; intros _; eexists; reflexivity]);
    intros r H; try discriminate H.
  inversion H; subst; simpl.
  destruct (present_Some _ E1) as [H1 N1]. destruct (present_Some _ E2) as [H2 N2].
  destruct (present_Some _ E3) as [H3 N3].
  repeat split; assumption.
Qed.

(* ================================================================== *)
(** * Binary64: the embedding on small inputs *)
(* ================================================================== *)

Section Samples64.
Import PrimFloat.
Local Open Scope float_scope.

Example binary64_sums :
  0.1 + 0.2 = 0.30000000000000004
  /\ 0.5 + 2.78 + 2.5 + 0.72 = 6.499999999999999
  /\ 2.78 + 0.72 = 3.5
  /\ F64.sum [0.75; 1.32; 1.11] = 3.1800000000000006.
Proof. repeat split; vm_compute; reflexivity. Qed.

Example Math_round64_samples :
  F64.Math_round 2.5 = 3
  /\ F64.Math_round (-2.5) = -2
  /\ F64.Math_round 6.499999999999999 = 6
  /\ F64.Math_round 0.49999999999999994 = 0
  /\ F64.Math_round (-0.2) = neg_zero
  /\ F64.Math_round 4503599627370495.5 = 4503599627370496
  /\ F64.Math_round infinity = infinity
  /\ F64.isNaN (F64.Math_round nan) = true.
Proof. repeat split; vm_compute; reflexivity. Qed.

Example Math_floor64_samples :
  F64.Math_floor 3.7 = 3
  /\ F64.Math_floor (-3.2) = -4
  /\ F64.Math_floor (-0.5) = -1
  /\ F64.Math_floor 0.3 = 0
  /\ F64.Math_floor neg_zero = neg_zero.
Proof. repeat split; vm_compute; reflexivity. Qed.

Example Math_max64_samples :
  F64.Math_max neg_zero 0 = 0
  /\ F64.Math_max 0 neg_zero = 0
  /\ F64.Math_min 0 neg_zero = neg_zero
  /\ F64.Math_min infinity 3 = 3
  /\ F64.isNaN (F64.Math_max 1 nan) = true
  /\ F64.isNaN (FromTransactions64.clamp nan 0 0.95) = true.
Proof. repeat split; vm_compute; reflexivity. Qed.

Example toIndex64_samples :
  F64.toIndex 11 = Some 11%nat
  /\ F64.toIndex neg_zero = Some 0%nat
  /\ F64.toIndex 2.5 = None
  /\ F64.toIndex (-1) = None
  /\ F64.toIndex nan = None.
Proof. repeat split; vm_compute; reflexivity. Qed.

(** Four balances that cancel as decimals leave a balance that is not zero,
    and the empty history is then evaluated as data. *)
Example balances_do_not_cancel :
  let acc := fun b => FromTransactions64.mkAccountLike (Some b) None None in
  let args :=
    FromTransactions64.mkArgs P_1M [acc 269.34; acc 558.49; acc 73.57; acc (-901.40)]
      [] (Some 0%Z) in
  let s := FromTransactions64.buildDashboardSnapshotFromTransactions 0%Z args in
  Types64.currentBalance (Types64.kpis s) = -1.1368683772161603e-13
  /\ Evaluations64.status
       (Evaluations64.buildFinanceEvaluation (Evaluations64.mkArgs s None))
     = Evaluations.ok.
Proof. split; vm_compute; reflexivity. Qed.

(** A balance of 901.40 that the last week's three incomes make up: the
    balance before them is not zero, and the trend is at its upper bound. *)
Example prior_balance_not_zero :
  let day := FromTransactions.msPerDay in
  let tx := fun a =>
    FromTransactions64.mkTxLike "t" (58 * day)%Z "n" None a None in
  let args :=
    FromTransactions64.mkArgs P_1M
      [FromTransactions64.mkAccountLike (Some 901.40) None None]
      [tx 269.34; tx 558.49; tx 73.57] (Some (60 * day)%Z) in
  let k := Types64.kpis (FromTransactions64.buildDashboardSnapshotFromTransactions 0%Z args) in
  Spec64.priorBalance (60 * day)%Z (FromTransactions64.arg_accounts args)
    (FromTransactions64.arg_transactions args) = 1.1368683772161603e-13
  /\ Types64.currentBalanceTrendPct k = 0.5.
Proof. split; vm_compute; reflexivity. Qed.

(** A trailing spend of 18.86 against 4.10 + 12.30 the month before, and
    incomes of 0.75, 1.32 and 1.11 against a spend of 3.18. *)
Example ratios_near_thresholds :
  let day := FromTransactions.msPerDay in
  let tx := fun d a =>
    FromTransactions64.mkTxLike "t" (d * day)%Z "n" None a None in
  let kpis_of := fun txs =>
    Types64.kpis
      (FromTransactions64.buildDashboardSnapshotFromTransactions 0%Z
         (FromTransactions64.mkArgs P_1M [] txs (Some (60 * day)%Z))) in
  Types64.monthlySpendTrendPct
    (kpis_of [tx 10%Z (-4.10); tx 11%Z (-12.30); tx 40%Z (-18.86)])
  = 0.15000000000000008
  /\ Types64.savingsRate
       (kpis_of [tx 40%Z 0.75; tx 41%Z 1.32; tx 42%Z 1.11; tx 43%Z (-3.18)])
     = 1.396506949214033e-16.
Proof. split; vm_compute; reflexivity. Qed.

End Samples64.

(* ================================================================== *)
(** * Binary64: comparisons *)
(* ================================================================== *)

Section Binary64Order.
Import PrimFloat SpecFloat FloatOps FloatAxioms.

Lemma SFcompare_antisym (x y : spec_float) :
  SFcompare y x = option_map CompOpp (SFcompare x y).
Proof.
  destruct x as [sx | sx | | sx mx ex], y as [sy | sy | | sy my ey]; simpl;
    try reflexivity;
    try (destruct sx; reflexivity); try (destruct sy; reflexivity);
    try (destruct sx, sy; reflexivity).
  destruct sx, sy; try reflexivity;
    rewrite (Z.compare_antisym ex ey); destruct (ex ?= ey)%Z; simpl; try reflexivity;
    change (Pos.compare_cont Eq) with Pos.compare;
    rewrite (Pos.compare_antisym mx my); destruct (mx ?= my)%positive; reflexivity.
Qed.

Lemma SFcompare_refl (x : spec_float) :
  x <> S754_nan -> SFcompare x x = Some Eq.
Proof.
  destruct x as [s | s | | s m e]; simpl; intro H; try congruence;
    try (destruct s; reflexivity).
  destruct s; rewrite Z.compare_refl; change (Pos.compare_cont Eq) with Pos.compare;
    rewrite Pos.compare_refl; reflexivity.
Qed.

(** A comparison is undefined exactly when an argument is [NaN]. *)
Lemma SFcompare_defined (x y : spec_float) :
  x <> S754_nan -> y <> S754_nan -> exists c, SFcompare x y = Some c.
Proof.
  destruct x as [sx | sx | | sx mx ex], y as [sy | sy | | sy my ey]; simpl;
    intros Hx Hy; try congruence; eexists; reflexivity.
Qed.

Lemma isNaN_false (x : float) : F64.isNaN x = false <-> Prim2SF x <> S754_nan.
Proof.
  unfold F64.isNaN. destruct (Prim2SF x); split; intro H; congruence.
Qed.

Lemma ltb_leb (a b : float) : (a <? b)%float = true -> (a <=? b)%float = true.
Proof.
  rewrite ltb_spec, leb_spec. unfold SFltb, SFleb.
  destruct (SFcompare (Prim2SF a) (Prim2SF b)) as [[ | | ] | ]; congruence.
Qed.

Lemma not_ltb_leb (a b : float) :
  F64.isNaN a = false -> F64.isNaN b = false ->
  (a <? b)%float = false -> (b <=? a)%float = true.
Proof.
  rewrite !isNaN_false, ltb_spec, leb_spec. unfold SFltb, SFleb. intros Ha Hb.
  rewrite (SFcompare_antisym (Prim2SF a) (Prim2SF b)).
  destruct (SFcompare_defined _ _ Ha Hb) as [c ->].
  destruct c; simpl; congruence.
Qed.

Lemma leb_refl (a : float) : F64.isNaN a = false -> (a <=? a)%float = true.
Proof.
  rewrite isNaN_false, leb_spec. unfold SFleb. intro H.
  rewrite SFcompare_refl by assumption. reflexivity.
Qed.

(** [amount >= 0] fails exactly for the negative amounts, [NaN] apart. *)
Lemma geb_false_ltb (a b : float) :
  F64.isNaN a = false -> F64.isNaN b = false ->
  negb (F64.geb a b) = F64.ltb a b.
Proof.
  unfold F64.geb, F64.ltb. rewrite !isNaN_false, ltb_spec, leb_spec.
  unfold SFltb, SFleb. intros Ha Hb.
  rewrite (SFcompare_antisym (Prim2SF a) (Prim2SF b)).
  destruct (SFcompare_defined _ _ Ha Hb) as [c ->].
  destruct c; reflexivity.
Qed.

Lemma Math_min_spec (a b : float) :
  F64.isNaN a = false -> F64.isNaN b = false ->
  (F64.Math_min a b = a \/ F64.Math_min a b = b)
  /\ (F64.Math_min a b <=? a)%float = true
  /\ (F64.Math_min a b <=? b)%float = true.
Proof.
  intros Ha Hb. unfold F64.Math_min. rewrite Ha, Hb. cbn [orb].
  destruct (a <? b)%float eqn:E1.
  - split; [left; reflexivity | split; [apply leb_refl | apply ltb_leb]; assumption].
  - destruct (b <? a)%float eqn:E2.
    + split; [right; reflexivity | split; [apply ltb_leb | apply leb_refl]; assumption].
    + pose proof (not_ltb_leb a b Ha Hb E1). pose proof (not_ltb_leb b a Hb Ha E2).
      destruct (get_sign a).
      * split; [left; reflexivity | split; [apply leb_refl |]; assumption].
      * split; [right; reflexivity | split; [| apply leb_refl]; assumption].
Qed.

Lemma Math_max_spec (a b : float) :
  F64.isNaN a = false -> F64.isNaN b = false ->
  (F64.Math_max a b = a \/ F64.Math_max a b = b)
  /\ (a <=? F64.Math_max a b)%float = true
  /\ (b <=? F64.Math_max a b)%float = true.
Proof.
  intros Ha Hb. unfold F64.Math_max. rewrite Ha, Hb. cbn [orb].
  destruct (a <? b)%float eqn:E1.
  - split; [right; reflexivity | split; [apply ltb_leb | apply leb_refl]; assumption].
  - destruct (b <? a)%float eqn:E2.
    + split; [left; reflexivity | split; [apply leb_refl | apply ltb_leb]; assumption].
    + pose proof (not_ltb_leb a b Ha Hb E1). pose proof (not_ltb_leb b a Hb Ha E2).
      destruct (get_sign a).
      * split; [right; reflexivity | split; [| apply leb_refl]; assumption].
      * split; [left; reflexivity | split; [apply leb_refl |]; assumption].
Qed.

(** [Math.max(lo, Math.min(hi, x))] brings a number into [[lo, hi]]. *)
Lemma clamp64_range (x lo hi : float) :
  F64.isNaN x = false -> F64.isNaN lo = false -> F64.isNaN hi = false ->
  (lo <=? hi)%float = true ->
  (lo <=? F64.Math_max lo (F64.Math_min hi x))%float = true
  /\ (F64.Math_max lo (F64.Math_min hi x) <=? hi)%float = true.
Proof.
  intros Hx Hlo Hhi Hle.
  destruct (Math_min_spec hi x Hhi Hx) as (Hm & Hm1 & _).
  assert (Hmn : F64.isNaN (F64.Math_min hi x) = false)
    by (destruct Hm as [-> | ->]; assumption).
  destruct (Math_max_spec lo _ Hlo Hmn) as (Hr & Hr1 & _).
  split; [assumption |].
  destruct Hr as [-> | ->]; assumption.
Qed.

(** [NaN] passes through. *)
Lemma clamp64_nan (x lo hi : float) :
  F64.isNaN x = true -> F64.Math_max lo (F64.Math_min hi x) = nan.
Proof.
  intro H. unfold F64.Math_min at 1.
  rewrite H, orb_true_r. unfold F64.Math_max.
  replace (F64.isNaN nan) with true by reflexivity. rewrite orb_true_r. reflexivity.
Qed.

(** What lies between two finite numbers is finite. *)
Lemma between_finite (lo hi v : float) :
  F64.isFinite lo = true -> F64.isFinite hi = true ->
  (lo <=? v)%float = true -> (v <=? hi)%float = true -> F64.isFinite v = true.
Proof.
  unfold F64.isFinite. rewrite !leb_spec. unfold SFleb.
  destruct (Prim2SF lo) as [sl | sl | | sl ml el]; try discriminate;
  destruct (Prim2SF hi) as [sh | sh | | sh mh eh]; try discriminate;
  destruct (Prim2SF v) as [sv | [ | ] | | sv mv ev]; simpl; try reflexivity;
    try discriminate; intros _ _;
    try (destruct sl; discriminate); try (destruct sh; discriminate).
Qed.

End Binary64Order.
(* ================================================================== *)
(** * Binary64: when an operation yields a number *)
(* ================================================================== *)

Section Binary64Arith.
Import PrimFloat SpecFloat FloatOps FloatAxioms.
Local Open Scope float_scope.

Lemma iter_pos_inv {A : Type} (P : A -> Prop) (f : A -> A) :
  (forall x, P x -> P (f x)) -> forall n x, P x -> P (iter_pos f n x).
Proof.
  intros Hf n. induction n as [n IH | n IH | ]; intros x Hx; simpl; auto.
Qed.

Lemma shr_1_nonneg (mrs : shr_record) :
  (0 <= shr_m mrs)%Z -> (0 <= shr_m (shr_1 mrs))%Z.
Proof.
  destruct mrs as [m r s]. simpl.
  destruct m as [ | [p | p | ] | p]; simpl; intro H; lia.
Qed.

Lemma shr_nonneg (mrs : shr_record) (e n : Z) :
  (0 <= shr_m mrs)%Z -> (0 <= shr_m (fst (shr mrs e n)))%Z.
Proof.
  intro H. unfold shr. destruct n as [ | p | p]; simpl; try assumption.
  apply (iter_pos_inv (fun r => (0 <= shr_m r)%Z)); [exact shr_1_nonneg | assumption].
Qed.

Lemma shr_fexp_nonneg (m e : Z) (l : location) :
  (0 <= m)%Z -> (0 <= shr_m (fst (shr_fexp prec emax m e l)))%Z.
Proof.
  intro H. unfold shr_fexp. apply shr_nonneg.
  destruct l as [ | [ | | ]]; simpl; assumption.
Qed.

(** Rounding a non-negative mantissa never yields [NaN]. *)
Lemma binary_round_aux_number (s : bool) (m e : Z) (l : location) :
  (0 <= m)%Z -> binary_round_aux prec emax s m e l <> S754_nan.
Proof.
  intro H. unfold binary_round_aux.
  pose proof (shr_fexp_nonneg m e l H) as H1.
  destruct (shr_fexp prec emax m e l) as [mrs' e']. simpl in H1.
  assert (H2 : (0 <= round_nearest_even (shr_m mrs') (loc_of_shr_record mrs'))%Z).
  { unfold round_nearest_even.
    destruct (loc_of_shr_record mrs') as [ | [ | | ]]; try assumption;
      [destruct (Z.even (shr_m mrs')) |]; lia. }
  pose proof (shr_fexp_nonneg _ e' loc_Exact H2) as H3.
  destruct (shr_fexp prec emax _ e' loc_Exact) as [mrs'' e'']. simpl in H3.
  destruct (shr_m mrs'') as [ | p | p]; [discriminate | | lia].
  destruct (e'' <=? emax - prec)%Z; discriminate.
Qed.

Lemma binary_normalize_number (m e : Z) (sz : bool) :
  binary_normalize prec emax m e sz <> S754_nan.
Proof.
  unfold binary_normalize, binary_round.
  destruct m as [ | p | p]; [discriminate | |];
    destruct (shl_align p e _) as [mz ez]; apply binary_round_aux_number; lia.
Qed.

Lemma SFadd_number (x y : spec_float) :
  x <> S754_nan -> F64.SFfinite y -> SF64add x y <> S754_nan.
Proof.
  unfold SF64add.
  destruct x as [sx | sx | | sx mx ex], y as [sy | sy | | sy my ey]; simpl;
    intros Hx Hy; try contradiction; try congruence;
    try (destruct sx, sy; discriminate).
  apply binary_normalize_number.
Qed.

Lemma SFsub_number (x y : spec_float) :
  x <> S754_nan -> F64.SFfinite y -> SF64sub x y <> S754_nan.
Proof.
  unfold SF64sub.
  destruct x as [sx | sx | | sx mx ex], y as [sy | sy | | sy my ey]; simpl;
    intros Hx Hy; try contradiction; try congruence;
    try (destruct sx, sy; discriminate).
  apply binary_normalize_number.
Qed.

Lemma SFmul_number (x y : spec_float) :
  x <> S754_nan -> F64.SFnonzero y -> SF64mul x y <> S754_nan.
Proof.
  unfold SF64mul.
  destruct x as [sx | sx | | sx mx ex], y as [sy | sy | | sy my ey]; simpl;
    intros Hx Hy; try contradiction; try congruence.
  apply binary_round_aux_number. lia.
Qed.

Lemma SFdiv_number (x y : spec_float) :
  x <> S754_nan -> F64.SFnonzero y -> SF64div x y <> S754_nan.
Proof.
  unfold SF64div.
  destruct x as [sx | sx | | sx mx ex], y as [sy | sy | | sy my ey]; simpl;
    intros Hx Hy; try contradiction; try congruence.
  unfold SFdiv_core_binary.
  set (m' := match (ex - ey - _)%Z with Z0 => Zpos mx | Zpos _ => _ | Zneg _ => 0%Z end).
  assert (Hm : (0 <= m')%Z).
  { unfold m'. destruct (ex - ey - _)%Z; [lia | | lia].
    apply Z.shiftl_nonneg. lia. }
  pose proof (Z.div_pos m' (Zpos my) Hm ltac:(lia)) as Hq.
  unfold Z.div in Hq.
  destruct (Z.div_eucl m' (Zpos my)) as [q r]. simpl in Hq.
  apply binary_round_aux_number. assumption.
Qed.

Lemma isFinite_SFfinite (x : float) : F64.isFinite x = true <-> F64.SFfinite (Prim2SF x).
Proof.
  unfold F64.isFinite, F64.SFfinite. destruct (Prim2SF x); split; intro H;
    try reflexivity; try exact I; try discriminate; contradiction.
Qed.

Lemma isFinite_number (x : float) : F64.isFinite x = true -> F64.isNaN x = false.
Proof.
  unfold F64.isFinite, F64.isNaN. destruct (Prim2SF x); congruence.
Qed.

(** A finite number other than zero. *)
Lemma nonzero_SFnonzero (x : float) :
  F64.isFinite x = true -> F64.eqb x 0 = false -> F64.SFnonzero (Prim2SF x).
Proof.
  unfold F64.isFinite, F64.eqb. rewrite eqb_spec.
  replace (Prim2SF 0) with (S754_zero false) by reflexivity.
  destruct (Prim2SF x) as [s | s | | s m e]; simpl; try discriminate.
  intros _ _. exact I.
Qed.

Lemma add_number (a b : float) :
  F64.isNaN a = false -> F64.isFinite b = true -> F64.isNaN (a + b) = false.
Proof.
  rewrite !isNaN_false, isFinite_SFfinite, add_spec. apply SFadd_number.
Qed.

Lemma sub_number (a b : float) :
  F64.isNaN a = false -> F64.isFinite b = true -> F64.isNaN (a - b) = false.
Proof.
  rewrite !isNaN_false, isFinite_SFfinite, sub_spec. apply SFsub_number.
Qed.

Lemma mul_number (a b : float) :
  F64.isNaN a = false -> F64.isFinite b = true -> F64.eqb b 0 = false ->
  F64.isNaN (a * b) = false.
Proof.
  intros Ha Hb Hz. pose proof (nonzero_SFnonzero b Hb Hz).
  revert Ha. rewrite !isNaN_false, mul_spec. intro Ha. now apply SFmul_number.
Qed.

Lemma div_number (a b : float) :
  F64.isNaN a = false -> F64.isFinite b = true -> F64.eqb b 0 = false ->
  F64.isNaN (a / b) = false.
Proof.
  intros Ha Hb Hz. pose proof (nonzero_SFnonzero b Hb Hz).
  revert Ha. rewrite !isNaN_false, div_spec. intro Ha. now apply SFdiv_number.
Qed.


Lemma abs_finite (a : float) : F64.isFinite (F64.Math_abs a) = F64.isFinite a.
Proof.
  unfold F64.isFinite, F64.Math_abs. rewrite abs_spec. destruct (Prim2SF a); reflexivity.
Qed.

Lemma abs_zero (a : float) : F64.eqb (F64.Math_abs a) 0 = F64.eqb a 0.
Proof.
  unfold F64.eqb, F64.Math_abs. rewrite !eqb_spec, abs_spec.
  replace (Prim2SF 0) with (S754_zero false) by reflexivity.
  destruct (Prim2SF a) as [s | s | | s m e]; try reflexivity; destruct s; reflexivity.
Qed.



End Binary64Arith.

(* ================================================================== *)
(** * Binary64: the value of a number *)
(* ================================================================== *)

Section Binary64Value.
Import PrimFloat SpecFloat FloatOps FloatAxioms.

Lemma digits2_pos_bounds (m : positive) :
  (2 ^ (Zpos (digits2_pos m) - 1) <= Zpos m < 2 ^ Zpos (digits2_pos m))%Z.
Proof.
  induction m as [m IH | m IH | ]; cbn [digits2_pos].
  - rewrite Pos2Z.inj_succ.
    replace (Z.succ (Zpos (digits2_pos m)) - 1)%Z with (Z.succ (Zpos (digits2_pos m) - 1))%Z by lia.
    rewrite !Z.pow_succ_r by lia. lia.
  - rewrite Pos2Z.inj_succ.
    replace (Z.succ (Zpos (digits2_pos m)) - 1)%Z with (Z.succ (Zpos (digits2_pos m) - 1))%Z by lia.
    rewrite !Z.pow_succ_r by lia. lia.
  - simpl. lia.
Qed.

(** What validity says of a mantissa and its exponent. *)
Lemma bounded_inv (m : positive) (e : Z) :
  bounded prec emax m e = true ->
  (Zpos m < 2 ^ 53)%Z /\ (-1074 <= e <= 971)%Z
  /\ (e = (-1074)%Z \/ (2 ^ 52 <= Zpos m)%Z).
Proof.
  unfold bounded, canonical_mantissa, fexp, SpecFloat.emin.
  change prec with 53%Z. change emax with 1024%Z.
  intro H. apply andb_prop in H. destruct H as [H1 H2].
  apply Z.eqb_eq in H1. apply Z.leb_le in H2.
  pose proof (digits2_pos_bounds m) as [Hlo Hhi].
  set (d := Zpos (digits2_pos m)) in *.
  assert (Hd : (d <= 53)%Z) by lia.
  split; [| split; [lia |]].
  - apply Z.lt_le_trans with (2 ^ d)%Z; [assumption |].
    apply Z.pow_le_mono_r; lia.
  - destruct (Z.eq_dec e (-1074)) as [He | He]; [left; assumption | right].
    assert (d = 53%Z) by lia. subst d. rewrite H in Hlo. exact Hlo.
Qed.

Lemma Qpower2_pos (e : Z) : 0 < 2 ^ e.
Proof. apply Qpower_0_lt. reflexivity. Qed.

Lemma Qpower2_inject (j : Z) : (0 <= j)%Z -> 2 ^ j == inject_Z (2 ^ j).
Proof. intro H. rewrite Zpower_Qpower by assumption. reflexivity. Qed.

Lemma Qpower2_split (e j : Z) : 2 ^ (e + j) == 2 ^ e * 2 ^ j.
Proof. apply Qpower_plus. discriminate. Qed.

(** Mantissas are compared at the lower of two exponents. *)
Lemma value_le (n1 n2 e1 e2 : Z) :
  (e1 <= e2)%Z -> (n1 <= n2 * 2 ^ (e2 - e1))%Z ->
  inject_Z n1 * 2 ^ e1 <= inject_Z n2 * 2 ^ e2.
Proof.
  intros He Hn.
  replace e2 with (e1 + (e2 - e1))%Z at 1 by lia.
  rewrite Qpower2_split, (Qpower2_inject (e2 - e1)) by lia.
  rewrite (Qmult_comm (2 ^ e1)), Qmult_assoc, <- inject_Z_mult.
  apply Qmult_le_compat_r; [| apply Qlt_le_weak, Qpower2_pos].
  rewrite <- Zle_Qle. assumption.
Qed.

Lemma value_ge (n1 n2 e1 e2 : Z) :
  (e1 <= e2)%Z -> (n2 * 2 ^ (e2 - e1) <= n1)%Z ->
  inject_Z n2 * 2 ^ e2 <= inject_Z n1 * 2 ^ e1.
Proof.
  intros He Hn.
  replace e2 with (e1 + (e2 - e1))%Z at 1 by lia.
  rewrite Qpower2_split, (Qpower2_inject (e2 - e1)) by lia.
  rewrite (Qmult_comm (2 ^ e1)), Qmult_assoc, <- inject_Z_mult.
  apply Qmult_le_compat_r; [| apply Qlt_le_weak, Qpower2_pos].
  rewrite <- Zle_Qle. assumption.
Qed.

Lemma toQ_Some (x : float) (q : Q) :
  F64.toQ x = Some q <-> F64.isFinite x = true /\ q = F64.valueOf x.
Proof.
  unfold F64.toQ. destruct (F64.isFinite x); split.
  - intro H. split; [reflexivity | congruence].
  - intros [_ ->]. reflexivity.
  - discriminate.
  - intros [H _]. discriminate.
Qed.

(** Two valid mantissas under exponents [e1 < e2]. *)
Lemma mantissa_lt (m1 m2 : positive) (e1 e2 : Z) :
  bounded prec emax m1 e1 = true -> bounded prec emax m2 e2 = true ->
  (e1 < e2)%Z -> (Zpos m1 < Zpos m2 * 2 ^ (e2 - e1))%Z.
Proof.
  intros H1 H2 He.
  apply bounded_inv in H1. apply bounded_inv in H2.
  destruct H1 as (Hm1 & He1 & _). destruct H2 as (_ & He2 & [-> | Hm2]); [lia |].
  assert (2 ^ 1 <= 2 ^ (e2 - e1))%Z by (apply Z.pow_le_mono_r; lia).
  change (2 ^ 1)%Z with 2%Z in H.
  change (2 ^ 53)%Z with (2 ^ 52 * 2)%Z in Hm1.
  nia.
Qed.

(** The order of the numbers is the order of their values. *)
Lemma SFleb_value (a b : spec_float) :
  valid_binary a = true -> valid_binary b = true ->
  F64.SFfinite a -> F64.SFfinite b ->
  SFleb a b = true -> F64.SF2Q a <= F64.SF2Q b.
Proof.
  unfold SFleb.
  destruct a as [sa | sa | | sa ma ea], b as [sb | sb | | sb mb eb];
    cbn [valid_binary F64.SFfinite F64.SF2Q SFcompare]; intros Va Vb Fa Fb H;
    try contradiction; try apply Qle_refl.
  - (* 0 <= b *)
    destruct sb; [discriminate |].
    apply Qmult_le_0_compat; [| apply Qlt_le_weak, Qpower2_pos].
    unfold F64.signed. rewrite <- (Zle_Qle 0). lia.
  - (* a <= 0 *)
    destruct sa; [| discriminate].
    assert (0 <= inject_Z (Zpos ma) * 2 ^ ea).
    { apply Qmult_le_0_compat; [| apply Qlt_le_weak, Qpower2_pos].
      rewrite <- (Zle_Qle 0). lia. }
    unfold F64.signed. change (Zneg ma) with (- Zpos ma)%Z.
    rewrite inject_Z_opp. lra.
  - destruct sa, sb; try discriminate.
    + (* both negative *)
      unfold F64.signed.
      destruct (Z.compare_spec ea eb) as [E | E | E]; try discriminate.
      * subst eb. change (Pos.compare_cont Eq) with Pos.compare in H.
        apply value_le; [lia |]. rewrite Z.sub_diag, Z.mul_1_r.
        destruct (Pos.compare_spec ma mb); simpl in H; try discriminate; lia.
      * pose proof (mantissa_lt mb ma eb ea Vb Va E).
        apply value_ge; [lia |]. lia.
    + (* a negative, b positive *)
      assert (0 <= inject_Z (Zpos ma) * 2 ^ ea).
      { apply Qmult_le_0_compat; [| apply Qlt_le_weak, Qpower2_pos].
        rewrite <- (Zle_Qle 0). lia. }
      assert (0 <= inject_Z (Zpos mb) * 2 ^ eb).
      { apply Qmult_le_0_compat; [| apply Qlt_le_weak, Qpower2_pos].
        rewrite <- (Zle_Qle 0). lia. }
      unfold F64.signed. change (Zneg ma) with (- Zpos ma)%Z.
      rewrite inject_Z_opp. lra.
    + (* both positive *)
      unfold F64.signed.
      destruct (Z.compare_spec ea eb) as [E | E | E]; try discriminate.
      * subst eb. change (Pos.compare_cont Eq) with Pos.compare in H.
        apply value_le; [lia |]. rewrite Z.sub_diag, Z.mul_1_r.
        destruct (Pos.compare_spec ma mb); simpl in H; try discriminate; lia.
      * pose proof (mantissa_lt ma mb ea eb Va Vb E).
        apply value_le; [lia |]. lia.
Qed.

(** [a <= b] on finite numbers, read on their values. *)
Lemma leb_value (a b : float) :
  F64.isFinite a = true -> F64.isFinite b = true ->
  (a <=? b)%float = true -> F64.SF2Q (Prim2SF a) <= F64.SF2Q (Prim2SF b).
Proof.
  rewrite !isFinite_SFfinite, leb_spec. intros Fa Fb H.
  apply SFleb_value; try assumption; apply Prim2SF_valid.
Qed.

End Binary64Value.

(* ================================================================== *)
(** * Binary64: integers and rounding *)
(* ================================================================== *)

Section Binary64Round.
Import PrimFloat SpecFloat FloatOps FloatAxioms.

Lemma digits2_pos_iter (p j : positive) :
  digits2_pos (Pos.iter xO p j) = (digits2_pos p + j)%positive.
Proof.
  induction j as [ | j IH] using Pos.peano_ind.
  - simpl. rewrite Pos.add_1_r. reflexivity.
  - rewrite Pos.iter_succ. cbn [digits2_pos]. rewrite IH, Pos.add_succ_r. reflexivity.
Qed.

Lemma Zpos_iter (p j : positive) :
  Zpos (Pos.iter xO p j) = (Zpos p * 2 ^ Zpos j)%Z.
Proof.
  induction j as [ | j IH] using Pos.peano_ind.
  - simpl. lia.
  - rewrite Pos.iter_succ, Pos2Z.inj_succ, Z.pow_succ_r by lia.
    rewrite Pos2Z.inj_xO, IH. lia.
Qed.

(** A mantissa of 53 digits under an exponent in range is kept as it is. *)
Lemma binary_round_aux_canonical (s : bool) (m : positive) (e : Z) :
  digits2_pos m = 53%positive -> (-1074 <= e <= 971)%Z ->
  binary_round_aux prec emax s (Zpos m) e loc_Exact = S754_finite s m e.
Proof.
  intros Hd He.
  assert (Hf : (fexp prec emax (Zpos (digits2_pos m) + e) - e = 0)%Z).
  { rewrite Hd. unfold fexp, SpecFloat.emin. change prec with 53%Z. change emax with 1024%Z. lia. }
  unfold binary_round_aux, shr_fexp. cbn [Zdigits2 shr_record_of_loc].
  rewrite Hf. cbn [shr shr_m loc_of_shr_record round_nearest_even Zdigits2 shr_record_of_loc].
  rewrite Hf. cbn [shr shr_m].
  change (emax - prec)%Z with 971%Z.
  destruct (Z.leb_spec e 971); [reflexivity | lia].
Qed.

Lemma binary_round_integer (s : bool) (p : positive) :
  (Zpos p < 2 ^ 53)%Z ->
  binary_round prec emax s p 0 = S754_finite s (F64.mantissa_of p) (F64.exponent_of p).
Proof.
  intro Hp.
  pose proof (digits2_pos_bounds p) as [Hlo _].
  assert (Hd : (Zpos (digits2_pos p) <= 53)%Z).
  { destruct (Z.le_gt_cases (Zpos (digits2_pos p)) 53) as [H | H]; [assumption |].
    assert (2 ^ 53 <= 2 ^ (Zpos (digits2_pos p) - 1))%Z by (apply Z.pow_le_mono_r; lia).
    lia. }
  unfold binary_round, F64.mantissa_of, F64.exponent_of.
  assert (Hf : fexp prec emax (Zpos (digits2_pos p) + 0) = (Zpos (digits2_pos p) - 53)%Z).
  { unfold fexp, SpecFloat.emin. change prec with 53%Z. change emax with 1024%Z. lia. }
  rewrite Hf. unfold shl_align. rewrite Z.sub_0_r.
  destruct (Zpos (digits2_pos p) - 53)%Z as [ | j | j] eqn:E.
  - apply binary_round_aux_canonical; [| lia].
    apply Pos2Z.inj. lia.
  - lia.
  - apply binary_round_aux_canonical; [| lia].
    rewrite digits2_pos_iter. apply Pos2Z.inj. rewrite Pos2Z.inj_add. lia.
Qed.

Lemma mantissa_of_value (p : positive) :
  (Zpos p < 2 ^ 53)%Z ->
  inject_Z (Zpos (F64.mantissa_of p)) * 2 ^ F64.exponent_of p == inject_Z (Zpos p).
Proof.
  intro Hp. unfold F64.mantissa_of, F64.exponent_of.
  destruct (Zpos (digits2_pos p) - 53)%Z as [ | j | j] eqn:E.
  - change (2 ^ 0) with 1. ring.
  - pose proof (digits2_pos_bounds p) as [Hlo _].
    assert (2 ^ 53 <= 2 ^ (Zpos (digits2_pos p) - 1))%Z by (apply Z.pow_le_mono_r; lia).
    lia.
  - rewrite Zpos_iter, inject_Z_mult, <- Qpower2_inject by lia.
    rewrite <- Qmult_assoc, <- Qpower2_split.
    replace (Zpos j + Zneg j)%Z with 0%Z by lia. change (2 ^ 0) with 1. ring.
Qed.

Lemma mantissa_of_valid (s : bool) (p : positive) :
  (Zpos p < 2 ^ 53)%Z ->
  valid_binary (S754_finite s (F64.mantissa_of p) (F64.exponent_of p)) = true.
Proof.
  intro Hp. cbn [valid_binary]. unfold bounded, canonical_mantissa.
  pose proof (digits2_pos_bounds p) as [Hlo _].
  assert (Hd : (Zpos (digits2_pos p) <= 53)%Z).
  { destruct (Z.le_gt_cases (Zpos (digits2_pos p)) 53) as [H | H]; [assumption |].
    assert (2 ^ 53 <= 2 ^ (Zpos (digits2_pos p) - 1))%Z by (apply Z.pow_le_mono_r; lia).
    lia. }
  assert (Hm : Zpos (digits2_pos (F64.mantissa_of p)) = 53%Z).
  { unfold F64.mantissa_of.
    destruct (Zpos (digits2_pos p) - 53)%Z as [ | j | j] eqn:E; [lia | lia |].
    rewrite digits2_pos_iter, Pos2Z.inj_add. lia. }
  rewrite Hm. unfold F64.exponent_of, fexp, SpecFloat.emin.
  change prec with 53%Z. change emax with 1024%Z.
  apply andb_true_intro. split; [apply Z.eqb_eq | apply Z.leb_le]; lia.
Qed.

(** An integer below [2^53] in magnitude is a number, and that number is the
    integer. *)
Lemma of_Z_value (k : Z) :
  (Z.abs k < 2 ^ 53)%Z ->
  F64.isFinite (F64.of_Z k) = true /\ F64.SF2Q (Prim2SF (F64.of_Z k)) == inject_Z k.
Proof.
  intro Hk. unfold F64.of_Z, binary_normalize.
  destruct k as [ | p | p].
  - split; reflexivity.
  - rewrite binary_round_integer by lia.
    unfold F64.isFinite. rewrite Prim2SF_SF2Prim by (apply mantissa_of_valid; lia).
    split; [reflexivity |]. cbn [F64.SF2Q F64.signed]. apply mantissa_of_value. lia.
  - rewrite binary_round_integer by lia.
    unfold F64.isFinite. rewrite Prim2SF_SF2Prim by (apply mantissa_of_valid; lia).
    split; [reflexivity |]. cbn [F64.SF2Q F64.signed].
    change (Zneg (F64.mantissa_of p)) with (- Zpos (F64.mantissa_of p))%Z.
    change (Zneg p) with (- Zpos p)%Z. rewrite !inject_Z_opp.
    rewrite <- (mantissa_of_value p) by lia. ring.
Qed.

Lemma Qfloor_half_integer (z : Z) : Qfloor (inject_Z z + (1 # 2)) = z.
Proof.
  unfold Qfloor, inject_Z, Qplus. cbn [Qnum Qden].
  rewrite Z.mul_1_l. change (Zpos (1 * 2)) with 2%Z. change (Zpos 2) with 2%Z.
  symmetry. apply (Z.div_unique _ _ _ 1); lia.
Qed.

Lemma Qpower2_neg (p : Z) : (0 < p)%Z -> 2 ^ (- p) == / inject_Z (2 ^ p).
Proof.
  intro H. rewrite Qpower_opp, Qpower2_inject by lia. reflexivity.
Qed.

(** [floor(n / 2^p + 1/2)] in integer arithmetic. *)
Lemma Qfloor_half_scaled (n p : Z) :
  (0 < p)%Z ->
  Qfloor (inject_Z n * 2 ^ (- p) + (1 # 2)) = ((2 * n + 2 ^ p) / 2 ^ (1 + p))%Z.
Proof.
  intro Hp.
  assert (HP : (0 < 2 ^ p)%Z) by (apply Z.pow_pos_nonneg; lia).
  rewrite Zdiv_Qdiv. apply Qfloor_comp.
  rewrite Qpower2_neg by assumption.
  rewrite Z.pow_add_r by lia. change (2 ^ 1)%Z with 2%Z.
  rewrite !inject_Z_plus, !inject_Z_mult.
  assert (~ inject_Z (2 ^ p) == 0).
  { intro E. unfold Qeq in E. simpl in E. lia. }
  field. assumption.
Qed.

(** [Math.round] of a finite number is finite, and is the integer
    [floor(x + 1/2)]. *)
Lemma Math_round_value (x : float) :
  F64.isFinite x = true ->
  F64.isFinite (F64.Math_round x) = true
  /\ F64.SF2Q (Prim2SF (F64.Math_round x)) == inject_Z (Qfloor (F64.SF2Q (Prim2SF x) + (1 # 2))).
Proof.
  intro Hx. unfold F64.Math_round.
  pose proof (Prim2SF_valid x) as Hv.
  destruct (Prim2SF x) as [s | s | | s m e] eqn:E.
  - rewrite E. split; [assumption | reflexivity].
  - unfold F64.isFinite in Hx. rewrite E in Hx. discriminate.
  - unfold F64.isFinite in Hx. rewrite E in Hx. discriminate.
  - cbn [valid_binary] in Hv. apply bounded_inv in Hv. destruct Hv as (Hm & He & _).
    destruct (Z.leb_spec 0 e) as [H0 | H0].
    + rewrite E. split; [assumption |]. cbn [F64.SF2Q].
      assert (Eq : inject_Z (F64.signed s m) * 2 ^ e == inject_Z (F64.signed s m * 2 ^ e)).
      { rewrite inject_Z_mult, <- Qpower2_inject by assumption. reflexivity. }
      rewrite (Qfloor_comp _ _ (Qplus_comp _ _ Eq _ _ (Qeq_refl (1 # 2)))).
      rewrite Qfloor_half_integer. exact Eq.
    + cbn [F64.SF2Q].
      assert (Ee : e = (- (- e))%Z) by lia.
      remember (- e)%Z as p eqn:Ep. assert (Hp : (0 < p)%Z) by lia. rewrite Ee.
      replace (1 - - p)%Z with (1 + p)%Z by lia.
      rewrite Qfloor_half_scaled by lia.
      set (k := ((2 * F64.signed s m + 2 ^ p) / 2 ^ (1 + p))%Z).
      assert (Hk : (Z.abs k < 2 ^ 53)%Z).
      { assert (HP : (2 ^ 1 <= 2 ^ p)%Z) by (apply Z.pow_le_mono_r; lia).
        change (2 ^ 1)%Z with 2%Z in HP.
        assert (Hn : (- 2 ^ 53 < F64.signed s m < 2 ^ 53)%Z)
          by (unfold F64.signed; destruct s; lia).
        assert (H2 : (2 ^ (1 + p) = 2 * 2 ^ p)%Z)
          by (rewrite Z.pow_add_r by lia; reflexivity).
        assert (k < 2 ^ 53)%Z.
        { unfold k. apply Z.div_lt_upper_bound; [lia |]. rewrite H2. nia. }
        assert (- 2 ^ 52 <= k)%Z.
        { unfold k. apply Z.div_le_lower_bound; [lia |]. rewrite H2. nia. }
        lia. }
      destruct (Z.eqb_spec k 0) as [K0 | K0].
      * rewrite K0. destruct s; split; reflexivity.
      * apply of_Z_value. assumption.
Qed.

End Binary64Round.

(* ================================================================== *)
(** * Binary64: the sign of a difference *)
(* ================================================================== *)

Section Binary64Sign.
Import PrimFloat SpecFloat FloatOps FloatAxioms.

Lemma shr_1_div (mrs : shr_record) :
  (0 <= shr_m mrs)%Z -> shr_m (shr_1 mrs) = (shr_m mrs / 2)%Z.
Proof.
  destruct mrs as [m r s]. cbn [shr_m shr_1].
  destruct m as [ | [p | p | ] | p]; cbn [shr_m]; intro H; try lia.
  - reflexivity.
  - rewrite Pos2Z.inj_xI. apply (Z.div_unique _ _ _ 1); lia.
  - rewrite Pos2Z.inj_xO. apply (Z.div_unique _ _ _ 0); lia.
  - reflexivity.
Qed.

Lemma shr_iter_div (n : positive) (mrs : shr_record) :
  (0 <= shr_m mrs)%Z ->
  shr_m (iter_pos shr_1 n mrs) = (shr_m mrs / 2 ^ Zpos n)%Z.
Proof.
  revert mrs. induction n as [n IH | n IH | ]; intros mrs H; cbn [iter_pos].
  - assert (H1 : (0 <= shr_m (shr_1 mrs))%Z) by (apply shr_1_nonneg; assumption).
    assert (H2 : (0 <= shr_m (iter_pos shr_1 n (shr_1 mrs)))%Z)
      by (apply (iter_pos_inv (fun r => (0 <= shr_m r)%Z)); [exact shr_1_nonneg | assumption]).
    rewrite IH, IH, shr_1_div by assumption.
    rewrite !Z.div_div
      by first [apply Z.pow_pos_nonneg; lia | apply Z.pow_nonzero; lia | lia].
    f_equal. rewrite Pos2Z.inj_xI, <- Z.pow_add_r, <- (Z.pow_1_r 2) at 1 by lia.
    rewrite <- Z.pow_add_r by lia. f_equal. lia.
  - assert (H2 : (0 <= shr_m (iter_pos shr_1 n mrs))%Z)
      by (apply (iter_pos_inv (fun r => (0 <= shr_m r)%Z)); [exact shr_1_nonneg | assumption]).
    rewrite IH, IH by assumption.
    rewrite Z.div_div by first [apply Z.pow_pos_nonneg; lia | apply Z.pow_nonzero; lia].
    f_equal. rewrite Pos2Z.inj_xO, <- Z.pow_add_r by lia. f_equal. lia.
  - rewrite shr_1_div by assumption. reflexivity.
Qed.

(** Shifting a positive mantissa to its exponent leaves it positive, at an
    exponent that has not decreased. *)
Lemma shr_fexp_pos (m e : Z) (l : location) :
  (0 < m)%Z -> (-1074 <= e)%Z ->
  (0 < shr_m (fst (shr_fexp prec emax m e l)))%Z
  /\ (-1074 <= snd (shr_fexp prec emax m e l))%Z.
Proof.
  intros Hm He. unfold shr_fexp, shr.
  assert (Hr : shr_m (shr_record_of_loc m l) = m) by (destruct l as [ | [ | | ]]; reflexivity).
  destruct (fexp prec emax (Zdigits2 m + e) - e)%Z as [ | n | n] eqn:E; cbn [fst snd];
    try (rewrite Hr; split; assumption).
  rewrite shr_iter_div by (rewrite Hr; lia). rewrite Hr.
  split; [| lia].
  destruct m as [ | p | p]; try lia.
  cbn [Zdigits2] in E.
  pose proof (digits2_pos_bounds p) as [Hlo _].
  unfold fexp, SpecFloat.emin in E. change prec with 53%Z in E. change emax with 1024%Z in E.
  assert (Hn : (Zpos n <= Zpos (digits2_pos p) - 1)%Z) by lia.
  assert (2 ^ Zpos n <= 2 ^ (Zpos (digits2_pos p) - 1))%Z by (apply Z.pow_le_mono_r; lia).
  apply Z.div_str_pos. split; [apply Z.pow_pos_nonneg; lia | lia].
Qed.

Lemma binary_round_aux_signed (s : bool) (m e : Z) (l : location) :
  (0 < m)%Z -> (-1074 <= e)%Z -> F64.SFsigned s (binary_round_aux prec emax s m e l).
Proof.
  intros Hm He. unfold binary_round_aux.
  destruct (shr_fexp_pos m e l Hm He) as [H1 H1e].
  destruct (shr_fexp prec emax m e l) as [mrs' e']. cbn [fst snd] in H1, H1e.
  assert (H2 : (0 < round_nearest_even (shr_m mrs') (loc_of_shr_record mrs'))%Z).
  { unfold round_nearest_even.
    destruct (loc_of_shr_record mrs') as [ | [ | | ]]; try assumption;
      [destruct (Z.even (shr_m mrs')) |]; lia. }
  destruct (shr_fexp_pos _ e' loc_Exact H2 H1e) as [H3 _].
  destruct (shr_fexp prec emax _ e' loc_Exact) as [mrs'' e'']. cbn [fst] in H3.
  destruct (shr_m mrs'') as [ | p | p]; try lia.
  destruct (e'' <=? emax - prec)%Z; reflexivity.
Qed.

Lemma binary_round_signed (s : bool) (p : positive) (e : Z) :
  (-1074 <= e)%Z -> F64.SFsigned s (binary_round prec emax s p e).
Proof.
  intro He. unfold binary_round, shl_align.
  set (e' := fexp prec emax (Zpos (digits2_pos p) + e)).
  assert (He' : (-1074 <= e')%Z).
  { unfold e', fexp, SpecFloat.emin. change prec with 53%Z. change emax with 1024%Z. lia. }
  destruct (e' - e)%Z as [ | d | d] eqn:E;
    apply binary_round_aux_signed; lia.
Qed.

(** The sign of the number that rounds an integer. *)
Lemma binary_normalize_sign (d e : Z) :
  (-1074 <= e)%Z ->
  SFltb (S754_zero false) (binary_normalize prec emax d e false) = (0 <? d)%Z.
Proof.
  intro He. unfold binary_normalize. destruct d as [ | p | p].
  - reflexivity.
  - pose proof (binary_round_signed false p e He) as H.
    destruct (binary_round prec emax false p e) as [ | s' | | s' m' e'];
      cbn [F64.SFsigned] in H; try contradiction; subst s'; reflexivity.
  - pose proof (binary_round_signed true p e He) as H.
    destruct (binary_round prec emax true p e) as [ | s' | | s' m' e'];
      cbn [F64.SFsigned] in H; try contradiction; subst s'; reflexivity.
Qed.

Lemma shl_align_value (m : positive) (e ez : Z) :
  (ez <= e)%Z -> Zpos (fst (shl_align m e ez)) = (Zpos m * 2 ^ (e - ez))%Z.
Proof.
  intro H. unfold shl_align.
  destruct (ez - e)%Z as [ | d | d] eqn:E; cbn [fst].
  - replace (e - ez)%Z with 0%Z by lia. lia.
  - lia.
  - rewrite Zpos_iter. f_equal. f_equal. lia.
Qed.

End Binary64Sign.

(* ================================================================== *)
(** * Binary64: the order of the numbers *)
(* ================================================================== *)

Section Binary64Rank.
Import PrimFloat SpecFloat FloatOps FloatAxioms.

Lemma value_lt (n1 n2 e1 e2 : Z) :
  (e1 <= e2)%Z -> (n1 < n2 * 2 ^ (e2 - e1))%Z ->
  inject_Z n1 * 2 ^ e1 < inject_Z n2 * 2 ^ e2.
Proof.
  intros He Hn.
  replace e2 with (e1 + (e2 - e1))%Z at 1 by lia.
  rewrite Qpower2_split, (Qpower2_inject (e2 - e1)) by lia.
  rewrite (Qmult_comm (2 ^ e1)), Qmult_assoc, <- inject_Z_mult.
  apply Qmult_lt_r; [apply Qpower2_pos |].
  rewrite <- Zlt_Qlt. assumption.
Qed.

Lemma value_gt (n1 n2 e1 e2 : Z) :
  (e1 <= e2)%Z -> (n2 * 2 ^ (e2 - e1) < n1)%Z ->
  inject_Z n2 * 2 ^ e2 < inject_Z n1 * 2 ^ e1.
Proof.
  intros He Hn.
  replace e2 with (e1 + (e2 - e1))%Z at 1 by lia.
  rewrite Qpower2_split, (Qpower2_inject (e2 - e1)) by lia.
  rewrite (Qmult_comm (2 ^ e1)), Qmult_assoc, <- inject_Z_mult.
  apply Qmult_lt_r; [apply Qpower2_pos |].
  rewrite <- Zlt_Qlt. assumption.
Qed.

Lemma value_pos (m : positive) (e : Z) : 0 < inject_Z (Zpos m) * 2 ^ e.
Proof.
  apply Qmult_lt_0_compat; [| apply Qpower2_pos].
  rewrite <- (Zlt_Qlt 0). lia.
Qed.

(** Every finite number lies below [2^1024]. *)
Lemma value_below (m : positive) (e : Z) :
  bounded prec emax m e = true -> inject_Z (Zpos m) * 2 ^ e < inject_Z (2 ^ 1024).
Proof.
  intro H. apply bounded_inv in H. destruct H as (Hm & He & _).
  setoid_replace (inject_Z (2 ^ 1024)) with (inject_Z (2 ^ 53) * 2 ^ 971).
  - apply value_lt; [lia |].
    assert (0 < 2 ^ (971 - e))%Z by (apply Z.pow_pos_nonneg; lia). nia.
  - rewrite (Qpower2_inject 971), <- inject_Z_mult by lia. reflexivity.
Qed.

Lemma signed_neg (m : positive) (e : Z) :
  inject_Z (F64.signed true m) * 2 ^ e == - (inject_Z (Zpos m) * 2 ^ e).
Proof.
  unfold F64.signed. change (Zneg m) with (- Zpos m)%Z. rewrite inject_Z_opp. ring.
Qed.

Lemma SFcompare_Lt_rank (a b : spec_float) :
  valid_binary a = true -> valid_binary b = true ->
  SFcompare a b = Some Lt -> F64.SFrank a < F64.SFrank b.
Proof.
  destruct a as [sa | sa | | sa ma ea], b as [sb | sb | | sb mb eb];
    cbn [valid_binary F64.SFrank F64.SF2Q SFcompare]; intros Va Vb H; try discriminate.
  - (* 0, infinity *)
    destruct sb; [discriminate | reflexivity].
  - (* 0, finite *)
    destruct sb; [discriminate | apply value_pos].
  - (* infinity, 0 *)
    destruct sa; [reflexivity | discriminate].
  - (* infinity, infinity *)
    destruct sa, sb; try discriminate. reflexivity.
  - (* infinity, finite *)
    destruct sa; [| discriminate].
    pose proof (value_below mb eb Vb). pose proof (value_pos mb eb).
    destruct sb; [rewrite signed_neg | unfold F64.signed]; lra.
  - (* finite, 0 *)
    destruct sa; [| discriminate]. rewrite signed_neg.
    pose proof (value_pos ma ea). lra.
  - (* finite, infinity *)
    destruct sb; [discriminate |].
    pose proof (value_below ma ea Va). pose proof (value_pos ma ea).
    destruct sa; [rewrite signed_neg | unfold F64.signed]; lra.
  - (* finite, finite *)
    destruct sa, sb; try discriminate.
    + rewrite !signed_neg.
      destruct (Z.compare_spec ea eb) as [E | E | E]; try discriminate.
      * subst eb. change (Pos.compare_cont Eq) with Pos.compare in H.
        assert (inject_Z (Zpos mb) * 2 ^ ea < inject_Z (Zpos ma) * 2 ^ ea).
        { apply value_lt; [lia |]. rewrite Z.sub_diag, Z.mul_1_r.
          destruct (Pos.compare_spec ma mb); simpl in H; try discriminate; lia. }
        lra.
      * pose proof (mantissa_lt mb ma eb ea Vb Va E).
        assert (inject_Z (Zpos mb) * 2 ^ eb < inject_Z (Zpos ma) * 2 ^ ea)
          by (apply value_lt; lia).
        lra.
    + rewrite signed_neg. unfold F64.signed.
      pose proof (value_pos ma ea). pose proof (value_pos mb eb). lra.
    + unfold F64.signed.
      destruct (Z.compare_spec ea eb) as [E | E | E]; try discriminate.
      * subst eb. change (Pos.compare_cont Eq) with Pos.compare in H.
        apply value_lt; [lia |]. rewrite Z.sub_diag, Z.mul_1_r.
        destruct (Pos.compare_spec ma mb); simpl in H; try discriminate; lia.
      * pose proof (mantissa_lt ma mb ea eb Va Vb E).
        apply value_lt; lia.
Qed.

Lemma SFcompare_Eq_rank (a b : spec_float) :
  SFcompare a b = Some Eq -> F64.SFrank a == F64.SFrank b.
Proof.
  destruct a as [sa | sa | | sa ma ea], b as [sb | sb | | sb mb eb];
    cbn [F64.SFrank F64.SF2Q SFcompare]; intro H; try discriminate; try reflexivity;
    try (destruct sa; discriminate); try (destruct sb; discriminate).
  - destruct sa, sb; try discriminate; reflexivity.
  - destruct sa, sb; try discriminate;
      destruct (Z.compare_spec ea eb) as [E | E | E]; try discriminate;
      change (Pos.compare_cont Eq) with Pos.compare in H;
      destruct (Pos.compare_spec ma mb); simpl in H; try discriminate;
      subst; reflexivity.
Qed.

(** The comparison of two numbers is the comparison of their places. *)
Lemma SFcompare_rank (a b : spec_float) :
  valid_binary a = true -> valid_binary b = true ->
  a <> S754_nan -> b <> S754_nan ->
  (SFltb a b = true <-> F64.SFrank a < F64.SFrank b)
  /\ (SFeqb a b = true <-> F64.SFrank a == F64.SFrank b)
  /\ (SFleb a b = true <-> F64.SFrank a <= F64.SFrank b).
Proof.
  intros Va Vb Ha Hb. unfold SFltb, SFeqb, SFleb.
  pose proof (SFcompare_antisym a b) as Hanti.
  destruct (SFcompare_defined a b Ha Hb) as [c Hc]. rewrite Hc in *.
  destruct c; simpl in Hanti.
  - apply SFcompare_Eq_rank in Hc.
    split; [| split]; split; intro H; try reflexivity; try discriminate; lra.
  - apply SFcompare_Lt_rank in Hc; try assumption.
    split; [| split]; split; intro H; try reflexivity; try discriminate; lra.
  - apply SFcompare_Lt_rank in Hanti; try assumption.
    split; [| split]; split; intro H; try reflexivity; try discriminate; lra.
Qed.

Lemma Prim2SF_zero : Prim2SF 0%float = S754_zero false.
Proof. reflexivity. Qed.

(** [x - y > 0] exactly when [x > y]. *)
Lemma SFsub_pos (a b : spec_float) :
  valid_binary a = true -> valid_binary b = true ->
  a <> S754_nan -> b <> S754_nan ->
  SFltb (S754_zero false) (SF64sub a b) = SFltb b a.
Proof.
  intros Va Vb Ha Hb.
  destruct a as [sa | sa | | sa ma ea], b as [sb | sb | | sb mb eb];
    try congruence; unfold SF64sub; cbn [SFsub];
    try (destruct sa, sb; reflexivity); try (destruct sa; reflexivity);
    try (destruct sb; reflexivity).
  cbn [valid_binary] in Va, Vb.
  pose proof (bounded_inv _ _ Va) as (_ & Hea & _).
  pose proof (bounded_inv _ _ Vb) as (_ & Heb & _).
  rewrite binary_normalize_sign by lia.
  set (ez := Z.min ea eb).
  rewrite !shl_align_value by lia.
  set (na := (cond_Zopp sa (Zpos ma * 2 ^ (ea - ez)))%Z).
  set (nb := (cond_Zopp sb (Zpos mb * 2 ^ (eb - ez)))%Z).
  assert (Ra : F64.SFrank (S754_finite sa ma ea) == inject_Z na * 2 ^ ez).
  { cbn [F64.SFrank F64.SF2Q]. unfold na.
    replace ea with (ez + (ea - ez))%Z at 1 by lia.
    rewrite Qpower2_split, (Qpower2_inject (ea - ez)) by lia.
    destruct sa; cbn [cond_Zopp F64.signed].
    - change (Zneg ma) with (- Zpos ma)%Z. rewrite <- Z.mul_opp_l, inject_Z_mult. ring.
    - rewrite inject_Z_mult. ring. }
  assert (Rb : F64.SFrank (S754_finite sb mb eb) == inject_Z nb * 2 ^ ez).
  { cbn [F64.SFrank F64.SF2Q]. unfold nb.
    replace eb with (ez + (eb - ez))%Z at 1 by lia.
    rewrite Qpower2_split, (Qpower2_inject (eb - ez)) by lia.
    destruct sb; cbn [cond_Zopp F64.signed].
    - change (Zneg mb) with (- Zpos mb)%Z. rewrite <- Z.mul_opp_l, inject_Z_mult. ring.
    - rewrite inject_Z_mult. ring. }
  destruct (SFcompare_rank (S754_finite sb mb eb) (S754_finite sa ma ea) Vb Va Hb Ha)
    as (Hlt & _ & _).
  rewrite Ra, Rb in Hlt.
  pose proof (Qpower2_pos ez) as Hp.
  destruct (Z.ltb_spec 0 (na - nb)) as [Hd | Hd]; symmetry.
  - apply Hlt. apply Qmult_lt_r; [assumption |]. rewrite <- Zlt_Qlt. lia.
  - apply not_true_is_false. intro H. apply Hlt in H.
    apply Qmult_lt_r in H; [| assumption]. rewrite <- Zlt_Qlt in H. lia.
Qed.

Lemma sub_pos (x y : float) :
  F64.isNaN x = false -> F64.isNaN y = false ->
  F64.gtb (x - y)%float 0%float = F64.gtb x y.
Proof.
  rewrite !isNaN_false. intros Hx Hy. unfold F64.gtb.
  rewrite !ltb_spec, sub_spec, Prim2SF_zero.
  apply SFsub_pos; try assumption; apply Prim2SF_valid.
Qed.

Lemma compare_rank (a b : float) :
  F64.isNaN a = false -> F64.isNaN b = false ->
  (F64.ltb a b = true <-> F64.rank a < F64.rank b)
  /\ (F64.eqb a b = true <-> F64.rank a == F64.rank b)
  /\ (F64.geb a b = true <-> F64.rank b <= F64.rank a).
Proof.
  rewrite !isNaN_false. intros Ha Hb. unfold F64.ltb, F64.eqb, F64.geb, F64.rank.
  rewrite ltb_spec, eqb_spec, leb_spec.
  destruct (SFcompare_rank _ _ (Prim2SF_valid a) (Prim2SF_valid b) Ha Hb) as (H1 & H2 & _).
  destruct (SFcompare_rank _ _ (Prim2SF_valid b) (Prim2SF_valid a) Hb Ha) as (_ & _ & H3).
  split; [assumption | split; assumption].
Qed.

End Binary64Rank.

(* ================================================================== *)
(** * Binary64: the chart loop computes the bucket sums *)
(* ================================================================== *)

Section Chart64.
Import PrimFloat SpecFloat FloatOps FloatAxioms.
Local Open Scope float_scope.

(** The magnitude of a negative amount is its negation. *)
Lemma opp_abs (a : float) : F64.ltb a 0 = true -> - a = F64.Math_abs a.
Proof.
  unfold F64.ltb, F64.Math_abs. rewrite ltb_spec, Prim2SF_zero. intro H.
  apply Prim2SF_inj. rewrite opp_spec, abs_spec.
  unfold SFltb in H.
  destruct (Prim2SF a) as [s | s | | s m e]; cbn [SFcompare] in H;
    try discriminate; destruct s; try discriminate; reflexivity.
Qed.

Lemma add_nth_length (l : list float) (i : nat) (v : float) :
  List.length (F64.add_nth l i v) = List.length l.
Proof.
  revert i. induction l as [| x l IH]; intros [| i]; simpl; auto.
Qed.

Lemma add_at64_length (l : list float) (idx v : float) :
  List.length (F64.add_at l idx v) = List.length l.
Proof.
  unfold F64.add_at. destruct (F64.toIndex idx); [apply add_nth_length | reflexivity].
Qed.

(** Reading a cell after [arr[idx] += v]. *)
Lemma nth_add_nth (l : list float) (j i : nat) (v : float) :
  (i < List.length l)%nat ->
  nth i (F64.add_nth l j v) 0 = if (j =? i)%nat then nth i l 0 + v else nth i l 0.
Proof.
  revert j i. induction l as [| x l IH]; intros j i Hi; simpl in Hi; [lia |].
  destruct j as [| j]; destruct i as [| i]; simpl; try reflexivity.
  apply IH. lia.
Qed.

Lemma nth_add_at64 (l : list float) (idx v : float) (i : nat) :
  (i < List.length l)%nat ->
  nth i (F64.add_at l idx v) 0
  = if match F64.toIndex idx with Some j => (j =? i)%nat | None => false end
    then nth i l 0 + v else nth i l 0.
Proof.
  intro Hi. unfold F64.add_at.
  destruct (F64.toIndex idx) as [j |]; [apply nth_add_nth; assumption | reflexivity].
Qed.

(** The index computed by the loop is the bucket of the specification. *)
Lemma bucketIdx_spec (cfg : FromTransactions.BucketConfig) (now ts : Z) :
  FromTransactions64.bucketIdx cfg now ts = Spec64.bucket_of cfg now ts.
Proof.
  unfold FromTransactions64.bucketIdx, Spec64.bucket_of, FromTransactions64.clamp,
    FromTransactions64.segmentMs, Spec64.bucketWidth, Spec.windowStart,
    FromTransactions.startMs.
  set (w := (FromTransactions.windowDays cfg * FromTransactions.msPerDay)%Z).
  replace (now - (now - w))%Z with w by lia. reflexivity.
Qed.

Lemma window_test (start now ts : Z) :
  ((ts <? start)%Z || (ts >=? now)%Z) = negb ((start <=? ts)%Z && (ts <? now)%Z).
Proof.
  rewrite Z.geb_leb.
  destruct (Z.ltb_spec ts start), (Z.leb_spec now ts), (Z.leb_spec start ts),
    (Z.ltb_spec ts now); try lia; reflexivity.
Qed.

Lemma chart64_step_length (cfg : FromTransactions.BucketConfig) (now : Z)
    (b : FromTransactions64.Buckets) (t : FromTransactions64.TxLike)
    (cat : option SpendingCategory) :
  List.length (Spec64.accumulator (FromTransactions64.chart_step cfg now b t) cat)
  = List.length (Spec64.accumulator b cat).
Proof.
  unfold FromTransactions64.chart_step.
  destruct (F64.geb _ 0); [reflexivity |].
  destruct (_ || _); [reflexivity |].
  destruct (FromTransactions.mapCategory _); destruct cat as [[ | | ] |];
    cbn [Spec64.accumulator FromTransactions64.b_total FromTransactions64.b_essentials
         FromTransactions64.b_leisure FromTransactions64.b_subscriptions];
    rewrite ?add_at64_length; reflexivity.
Qed.

(** One pass of the loop body, read in one cell of one accumulator. *)
Lemma chart64_step_cell (cfg : FromTransactions.BucketConfig) (now : Z)
    (b : FromTransactions64.Buckets) (t : FromTransactions64.TxLike)
    (cat : option SpendingCategory) (i : nat) :
  F64.isNaN (FromTransactions64.tx_amount t) = false ->
  (i < List.length (Spec64.accumulator b cat))%nat ->
  nth i (Spec64.accumulator (FromTransactions64.chart_step cfg now b t) cat) 0
  = if Spec64.counts_in cfg now cat i t
    then nth i (Spec64.accumulator b cat) 0 + F64.Math_abs (FromTransactions64.tx_amount t)
    else nth i (Spec64.accumulator b cat) 0.
Proof.
  intros Hnum Hi.
  unfold FromTransactions64.chart_step, Spec64.counts_in, Spec64.in_chart.
  pose proof (geb_false_ltb (FromTransactions64.tx_amount t) 0 Hnum eq_refl) as Hg.
  destruct (F64.ltb (FromTransactions64.tx_amount t) 0) eqn:El.
  - apply negb_true_iff in Hg. rewrite Hg. cbn [andb].
    change (FromTransactions.startMs cfg now) with (Spec.windowStart cfg now).
    rewrite window_test.
    destruct ((Spec.windowStart cfg now <=? FromTransactions64.tx_date t)%Z
              && (FromTransactions64.tx_date t <? now)%Z); cbn [negb andb]; [| reflexivity].
    rewrite bucketIdx_spec, (opp_abs _ El).
    destruct (FromTransactions.mapCategory _); destruct cat as [[ | | ] |];
      cbn [Spec64.accumulator FromTransactions64.b_total FromTransactions64.b_essentials
           FromTransactions64.b_leisure FromTransactions64.b_subscriptions
           Spec.category_eqb] in *;
      rewrite ?andb_true_r, ?andb_false_r; try reflexivity;
      apply nth_add_at64; assumption.
  - apply negb_false_iff in Hg. rewrite Hg. reflexivity.
Qed.

Lemma chart64_fold_cell (cfg : FromTransactions.BucketConfig) (now : Z)
    (cat : option SpendingCategory) (i : nat) (txs : list FromTransactions64.TxLike) :
  Spec64.amounts_are_numbers txs ->
  forall b,
    (i < List.length (Spec64.accumulator b cat))%nat ->
    nth i (Spec64.accumulator (fold_left (FromTransactions64.chart_step cfg now) txs b) cat) 0
    = fold_left add
        (map (fun t => F64.Math_abs (FromTransactions64.tx_amount t))
           (filter (Spec64.counts_in cfg now cat i) txs))
        (nth i (Spec64.accumulator b cat) 0).
Proof.
  induction 1 as [| t txs Ht Htxs IH]; intros b Hi; [reflexivity |].
  cbn [fold_left filter].
  rewrite IH by (rewrite chart64_step_length; assumption).
  rewrite chart64_step_cell by assumption.
  destruct (Spec64.counts_in cfg now cat i t); reflexivity.
Qed.

Lemma chart64_fold_length (cfg : FromTransactions.BucketConfig) (now : Z)
    (cat : option SpendingCategory) (txs : list FromTransactions64.TxLike) :
  forall b,
    List.length (Spec64.accumulator (fold_left (FromTransactions64.chart_step cfg now) txs b) cat)
    = List.length (Spec64.accumulator b cat).
Proof.
  induction txs as [| t txs IH]; intro b; [reflexivity |].
  cbn [fold_left]. rewrite IH. apply chart64_step_length.
Qed.

Lemma nth_zeros64 (n i : nat) : nth i (Array_fill n 0) 0 = 0.
Proof.
  unfold Array_fill. revert i. induction n as [| n IH]; intros [| i]; simpl; auto.
Qed.

(** Each accumulator of the chart loop holds the bucket sums. *)
Lemma chart64_loop_cell (cfg : FromTransactions.BucketConfig) (now : Z)
    (cat : option SpendingCategory) (i : nat) (txs : list FromTransactions64.TxLike) :
  Spec64.amounts_are_numbers txs ->
  (i < FromTransactions.len cfg)%nat ->
  nth i (Spec64.accumulator (FromTransactions64.chart_loop cfg now txs) cat) 0
  = Spec64.bucket_sum cfg now cat i txs.
Proof.
  intros Hnum Hi. unfold FromTransactions64.chart_loop, Spec64.bucket_sum, Spec64.total_of.
  rewrite chart64_fold_cell; try assumption.
  - f_equal. destruct cat as [[ | | ] |]; apply nth_zeros64.
  - destruct cat as [[ | | ] |];
      cbn [Spec64.accumulator FromTransactions64.b_total FromTransactions64.b_essentials
           FromTransactions64.b_leisure FromTransactions64.b_subscriptions];
      unfold Array_fill; rewrite repeat_length; assumption.
Qed.

Lemma chart64_loop_length (cfg : FromTransactions.BucketConfig) (now : Z)
    (cat : option SpendingCategory) (txs : list FromTransactions64.TxLike) :
  List.length (Spec64.accumulator (FromTransactions64.chart_loop cfg now txs) cat)
  = FromTransactions.len cfg.
Proof.
  unfold FromTransactions64.chart_loop. rewrite chart64_fold_length.
  destruct cat as [[ | | ] |];
    cbn [Spec64.accumulator FromTransactions64.b_total FromTransactions64.b_essentials
         FromTransactions64.b_leisure FromTransactions64.b_subscriptions];
    unfold Array_fill; apply repeat_length.
Qed.

(** The series of the snapshot are the rounded accumulators. *)
Lemma series64_of_build (clock : Date) (args : FromTransactions64.Args)
    (cat : option SpendingCategory) :
  Spec64.series_of
    (Types64.series (FromTransactions64.buildDashboardSnapshotFromTransactions clock args)) cat
  = map F64.Math_round
      (Spec64.accumulator
         (FromTransactions64.chart_loop
            (FromTransactions.getBucketConfig (FromTransactions64.arg_period args))
            (nullish (FromTransactions64.arg_now args) clock)
            (FromTransactions64.arg_transactions args)) cat).
Proof. destruct cat as [[ | | ] |]; reflexivity. Qed.

Lemma Math_round_zero : F64.Math_round 0 = 0.
Proof. reflexivity. Qed.

End Chart64.

(* ================================================================== *)
(** * Binary64: every charted transaction has a bucket *)
(* ================================================================== *)

Section Bucket64.
Import PrimFloat SpecFloat FloatOps FloatAxioms.
Local Open Scope float_scope.

Lemma Qfloor_scaled (n p : Z) :
  (0 < p)%Z -> Qfloor (inject_Z n * 2 ^ (- p))%Q = (n / 2 ^ p)%Z.
Proof.
  intro Hp. rewrite Zdiv_Qdiv. apply Qfloor_comp.
  rewrite Qpower2_neg by assumption. reflexivity.
Qed.

(** [Math.floor] of a number is a number; when it is finite it is an
    integer. *)
Lemma Math_floor_whole (x : float) :
  F64.isNaN x = false ->
  F64.isNaN (F64.Math_floor x) = false
  /\ (F64.isFinite (F64.Math_floor x) = true ->
      exists k : Z, (F64.valueOf (F64.Math_floor x) == inject_Z k)%Q).
Proof.
  intro Hx. unfold F64.Math_floor.
  pose proof (Prim2SF_valid x) as Hv.
  destruct (Prim2SF x) as [s | s | | s m e] eqn:E.
  - split; [assumption |]. intros _. exists 0%Z. unfold F64.valueOf. rewrite E. reflexivity.
  - split; [assumption |]. unfold F64.isFinite. rewrite E. discriminate.
  - unfold F64.isNaN in Hx. rewrite E in Hx. discriminate.
  - cbn [valid_binary] in Hv. apply bounded_inv in Hv. destruct Hv as (Hm & He & _).
    destruct (Z.leb_spec 0 e) as [H0 | H0].
    + split; [assumption |]. intros _. exists (F64.signed s m * 2 ^ e)%Z.
      unfold F64.valueOf. rewrite E. cbn [F64.SF2Q].
      rewrite inject_Z_mult, <- Qpower2_inject by assumption. reflexivity.
    + set (k := (F64.signed s m / 2 ^ (- e))%Z).
      assert (Hk : (Z.abs k < 2 ^ 53)%Z).
      { assert (HP : (0 < 2 ^ (- e))%Z) by (apply Z.pow_pos_nonneg; lia).
        assert (Hn : (- 2 ^ 53 < F64.signed s m < 2 ^ 53)%Z)
          by (unfold F64.signed; destruct s; lia).
        assert (k < 2 ^ 53)%Z
          by (unfold k; apply Z.div_lt_upper_bound; [lia | nia]).
        assert (- 2 ^ 53 < k)%Z.
        { apply Z.lt_le_trans with (- 2 ^ 53 + 1)%Z; [lia |].
          unfold k; apply Z.div_le_lower_bound; [lia | nia]. }
        lia. }
      destruct (Z.eqb_spec k 0) as [K0 | K0].
      * split; [reflexivity |]. intros _. exists 0%Z. reflexivity.
      * destruct (of_Z_value k Hk) as [Hf Hval].
        split; [apply isFinite_number; assumption |].
        intros _. exists k. exact Hval.
Qed.

Lemma inject_Z_eq (a b : Z) : (inject_Z a == inject_Z b)%Q -> a = b.
Proof. unfold Qeq. cbn [inject_Z Qnum Qden]. lia. Qed.

(** A finite number that is a non-negative integer is that array index. *)
Lemma toIndex_whole (x : float) (k : Z) :
  F64.isFinite x = true -> (F64.valueOf x == inject_Z k)%Q -> (0 <= k)%Z ->
  F64.toIndex x = Some (Z.to_nat k).
Proof.
  unfold F64.isFinite, F64.valueOf, F64.toIndex.
  destruct (Prim2SF x) as [s | s | | s m e]; try discriminate; intros _ Hv Hk.
  - cbn [F64.SF2Q] in Hv. apply (inject_Z_eq 0 k) in Hv. subst k. reflexivity.
  - cbn [F64.SF2Q] in Hv.
    destruct s.
    + exfalso. rewrite signed_neg in Hv. pose proof (value_pos m e) as Hp.
      assert (H0 : (0 <= inject_Z k)%Q) by (rewrite <- (Zle_Qle 0); assumption).
      lra.
    + unfold F64.signed in Hv.
      destruct (Z.leb_spec 0 e) as [H0 | H0].
      * rewrite Qpower2_inject, <- inject_Z_mult in Hv by assumption.
        apply inject_Z_eq in Hv. rewrite Hv. reflexivity.
      * assert (HP : (0 < 2 ^ (- e))%Z) by (apply Z.pow_pos_nonneg; lia).
        assert (Hm : Zpos m = (k * 2 ^ (- e))%Z).
        { assert (Hq : (inject_Z (Zpos m) == inject_Z (k * 2 ^ (- e)))%Q).
          { rewrite inject_Z_mult, <- Hv, <- Qmult_assoc.
            rewrite <- (Qpower2_inject (- e)), <- Qpower2_split by lia.
            replace (e + - e)%Z with 0%Z by lia. change (2 ^ 0)%Q with 1%Q. ring. }
          apply inject_Z_eq in Hq. exact Hq. }
        rewrite Hm, Z.mod_mul, Z.div_mul by lia. reflexivity.
Qed.

(** The constants of the chart. *)
Lemma bucketWidth_finite (p : FinancePeriod) :
  let w := Spec64.bucketWidth (FromTransactions.getBucketConfig p) in
  F64.isFinite w = true /\ F64.eqb w 0 = false.
Proof. destruct p; split; vm_compute; reflexivity. Qed.

Lemma lastBucket_index (p : FinancePeriod) :
  let n := FromTransactions.len (FromTransactions.getBucketConfig p) in
  F64.isFinite (F64.of_nat n - 1) = true
  /\ (0 <=? F64.of_nat n - 1) = true
  /\ F64.toIndex (F64.of_nat n - 1) = Some (n - 1)%nat
  /\ (F64.valueOf (F64.of_nat n - 1)%float == inject_Z (Z.of_nat n - 1))%Q
  /\ (0 < n)%nat.
Proof.
  destruct p; cbv zeta; repeat split; try (vm_compute; reflexivity);
    try (vm_compute; lia).
Qed.

Lemma window_width_small (p : FinancePeriod) :
  (FromTransactions.windowDays (FromTransactions.getBucketConfig p)
   * FromTransactions.msPerDay < 2 ^ 53)%Z.
Proof. destruct p; vm_compute; reflexivity. Qed.

(** A timestamp of the window has a bucket of the chart. *)
Lemma bucket_of_index (p : FinancePeriod) (now ts : Z) :
  let cfg := FromTransactions.getBucketConfig p in
  (Spec.windowStart cfg now <= ts < now)%Z ->
  exists i, (i < FromTransactions.len cfg)%nat
            /\ F64.toIndex (Spec64.bucket_of cfg now ts) = Some i.
Proof.
  intros cfg Hts. unfold Spec64.bucket_of.
  destruct (bucketWidth_finite p) as [Hwf Hwz]. fold cfg in Hwf, Hwz.
  destruct (lastBucket_index p) as (Hhf & Hh0 & Hhi & Hhv & Hn). fold cfg in Hhf, Hh0, Hhi, Hhv, Hn.
  set (hi := F64.of_nat (FromTransactions.len cfg) - 1) in *.
  assert (Ha : F64.isFinite (F64.of_Z (ts - Spec.windowStart cfg now)) = true).
  { apply of_Z_value. pose proof (window_width_small p) as Hw. fold cfg in Hw.
    unfold Spec.windowStart in *. lia. }
  set (q := F64.of_Z (ts - Spec.windowStart cfg now) / Spec64.bucketWidth cfg).
  assert (Hq : F64.isNaN q = false)
    by (apply div_number; [apply isFinite_number |..]; assumption).
  destruct (Math_floor_whole q Hq) as [Hy Hwhole].
  set (y := F64.Math_floor q) in *.
  assert (Hhn : F64.isNaN hi = false) by (apply isFinite_number; assumption).
  destruct (Math_min_spec hi y Hhn Hy) as (Hm & Hm1 & _).
  set (m := F64.Math_min hi y) in *.
  assert (Hmn : F64.isNaN m = false) by (destruct Hm as [-> | ->]; assumption).
  destruct (Math_max_spec 0 m eq_refl Hmn) as (Hr & _ & Hr1).
  assert (H0m : (0 <=? m) = true -> exists i,
             (i < FromTransactions.len cfg)%nat /\ F64.toIndex m = Some i).
  { intro H0. destruct Hm as [Hm | Hm]; rewrite Hm in *.
    - exists (FromTransactions.len cfg - 1)%nat. split; [lia | assumption].
    - assert (Hyf : F64.isFinite y = true) by (apply (between_finite 0 hi); auto).
      destruct (Hwhole Hyf) as [k Hk].
      pose proof (leb_value 0 y eq_refl Hyf H0) as Hlo.
      pose proof (leb_value y hi Hyf Hhf Hm1) as Hup.
      fold (F64.valueOf y) in Hlo, Hup. fold (F64.valueOf hi) in Hup.
      rewrite Hk in Hlo, Hup. rewrite Hhv in Hup.
      change (F64.SF2Q (Prim2SF 0)) with (inject_Z 0) in Hlo.
      rewrite <- Zle_Qle in Hlo, Hup.
      exists (Z.to_nat k). split; [lia |].
      apply toIndex_whole; assumption. }
  destruct Hr as [Hr | Hr]; rewrite Hr in *.
  - exists 0%nat. split; [assumption | reflexivity].
  - apply H0m.
    unfold F64.Math_max in Hr. rewrite Hmn in Hr. cbn [F64.isNaN orb] in Hr.
    replace (F64.isNaN 0) with false in Hr by reflexivity. cbn [orb] in Hr.
    destruct (0 <? m) eqn:E1; [apply ltb_leb; assumption |].
    apply not_ltb_leb in E1; [| reflexivity | assumption].
    destruct (m <? 0) eqn:E2.
    + rewrite <- Hr. reflexivity.
    + apply not_ltb_leb; [assumption | reflexivity | assumption].
Qed.

End Bucket64.

(* ================================================================== *)
(** * Binary64: the chart of a built snapshot *)
(* ================================================================== *)

Section Claims64Chart.
Import PrimFloat SpecFloat FloatOps FloatAxioms.
Local Open Scope float_scope.

(** A transaction that is no expense of the window leaves the accumulators as
    they are. *)
Lemma chart64_step_skip (cfg : FromTransactions.BucketConfig) (now : Z)
    (b : FromTransactions64.Buckets) (t : FromTransactions64.TxLike) :
  F64.isNaN (FromTransactions64.tx_amount t) = false ->
  Spec64.in_chart cfg now t = false -> FromTransactions64.chart_step cfg now b t = b.
Proof.
  intros Hnum. unfold Spec64.in_chart, FromTransactions64.chart_step.
  pose proof (geb_false_ltb (FromTransactions64.tx_amount t) 0 Hnum eq_refl) as Hg.
  destruct (F64.ltb (FromTransactions64.tx_amount t) 0).
  - apply negb_true_iff in Hg. rewrite Hg. cbn [andb].
    change (FromTransactions.startMs cfg now) with (Spec.windowStart cfg now).
    rewrite window_test. intros ->. reflexivity.
  - apply negb_false_iff in Hg. rewrite Hg. reflexivity.
Qed.

(** C2: in a built snapshot, cell [i] of each series is the rounded sum of the
    magnitudes of the transactions that count into it, added in transaction
    order: the expenses (amount < 0) dated in [[now - windowDays, now)] whose
    bucket [floor((txTime - windowStart) / bucketWidth)], clamped to
    [[0, bucketCount - 1]], is [i]; all of them for the total, and those of
    the category for a category series.  The category follows the keyword
    rule on the label, case ignored; every expense of the window has a bucket
    of the chart; income and out-of-window transactions leave every bucket as
    it is.  The amounts are numbers (none is NaN) and the labels ASCII. *)
Theorem C2_chart_buckets (clock : Date) (args : FromTransactions64.Args) (i : nat) :
  let cfg := FromTransactions.getBucketConfig (FromTransactions64.arg_period args) in
  let now := nullish (FromTransactions64.arg_now args) clock in
  let txs := FromTransactions64.arg_transactions args in
  let s :=
    Types64.series (FromTransactions64.buildDashboardSnapshotFromTransactions clock args) in
  Spec64.amounts_are_numbers txs ->
  Spec64.labels_are_ascii txs ->
  (i < FromTransactions.len cfg)%nat ->
  (forall cat,
     nth i (Spec64.series_of s cat) 0 = F64.Math_round (Spec64.bucket_sum cfg now cat i txs))
  /\ (forall t c, In t txs ->
        (Spec.category_rule (FromTransactions64.tx_category t) c
         <-> FromTransactions.mapCategory (FromTransactions64.tx_category t) = c))
  /\ (forall t, Spec64.in_chart cfg now t = true ->
        exists j, (j < FromTransactions.len cfg)%nat
                  /\ F64.toIndex (Spec64.bucket_of cfg now (FromTransactions64.tx_date t))
                     = Some j)
  /\ (forall b t, F64.isNaN (FromTransactions64.tx_amount t) = false ->
        Spec64.in_chart cfg now t = false ->
        FromTransactions64.chart_step cfg now b t = b).
Proof.
  cbv zeta. intros Hnum _ Hi.
  split; [| split; [| split]].
  - intro cat. rewrite series64_of_build.
    rewrite <- Math_round_zero at 1. rewrite map_nth.
    f_equal. apply chart64_loop_cell; assumption.
  - intros t c _. apply category_rule_iff.
  - intros t Ht. apply bucket_of_index.
    unfold Spec64.in_chart in Ht.
    apply andb_prop in Ht. destruct Ht as [Ht H2]. apply andb_prop in Ht. destruct Ht as [_ H1].
    apply Z.leb_le in H1. apply Z.ltb_lt in H2. lia.
  - intros b t. apply chart64_step_skip.
Qed.

(** C2 at a week-long chart read at time 7 days, with four expenses of
    0.5, 2.78, 2.5 and 0.72 on day 3 and an income: the bucket of day 3 holds
    the total 6 (the four magnitudes add up to 6.499999999999999), the
    subscriptions 4 (2.78 + 0.72 is 3.5), the essentials 3 and the leisure 1;
    the income leaves the accumulators alone. *)
Lemma C2_chart_buckets_witness :
  let day := FromTransactions.msPerDay in
  let tx := fun (a : float) (c : string) =>
              FromTransactions64.mkTxLike "t" (3 * day)%Z "n" None a (Some c) in
  let pay := tx 50 "Salary"%string in
  let txs := [ tx (-0.5) "Travel"%string; tx (-2.78) "Streaming"%string; pay;
               tx (-2.5) "Groceries"%string; tx (-0.72) "Video Streaming"%string ] in
  let args := FromTransactions64.mkArgs P_1W [] txs (Some (7 * day)%Z) in
  let s :=
    Types64.series (FromTransactions64.buildDashboardSnapshotFromTransactions 0%Z args) in
  Spec64.amounts_are_numbers txs
  /\ Spec64.labels_are_ascii txs
  /\ nth 3 (Types64.total s) 0 = 6
  /\ nth 3 (Types64.subscriptions s) 0 = 4
  /\ nth 3 (Types64.essentials s) 0 = 3
  /\ nth 3 (Types64.leisure s) 0 = 1
  /\ (forall b, FromTransactions64.chart_step (FromTransactions.getBucketConfig P_1W)
                  (7 * day)%Z b pay = b).
Proof.
  intros day tx pay txs args s.
  assert (Hnum : Spec64.amounts_are_numbers txs) by (repeat constructor).
  assert (Hasc : Spec64.labels_are_ascii txs).
  { repeat constructor; cbn [Props.is_ascii nullish FromTransactions64.tx_category tx pay];
      repeat split; apply Nat.ltb_lt; reflexivity. }
  pose proof (C2_chart_buckets 0%Z args 3 Hnum Hasc ltac:(vm_compute; lia)) as H.
  cbv zeta in H. destruct H as (Hcell & _ & _ & Hskip).
  split; [exact Hnum |]. split; [exact Hasc |].
  split; [| split; [| split; [| split]]].
  - etransitivity; [exact (Hcell None) | vm_compute; reflexivity].
  - etransitivity; [exact (Hcell (Some Subscriptions)) | vm_compute; reflexivity].
  - etransitivity; [exact (Hcell (Some Essentials)) | vm_compute; reflexivity].
  - etransitivity; [exact (Hcell (Some Leisure)) | vm_compute; reflexivity].
  - intro b. apply Hskip; reflexivity.
Defined.

(* ================================================================== *)
(** * Binary64: total and parts *)
(* ================================================================== *)

(** C3, refuted as stated: four expenses of 0.5, 2.78, 2.5 and 0.72 in one
    bucket give the total 6 against the parts 3, 1 and 4, two apart. *)
Lemma C3_total_two_from_parts :
  let day := FromTransactions.msPerDay in
  let tx := fun (a : float) (c : string) =>
              FromTransactions64.mkTxLike "t" (3 * day)%Z "n" None a (Some c) in
  let args :=
    FromTransactions64.mkArgs P_1W []
      [ tx (-0.5) "Travel"%string; tx (-2.78) "Streaming"%string;
        tx (-2.5) "Groceries"%string; tx (-0.72) "Streaming"%string ]
      (Some (7 * day)%Z) in
  let s :=
    Types64.series (FromTransactions64.buildDashboardSnapshotFromTransactions 0%Z args) in
  Spec64.finite_input args
  /\ nth 3 (Types64.total s) 0 = 6
  /\ nth 3 (Types64.essentials s) 0 = 3
  /\ nth 3 (Types64.leisure s) 0 = 1
  /\ nth 3 (Types64.subscriptions s) 0 = 4
  /\ ~ Spec64.within_one s 3.
Proof.
  intros day tx args s. split; [| do 4 (split; [vm_compute; reflexivity |])].
  - split; repeat constructor.
  - intros (t & e & l & u & Ht & He & Hl & Hu & H).
    vm_compute in Ht, He, Hl, Hu.
    injection Ht as <-. injection He as <-. injection Hl as <-. injection Hu as <-.
    vm_compute in H. apply H. reflexivity.
Qed.

(** The rounded accumulators, read as rationals. *)
Lemma toQ_Math_round (x : float) (q : Q) :
  F64.toQ x = Some q ->
  exists r, F64.toQ (F64.Math_round x) = Some r /\ (r == JS.Math_round q)%Q.
Proof.
  intro H. apply toQ_Some in H. destruct H as [Hf ->].
  destruct (Math_round_value x Hf) as [Hrf Hrv].
  exists (F64.valueOf (F64.Math_round x)). split.
  - apply toQ_Some. split; [assumption | reflexivity].
  - exact Hrv.
Qed.

(** C3, amended: in every bucket whose accumulated total is exactly the sum
    of its three accumulated category sums, the total of the returned
    snapshot differs from the sum of the three category series by at most 1;
    the four series have the configured number of buckets. *)
Theorem C3_total_within_one_when_exact (clock : Date) (args : FromTransactions64.Args)
    (i : nat) :
  let cfg := FromTransactions.getBucketConfig (FromTransactions64.arg_period args) in
  let now := nullish (FromTransactions64.arg_now args) clock in
  let b := FromTransactions64.chart_loop cfg now (FromTransactions64.arg_transactions args) in
  let s :=
    Types64.series (FromTransactions64.buildDashboardSnapshotFromTransactions clock args) in
  Spec64.sums_exact b i ->
  Spec64.within_one s i
  /\ (forall cat, List.length (Spec64.series_of s cat) = FromTransactions.len cfg).
Proof.
  cbv zeta. intros (t & e & l & u & Ht & He & Hl & Hu & Hsum). split.
  - unfold Spec64.within_one.
    change (Types64.total ?s) with (Spec64.series_of s None).
    change (Types64.essentials ?s) with (Spec64.series_of s (Some Essentials)).
    change (Types64.leisure ?s) with (Spec64.series_of s (Some Leisure)).
    change (Types64.subscriptions ?s) with (Spec64.series_of s (Some Subscriptions)).
    rewrite !series64_of_build.
    cbn [Spec64.accumulator].
    rewrite <- Math_round_zero. rewrite !map_nth.
    destruct (toQ_Math_round _ _ Ht) as (rt & Hrt & Et).
    destruct (toQ_Math_round _ _ He) as (re & Hre & Ee).
    destruct (toQ_Math_round _ _ Hl) as (rl & Hrl & El).
    destruct (toQ_Math_round _ _ Hu) as (ru & Hru & Eu).
    exists rt, re, rl, ru. repeat (split; [assumption |]).
    rewrite Et, Ee, El, Eu. apply round_sum_close. exact Hsum.
  - intro cat. rewrite series64_of_build, length_map. apply chart64_loop_length.
Qed.

(** C3 at a bucket with three expenses of 0.5, one in each category: the
    sums are exact (1.5 against three times 0.5), and the series hold 2
    against 1, 1 and 1. *)
Lemma C3_total_within_one_when_exact_witness :
  let day := FromTransactions.msPerDay in
  let tx := fun (a : float) (c : string) =>
              FromTransactions64.mkTxLike "t" (3 * day)%Z "n" None a (Some c) in
  let args :=
    FromTransactions64.mkArgs P_1W []
      [ tx (-0.5) "Travel"%string; tx (-0.5) "Groceries"%string;
        tx (-0.5) "Streaming"%string ]
      (Some (7 * day)%Z) in
  let s :=
    Types64.series (FromTransactions64.buildDashboardSnapshotFromTransactions 0%Z args) in
  Spec64.within_one s 3
  /\ nth 3 (Types64.total s) 0 = 2 /\ nth 3 (Types64.leisure s) 0 = 1.
Proof.
  intros day tx args s. split; [| split; vm_compute; reflexivity].
  apply (C3_total_within_one_when_exact 0%Z args 3).
  unfold Spec64.sums_exact. do 4 eexists.
  repeat (split; [vm_compute; reflexivity |]). vm_compute. reflexivity.
Defined.

End Claims64Chart.

(* ================================================================== *)
(** * Binary64: KPI bounds *)
(* ================================================================== *)

Section Claims64Kpis.
Import PrimFloat SpecFloat FloatOps FloatAxioms.
Local Open Scope float_scope.

Lemma clamp64_in_range (x lo hi : float) :
  F64.isNaN x = false -> F64.isFinite lo = true -> F64.isFinite hi = true ->
  (lo <=? hi) = true ->
  Spec64.in_range lo hi (F64.Math_max lo (F64.Math_min hi x)) = true
  /\ F64.isFinite (F64.Math_max lo (F64.Math_min hi x)) = true.
Proof.
  intros Hx Hlo Hhi Hle.
  destruct (clamp64_range x lo hi Hx (isFinite_number _ Hlo) (isFinite_number _ Hhi) Hle)
    as [H1 H2].
  split.
  - unfold Spec64.in_range, F64.geb. rewrite H1, H2. reflexivity.
  - apply (between_finite lo hi); assumption.
Qed.

(** [(x - y) / d] is a number when [x], [y] and [d] are finite and [d] is not
    zero. *)
Lemma ratio_number (x y d : float) :
  F64.isFinite x = true -> F64.isFinite y = true -> F64.isFinite d = true ->
  F64.eqb d 0 = false -> F64.isNaN ((x - y) / d) = false.
Proof.
  intros Hx Hy Hd Hz. apply div_number; try assumption.
  apply sub_number; [apply isFinite_number |]; assumption.
Qed.

(** C4, refuted as stated: two incomes of 1e308 in the trailing 30 days are
    finite, their sum is not, and the savings rate is NaN, outside
    [[0, 0.95]]. *)
Lemma C4_overflow_leaves_range :
  let day := FromTransactions.msPerDay in
  let tx := FromTransactions64.mkTxLike "t" (29 * day)%Z "n" None 1e308 None in
  let args := FromTransactions64.mkArgs P_1M [] [tx; tx] (Some (30 * day)%Z) in
  let k :=
    Types64.kpis (FromTransactions64.buildDashboardSnapshotFromTransactions 0%Z args) in
  Spec64.finite_input args
  /\ F64.isNaN (Types64.savingsRate k) = true
  /\ ~ Spec64.kpis_in_range k.
Proof.
  intros day tx args k. split; [split; repeat constructor |].
  split; [vm_compute; reflexivity |].
  intros (H & _). vm_compute in H. discriminate H.
Qed.

(** C4, amended: when the sums behind the KPIs are finite, the savings rate
    lies in [0, 0.95], the spend trend in [-0.9, 0.9], the balance trend in
    [-0.5, 0.5] and the savings-rate trend in [-50, 50]; on every input the
    spend trend is 0 when the previous 30 days' spend is 0, the balance trend
    is 0 when the prior balance is 0, and the savings rate is 0 when the
    trailing 30 days' income is 0. *)
Theorem C4_kpi_bounds (clock : Date) (args : FromTransactions64.Args) :
  let k :=
    Types64.kpis (FromTransactions64.buildDashboardSnapshotFromTransactions clock args) in
  let now := nullish (FromTransactions64.arg_now args) clock in
  let txs := FromTransactions64.arg_transactions args in
  let accounts := FromTransactions64.arg_accounts args in
  (Spec64.sums_finite now accounts txs -> Spec64.kpis_in_range k)
  /\ (F64.eqb (FromTransactions64.spend (Spec64.prev30 now txs)) 0 = true ->
      Types64.monthlySpendTrendPct k = 0)
  /\ (F64.eqb (Spec64.priorBalance now accounts txs) 0 = true ->
      Types64.currentBalanceTrendPct k = 0)
  /\ (F64.eqb (FromTransactions64.income (Spec64.this30 now txs)) 0 = true ->
      Types64.savingsRate k = 0).
Proof.
  cbv zeta.
  unfold FromTransactions64.buildDashboardSnapshotFromTransactions.
  cbn [Types64.kpis Types64.savingsRate Types64.monthlySpendTrendPct
       Types64.currentBalanceTrendPct Types64.savingsRateTrendPctPoints].
  set (now := nullish (FromTransactions64.arg_now args) clock).
  set (txs := FromTransactions64.arg_transactions args).
  set (accounts := FromTransactions64.arg_accounts args).
  change (FromTransactions64.sumRange txs (now - 30 * FromTransactions.msPerDay)%Z now)
    with (Spec64.this30 now txs).
  change (FromTransactions64.sumRange txs (now - 2 * (30 * FromTransactions.msPerDay))%Z
            (now - 30 * FromTransactions.msPerDay)%Z)
    with (Spec64.prev30 now txs).
  change (fold_left _ accounts 0) with (Spec64.balanceOf accounts).
  change (fold_left _ (filter _ txs) 0) with (Spec64.net7 now txs).
  change (Spec64.balanceOf accounts - Spec64.net7 now txs)
    with (Spec64.priorBalance now accounts txs).
  set (this := Spec64.this30 now txs). set (prev := Spec64.prev30 now txs).
  set (cur := Spec64.balanceOf accounts).
  set (prior := Spec64.priorBalance now accounts txs).
  unfold FromTransactions64.clamp.
  split; [| split; [| split]].
  - intros (Hti & Hts & Hpi & Hps & Hc & Hp).
    fold this prev cur prior in Hti, Hts, Hpi, Hps, Hc, Hp.
    assert (Hsr : forall r : FromTransactions64.Range,
               F64.isFinite (FromTransactions64.income r) = true ->
               F64.isFinite (FromTransactions64.spend r) = true ->
               let v := if F64.eqb (FromTransactions64.income r) 0 then 0
                        else F64.Math_max 0
                               (F64.Math_min 0.95
                                  ((FromTransactions64.income r - FromTransactions64.spend r)
                                   / FromTransactions64.income r)) in
               Spec64.in_range 0 0.95 v = true /\ F64.isFinite v = true).
    { intros r Hi Hs. cbv zeta.
      destruct (F64.eqb (FromTransactions64.income r) 0) eqn:E; [split; reflexivity |].
      apply clamp64_in_range; try reflexivity.
      apply ratio_number; assumption. }
    destruct (Hsr this Hti Hts) as [Hs1 Hs2]. destruct (Hsr prev Hpi Hps) as [_ Hs3].
    cbv zeta in Hs1, Hs2, Hs3.
    repeat split.
    + exact Hs1.
    + apply clamp64_in_range; try reflexivity.
      destruct (F64.eqb (FromTransactions64.spend prev) 0) eqn:E; [reflexivity |].
      apply ratio_number; assumption.
    + apply clamp64_in_range; try reflexivity.
      destruct (F64.eqb prior 0) eqn:E; [reflexivity |].
      apply ratio_number; try assumption.
      * rewrite abs_finite. assumption.
      * rewrite abs_zero. assumption.
    + apply clamp64_in_range; try reflexivity.
      apply mul_number; try reflexivity.
      apply sub_number; [apply isFinite_number |]; assumption.
  - intros ->. reflexivity.
  - intros ->. reflexivity.
  - intros ->. reflexivity.
Qed.

(** C4 at a call with an income of 1000 and an expense of 400 in the trailing
    30 days and an expense of 300 in the 30 days before: the sums are finite,
    the savings rate is 0.6 and the spend trend a third. *)
Lemma C4_kpi_bounds_witness :
  let day := FromTransactions.msPerDay in
  let tx := fun (d : Z) (a : float) =>
              FromTransactions64.mkTxLike "t" (d * day)%Z "n" None a None in
  let args :=
    FromTransactions64.mkArgs P_1M [FromTransactions64.mkAccountLike (Some 2500) None None]
      [tx 55%Z 1000; tx 50%Z (-400); tx 20%Z (-300)] (Some (60 * day)%Z) in
  let k :=
    Types64.kpis (FromTransactions64.buildDashboardSnapshotFromTransactions 0%Z args) in
  Spec64.kpis_in_range k /\ Types64.savingsRate k = 0.6.
Proof.
  intros day tx args k. split; [| vm_compute; reflexivity].
  apply (C4_kpi_bounds 0%Z args). repeat split; vm_compute; reflexivity.
Defined.

End Claims64Kpis.

(* ================================================================== *)
(** * Binary64: the score *)
(* ================================================================== *)

Section Claims64Score.
Import PrimFloat SpecFloat FloatOps FloatAxioms.
Local Open Scope float_scope.








End Claims64Score.

(* ================================================================== *)
(** * Trimming *)
(* ================================================================== *)

Lemma blank_app (a b : string) :
  Spec64.blank a -> Spec64.blank b -> Spec64.blank (a ++ b).
Proof.
  induction a as [| c a IH]; cbn [append Spec64.blank]; [tauto |].
  intros [Hc Ha] Hb. split; [assumption | now apply IH].
Qed.

Lemma append_single_inv (pre : string) (c x : ascii) (r : string) :
  String x r = (pre ++ String c EmptyString)%string ->
  (r = EmptyString /\ pre = EmptyString /\ x = c)
  \/ (exists pre', pre = String x pre' /\ r = (pre' ++ String c EmptyString)%string).
Proof.
  destruct pre as [| y pre']; simpl; intro H; inversion H; subst.
  - left. repeat split.
  - right. exists pre'. split; reflexivity.
Qed.

Lemma trimStart_spec (s : string) :
  exists pre, s = (pre ++ trimStart s)%string /\ Spec64.blank pre
              /\ Spec64.starts_clean (trimStart s).
Proof.
  induction s as [| c s IH]; cbn [trimStart trimEnd].
  - exists EmptyString. repeat split.
  - destruct (isWhiteSpace c) eqn:E.
    + destruct IH as (pre & Hs & Hb & Hc). exists (String c pre). cbn [append Spec64.blank Spec64.starts_clean].
      split; [congruence |]. split; [split; assumption | assumption].
    + exists EmptyString. cbn [append Spec64.blank Spec64.starts_clean]. repeat split. exact E.
Qed.

Lemma trimEnd_spec (s : string) :
  exists post, s = (trimEnd s ++ post)%string /\ Spec64.blank post
               /\ Spec64.ends_clean (trimEnd s)
               /\ (Spec64.starts_clean s -> Spec64.starts_clean (trimEnd s))
               /\ (trimEnd s = EmptyString -> Spec64.blank s).
Proof.
  induction s as [| c s IH]; cbn [trimStart trimEnd].
  - exists EmptyString. repeat split.
    intros pre c H. destruct pre; discriminate H.
  - destruct IH as (post & Hs & Hb & Hc & _ & He).
    destruct (trimEnd s) as [| x r] eqn:E.
    + destruct (isWhiteSpace c) eqn:Ec.
      * exists (String c s). cbn [append Spec64.blank Spec64.starts_clean]. specialize (He eq_refl).
        split; [reflexivity |]. split; [split; assumption |].
        split; [intros pre c' H; destruct pre; discriminate H |].
        split; [intros _; exact I | intros _; split; assumption].
      * exists s. cbn [append Spec64.blank Spec64.starts_clean]. specialize (He eq_refl).
        split; [reflexivity |]. split; [assumption |].
        split; [| split; [intros _; exact Ec | discriminate]].
        intros pre c' H.
        destruct (append_single_inv _ _ _ _ H) as [(_ & _ & ->) | (pre' & _ & H')];
          [exact Ec | destruct pre'; discriminate H'].
    + exists post. cbn [append] in Hs. cbn [append Spec64.blank Spec64.starts_clean].
      split; [congruence |]. split; [assumption |].
      split; [| split; [intro H; exact H | discriminate]].
      intros pre c' H.
      destruct (append_single_inv _ _ _ _ H) as [(H' & _) | (pre' & _ & H')];
        [discriminate H' | exact (Hc pre' c' H')].
Qed.

Lemma trimStart_blank (s : string) : Spec64.blank s -> trimStart s = EmptyString.
Proof.
  induction s as [| c s IH]; cbn [trimStart Spec64.blank]; [reflexivity |].
  intros [-> Hs]. now apply IH.
Qed.

(** [trim] removes the white space at the two ends, and nothing else. *)
Lemma trim_spec (l : string) :
  Spec64.trimmed l (trim l) /\ (trim l = EmptyString <-> Spec64.blank l).
Proof.
  unfold trim.
  destruct (trimStart_spec l) as (pre & Hl & Hpre & Hc).
  destruct (trimEnd_spec (trimStart l)) as (post & Ht & Hpost & He & Hs & Hb).
  split.
  - exists pre, post. split; [congruence |]. repeat split; auto.
  - split.
    + intro H. rewrite Hl. apply blank_app; auto.
    + intro H. rewrite (trimStart_blank l H). reflexivity.
Qed.

(** The category key is the trimmed label, and "Uncategorized" for a null or
    blank one. *)
Lemma category_key_rule (raw : option string) :
  Spec64.category_key_rule raw (Spec.category_key raw).
Proof.
  unfold Spec64.category_key_rule, Spec.category_key.
  destruct raw as [l |]; [| reflexivity].
  destruct (trim_spec l) as [Ht Hb].
  destruct (trim l) as [| c r] eqn:E.
  - left. split; [apply Hb |]; reflexivity.
  - right. split; [| exact Ht].
    intro H. apply Hb in H. discriminate H.
Qed.

(* ================================================================== *)
(** * The stable sort, on a part of the elements *)
(* ================================================================== *)

Section SortFactsOn.
Context {A : Type} (after : A -> A -> bool) (rank : A -> Q) (P : A -> Prop).
(** On the elements that satisfy [P] the comparator orders by descending
    [rank]. *)
Hypothesis after_spec : forall x y, P x -> P y -> (after x y = true <-> rank x < rank y).
(** The order of the input. *)
Variable before : A -> A -> Prop.

Lemma insert_sorted_on (x : A) (l : list A) :
  P x -> Forall P l ->
  StronglySorted (Spec.sorted_before rank before) l -> Forall (before x) l ->
  StronglySorted (Spec.sorted_before rank before) (insert after x l).
Proof.
  intros Px Pl Hs Hb. induction Hs as [| y l Hs IH Hy]; simpl.
  - constructor; constructor.
  - inversion Hb as [| ? ? Hxy Hxl]; subst.
    inversion Pl as [| ? ? Py Pl']; subst.
    destruct (after x y) eqn:E.
    + apply after_spec in E; try assumption. constructor; [now apply IH |].
      apply (Permutation_Forall (Permutation_sym (insert_perm after x l))).
      constructor; [left; exact E | exact Hy].
    + assert (Hge : rank y <= rank x).
      { apply Qnot_lt_le. intro H. apply after_spec in H; try assumption. congruence. }
      constructor; [constructor; assumption |].
      constructor.
      * destruct (Qlt_le_dec (rank y) (rank x)) as [Hlt | Hle];
          [left; exact Hlt | right; split; [lra | exact Hxy]].
      * rewrite Forall_forall in *. intros z Hz.
        destruct (Hy z Hz) as [Hlt | [Heq Hyz]].
        -- left. lra.
        -- destruct (Qlt_le_dec (rank z) (rank x)) as [Hlt | Hle];
             [left; exact Hlt | right; split; [lra | now apply Hxl]].
Qed.

Lemma sort_sorted_on (l : list A) :
  Forall P l -> StronglySorted before l ->
  StronglySorted (Spec.sorted_before rank before) (sort after l).
Proof.
  unfold sort. intros Pl Hs. induction Hs as [| x l Hs IH Hx]; simpl; [constructor |].
  inversion Pl; subst.
  apply insert_sorted_on; try assumption.
  - apply (Permutation_Forall (Permutation_sym (sort_perm after l))). assumption.
  - now apply IH.
  - apply (Permutation_Forall (Permutation_sym (sort_perm after l))). exact Hx.
Qed.

End SortFactsOn.

(* ================================================================== *)
(** * Binary64: the spending summary *)
(* ================================================================== *)

Section Claims64Summary.
Import PrimFloat SpecFloat FloatOps FloatAxioms.
Local Open Scope float_scope.

Lemma total_of_snoc (l : list float) (x : float) :
  Spec64.total_of (l ++ [x]) = Spec64.total_of l + x.
Proof. unfold Spec64.total_of. rewrite fold_left_app. reflexivity. Qed.

(** Adding finite numbers never gives [NaN]. *)
Lemma total_of_number (l : list float) :
  Forall (fun x => F64.isFinite x = true) l -> F64.isNaN (Spec64.total_of l) = false.
Proof.
  unfold Spec64.total_of. generalize 0 (eq_refl : F64.isNaN 0 = false).
  induction l as [| x l IH]; intros acc Hacc Hl; [exact Hacc |].
  inversion Hl; subst. cbn [fold_left]. apply IH; [| assumption].
  apply add_number; assumption.
Qed.

Lemma categoryKey64_spec (t : Finance64.Tx) :
  Finance64.categoryKey t = Spec.category_key (Finance64.t_category t).
Proof.
  unfold Finance64.categoryKey, Spec.category_key.
  destruct (Finance64.t_category t) as [l |]; [| reflexivity].
  simpl nullish. unfold or_else. destruct (trim l); reflexivity.
Qed.

Lemma is_expense64 (t : Finance64.Tx) :
  F64.isNaN (Finance64.t_amount t) = false ->
  Spec64.is_expense t = negb (Spec64.is_income t).
Proof.
  intro H. unfold Spec64.is_expense, Spec64.is_income.
  symmetry. apply geb_false_ltb; [assumption | reflexivity].
Qed.

Lemma income64_snoc (txs : list Finance64.Tx) (t : Finance64.Tx) :
  Spec64.income_total (txs ++ [t])
  = if Spec64.is_income t then Spec64.income_total txs + Finance64.t_amount t
    else Spec64.income_total txs.
Proof.
  unfold Spec64.income_total. rewrite filter_app, map_app. cbn [filter].
  destruct (Spec64.is_income t); cbn [map]; [apply total_of_snoc | now rewrite app_nil_r].
Qed.

Lemma spend64_snoc (txs : list Finance64.Tx) (t : Finance64.Tx) :
  Spec64.spend_total (txs ++ [t])
  = if Spec64.is_expense t
    then Spec64.spend_total txs + F64.Math_abs (Finance64.t_amount t)
    else Spec64.spend_total txs.
Proof.
  unfold Spec64.spend_total. rewrite filter_app, map_app. cbn [filter].
  destruct (Spec64.is_expense t); cbn [map]; [apply total_of_snoc | now rewrite app_nil_r].
Qed.

Lemma category64_snoc (c : string) (txs : list Finance64.Tx) (t : Finance64.Tx) :
  Spec64.category_total c (txs ++ [t])
  = if Spec64.is_expense t && String.eqb (Spec.category_key (Finance64.t_category t)) c
    then Spec64.category_total c txs + F64.Math_abs (Finance64.t_amount t)
    else Spec64.category_total c txs.
Proof.
  unfold Spec64.category_total. rewrite filter_app, map_app. cbn [filter].
  destruct (_ && _); cbn [map]; [apply total_of_snoc | now rewrite app_nil_r].
Qed.

Lemma expense_keys64_snoc (txs : list Finance64.Tx) (t : Finance64.Tx) :
  Spec64.expense_keys (txs ++ [t])
  = Spec64.expense_keys txs
    ++ (if Spec64.is_expense t then [Spec.category_key (Finance64.t_category t)] else []).
Proof.
  unfold Spec64.expense_keys. rewrite filter_app, map_app. cbn [filter].
  destruct (Spec64.is_expense t); reflexivity.
Qed.

(** One pass of the loop body keeps the running sums and the category map in
    step with the transactions read. *)
Lemma summary64_step (txs : list Finance64.Tx) (st : Finance64.Acc) (t : Finance64.Tx) :
  F64.isNaN (Finance64.t_amount t) = false ->
  Spec64.summarized txs st -> Spec64.summarized (txs ++ [t]) (Finance64.summary_step st t).
Proof.
  intros Hnum (Hi & Hs & Hk & Hc).
  unfold Spec64.summarized, Finance64.summary_step.
  rewrite income64_snoc, spend64_snoc, expense_keys64_snoc.
  pose proof (is_expense64 t Hnum) as Hexp.
  assert (Hinc : Spec64.is_income t = F64.geb (Finance64.t_amount t) 0) by reflexivity.
  destruct (F64.geb (Finance64.t_amount t) 0) eqn:E; rewrite Hinc in Hexp; rewrite Hexp, Hinc;
    cbn [negb]; cbn [Finance64.a_income Finance64.a_spend Finance64.a_spendByCategory].
  - split; [rewrite Hi; reflexivity |]. split; [exact Hs |].
    rewrite app_nil_r. split; [exact Hk |].
    intro c. rewrite category64_snoc, Hexp. cbn [negb andb]. apply Hc.
  - assert (El : F64.ltb (Finance64.t_amount t) 0 = true) by exact Hexp.
    rewrite (opp_abs _ El).
    split; [exact Hi |]. split; [rewrite Hs; reflexivity |].
    rewrite categoryKey64_spec. split; [apply keys_order_step; exact Hk |].
    intro c. rewrite category64_snoc, Hexp.
    destruct (String.eqb_spec (Spec.category_key (Finance64.t_category t)) c) as [-> | Hne];
      cbn [negb andb].
    + rewrite Map_get_set_same. cbn [nullish]. f_equal. apply Hc.
    + rewrite Map_get_set_other by congruence. apply Hc.
Qed.

Lemma summary64_loop (txs : list Finance64.Tx) :
  Forall (fun t => F64.isNaN (Finance64.t_amount t) = false) txs ->
  Spec64.summarized txs
    (fold_left Finance64.summary_step txs (Finance64.mkAcc 0 0 Map_new)).
Proof.
  induction txs as [| t txs IH] using rev_ind; intro H.
  - unfold Spec64.summarized. simpl.
    split; [reflexivity |]. split; [reflexivity |].
    split; [apply keys_order_empty | intro c; reflexivity].
  - apply Forall_app in H. destruct H as [H1 H2]. inversion H2; subst.
    rewrite fold_left_app. simpl. apply summary64_step; auto.
Qed.

Lemma finite_amounts_numbers (txs : list Finance64.Tx) :
  Spec64.finite_amounts txs ->
  Forall (fun t => F64.isNaN (Finance64.t_amount t) = false) txs.
Proof.
  apply Forall_impl. intros t. apply isFinite_number.
Qed.

(** No category total is [NaN]. *)
Lemma category_total_number (c : string) (txs : list Finance64.Tx) :
  Spec64.finite_amounts txs -> F64.isNaN (Spec64.category_total c txs) = false.
Proof.
  intro H. unfold Spec64.category_total. apply total_of_number.
  apply Forall_forall. intros x Hx.
  apply in_map_iff in Hx. destruct Hx as (t & <- & Ht).
  apply filter_In in Ht. destruct Ht as [Ht _].
  rewrite abs_finite. unfold Spec64.finite_amounts in H.
  rewrite Forall_forall in H. now apply H.
Qed.

(** The comparator [b[1] - a[1] > 0] asks for the larger amount first. *)
Lemma byAmountDesc64_spec (x y : string * F64.number) :
  F64.isNaN (snd x) = false -> F64.isNaN (snd y) = false ->
  (Finance64.byAmountDesc x y = true <-> (F64.rank (snd x) < F64.rank (snd y))%Q).
Proof.
  intros Hx Hy. unfold Finance64.byAmountDesc.
  rewrite (sub_pos _ _ Hy Hx). unfold F64.gtb.
  apply (compare_rank (snd x) (snd y) Hx Hy).
Qed.

(** The categories returned are the first 8 of the full ranking. *)
Lemma top_categories64_ranked (txs : list Finance64.Tx) :
  Spec64.finite_amounts txs ->
  Spec64.top_categories_of txs (Finance64.topCategories (Finance64.buildSpendingSummary txs)).
Proof.
  intro Hfin.
  unfold Finance64.buildSpendingSummary. cbn [Finance64.topCategories].
  destruct (summary64_loop txs (finite_amounts_numbers txs Hfin))
    as (_ & _ & (Hnd & Hin & Hs) & Hc).
  set (m := Finance64.a_spendByCategory _) in *.
  unfold Map_entries, slice0.
  set (mk := fun e : string * F64.number => Finance64.mkCategoryAmount (fst e) (snd e)).
  pose proof (sort_perm Finance64.byAmountDesc m) as Hperm.
  assert (Hcat : forall l, map Finance64.category (map mk l) = map fst l).
  { intro l. rewrite map_map. apply map_ext. intros [c v]. reflexivity. }
  assert (Hval : forall c v, In (c, v) m -> v = Spec64.category_total c txs).
  { intros c v He. rewrite <- Hc, (Map_get_In _ _ _ Hnd He). reflexivity. }
  assert (Hnum : Forall (fun e : string * F64.number => F64.isNaN (snd e) = false) m).
  { apply Forall_forall. intros [c v] He. cbn [snd].
    rewrite (Hval c v He). now apply category_total_number. }
  exists (map mk (sort Finance64.byAmountDesc m)).
  split; [symmetry; apply firstn_map |]. split; [| split; [| split]].
  - rewrite Hcat. apply (Permutation_NoDup (Permutation_sym (Permutation_map fst Hperm))).
    exact Hnd.
  - intro c. rewrite Hcat, <- Hin. unfold Spec.keys.
    split; apply Permutation_in; [apply Permutation_map; exact Hperm |].
    apply Permutation_sym, Permutation_map. exact Hperm.
  - intros e He. apply in_map_iff in He. destruct He as ([c v] & <- & He).
    apply (Permutation_in _ Hperm) in He. unfold mk; cbn [fst snd Finance64.amount Finance64.category].
    now apply Hval.
  - apply StronglySorted_map.
    apply (StronglySorted_weaken
             (Spec.sorted_before (fun e : string * F64.number => F64.rank (snd e))
                (fun a b => Spec.first_seen_before (Spec64.expense_keys txs) (fst a) (fst b)))).
    + intros a b Ha Hb H.
      apply (Permutation_in _ Hperm) in Ha. apply (Permutation_in _ Hperm) in Hb.
      rewrite Forall_forall in Hnum.
      pose proof (Hnum a Ha) as Na. pose proof (Hnum b Hb) as Nb.
      unfold Spec64.ranks_before, mk. cbn [Finance64.amount Finance64.category].
      destruct (compare_rank (snd b) (snd a) Nb Na) as (Hlt & _ & _).
      destruct (compare_rank (snd a) (snd b) Na Nb) as (_ & Heq & _).
      destruct H as [H | [H1 H2]].
      * left. unfold F64.gtb. apply Hlt. exact H.
      * right. split; [apply Heq; exact H1 | exact H2].
    + apply (sort_sorted_on _ _ (fun e : string * F64.number => F64.isNaN (snd e) = false)).
      * intros x y Hx Hy. apply byAmountDesc64_spec; assumption.
      * exact Hnum.
      * apply StronglySorted_map. exact Hs.
Qed.

(** C5: for finite amounts and ASCII labels, the summary's income is the sum
    of the amounts [>= 0], its spend the sum of the magnitudes of the amounts
    [< 0], both added in transaction order, its net their difference, and its
    top categories the per-category spend totals (keyed by the trimmed label,
    "Uncategorized" for a null or blank one), sorted by descending amount
    with ties in first-encountered order, cut to at most 8 entries; on the
    scenario input it is income 1000, spend 300, net 700 and
    [{Groceries, 200}, {Streaming, 100}]. *)
Theorem C5_spending_summary (txs : list Finance64.Tx) :
  let r := Finance64.buildSpendingSummary txs in
  Spec64.finite_amounts txs ->
  Spec64.ascii_labels txs ->
  Finance64.income r = Spec64.income_total txs
  /\ Finance64.spend r = Spec64.spend_total txs
  /\ Finance64.net r = Finance64.income r - Finance64.spend r
  /\ Spec64.top_categories_of txs (Finance64.topCategories r)
  /\ (List.length (Finance64.topCategories r) <= 8)%nat
  /\ (forall t, In t txs ->
        Finance64.categoryKey t = Spec.category_key (Finance64.t_category t)
        /\ Spec64.category_key_rule (Finance64.t_category t)
             (Spec.category_key (Finance64.t_category t)))
  /\ Finance64.buildSpendingSummary Spec64.scenario_txs
     = Finance64.mkSummary 1000 300 700
         [ Finance64.mkCategoryAmount "Groceries" 200;
           Finance64.mkCategoryAmount "Streaming" 100 ].
Proof.
  cbv zeta. intros Hfin _.
  destruct (summary64_loop txs (finite_amounts_numbers txs Hfin)) as (Hi & Hs & _).
  split; [exact Hi |]. split; [exact Hs |]. split; [reflexivity |].
  split; [now apply top_categories64_ranked |]. split.
  - unfold Finance64.buildSpendingSummary. cbn [Finance64.topCategories].
    rewrite length_map. unfold slice0. apply firstn_le_length.
  - split; [| vm_compute; reflexivity].
    intros t _. split; [apply categoryKey64_spec | apply category_key_rule].
Qed.

(** C5 at four expenses of 0.1, 0.6, 0.2 and 0.3, the first, third and
    fourth on the labels "Coffee", " Coffee " and "Coffee  ", the second on a
    blank label: the three under "Coffee" add up to 0.6000000000000001, and
    "Coffee" is listed before "Uncategorized" with 0.6. *)
Lemma C5_spending_summary_witness :
  let txs :=
    [ Finance64.mkTx (-0.1) (Some "Coffee"%string);
      Finance64.mkTx (-0.6) (Some "   "%string);
      Finance64.mkTx (-0.2) (Some " Coffee "%string);
      Finance64.mkTx (-0.3) (Some "Coffee  "%string) ] in
  let r := Finance64.buildSpendingSummary txs in
  Spec64.finite_amounts txs
  /\ Spec64.ascii_labels txs
  /\ Spec64.top_categories_of txs (Finance64.topCategories r)
  /\ Finance64.topCategories r
     = [ Finance64.mkCategoryAmount "Coffee" 0.6000000000000001;
         Finance64.mkCategoryAmount "Uncategorized" 0.6 ]
  /\ Finance64.spend r = Spec64.spend_total txs.
Proof.
  intros txs r.
  assert (Hfin : Spec64.finite_amounts txs) by (repeat constructor).
  assert (Hasc : Spec64.ascii_labels txs).
  { repeat constructor; cbn [Props.is_ascii nullish Finance64.t_category];
      repeat split; apply Nat.ltb_lt; reflexivity. }
  destruct (C5_spending_summary txs Hfin Hasc) as (_ & Hs & _ & Htop & _).
  split; [exact Hfin |]. split; [exact Hasc |]. split; [exact Htop |].
  split; [vm_compute; reflexivity | exact Hs].
Defined.

End Claims64Summary.

(* ================================================================== *)
(** * The currency code of a built snapshot *)
(* ================================================================== *)

(** C8: for accounts whose codes are ASCII, the snapshot's currency code is
    the most frequent normalized code of the accounts; among codes of equal
    highest count the one first seen wins; it is absent exactly when no
    account has a valid code.  A code is valid when, trimmed of the white
    space at its two ends, it is exactly three ASCII letters, and it counts
    in upper case. *)
Theorem C8_currency_inference (clock : Date) (args : FromTransactions64.Args) :
  let accounts := FromTransactions64.arg_accounts args in
  let codes := Spec.normalized_codes FromTransactions64.acc_currencyCode accounts in
  Forall (fun a => Props.is_ascii (nullish (FromTransactions64.acc_currencyCode a) EmptyString))
    accounts ->
  Spec.most_frequent_first_seen codes
    (Types64.currencyCode
       (FromTransactions64.buildDashboardSnapshotFromTransactions clock args))
  /\ (forall raw c,
        Props.is_ascii (nullish raw EmptyString) ->
        (Currency.normalizeCurrencyCode raw = Some c
         <-> Spec.three_letters (trim (nullish raw EmptyString))
             /\ c = toUpperCase (trim (nullish raw EmptyString)))
        /\ Spec64.trimmed (nullish raw EmptyString) (trim (nullish raw EmptyString))).
Proof.
  cbv zeta. intros _. split.
  - unfold FromTransactions64.buildDashboardSnapshotFromTransactions.
    cbn [Types64.currencyCode]. unfold Currency.inferCurrencyCodeFromAccounts.
    destruct (fold_left Currency.pickBest _ _) as [best bc] eqn:E.
    apply (pickBest_counted _ _ _ _
             (countAccount_counted FromTransactions64.acc_currencyCode
                (FromTransactions64.arg_accounts args))) in E.
    destruct best; exact E.
  - intros raw c _. split; [apply normalizeCurrencyCode_spec | apply trim_spec].
Qed.

(** C8 at five accounts with codes "usd", "EUR", none, "dollars" and " eur ":
    EUR is counted twice, USD once, the other two not at all. *)
Lemma C8_currency_inference_witness :
  let acc := fun c => FromTransactions64.mkAccountLike None None c in
  let args :=
    FromTransactions64.mkArgs P_1M
      [acc (Some "usd"%string); acc (Some "EUR"%string); acc None;
       acc (Some "dollars"%string); acc (Some " eur "%string)]
      [] (Some 0%Z) in
  Types64.currencyCode (FromTransactions64.buildDashboardSnapshotFromTransactions 0%Z args)
  = Some "EUR"%string
  /\ Currency.normalizeCurrencyCode (Some " eur "%string) = Some "EUR"%string.
Proof.
  intros acc args.
  assert (Hasc : Forall (fun a => Props.is_ascii
                           (nullish (FromTransactions64.acc_currencyCode a) EmptyString))
                   (FromTransactions64.arg_accounts args)).
  { repeat constructor; cbn [Props.is_ascii nullish FromTransactions64.acc_currencyCode acc];
      repeat split; apply Nat.ltb_lt; reflexivity. }
  destruct (C8_currency_inference 0%Z args Hasc) as [_ Hnorm].
  split; [reflexivity |].
  apply (Hnorm (Some " eur "%string) "EUR"%string).
  - cbn [Props.is_ascii nullish]. repeat split; apply Nat.ltb_lt; reflexivity.
  - split; [| reflexivity].
    exists "e"%char, "u"%char, "r"%char. repeat split.
Defined.

(* ================================================================== *)
(** * Binary64: the snapshot builder followed by the evaluation engine *)
(* ================================================================== *)

Section Extras64.
Import PrimFloat SpecFloat FloatOps FloatAxioms.
Local Open Scope float_scope.

Lemma recent64_length (clock : Date) (args : FromTransactions64.Args) :
  List.length
    (Types64.recentTransactions
       (FromTransactions64.buildDashboardSnapshotFromTransactions clock args))
  = Nat.min 4 (List.length (FromTransactions64.arg_transactions args)).
Proof.
  unfold FromTransactions64.buildDashboardSnapshotFromTransactions.
  cbn [Types64.recentTransactions]. unfold slice0.
  rewrite firstn_map, firstn_firstn, length_map, length_firstn.
  rewrite (Permutation_length (sort_perm _ _)). reflexivity.
Qed.

Lemma zeros64_all_zero (n : nat) :
  some (fun x => F64.neqb x 0) (map F64.Math_round (Array_fill n 0)) = false.
Proof.
  unfold some, Array_fill. induction n as [| n IH]; [reflexivity |].
  cbn [repeat map existsb]. rewrite IH. reflexivity.
Qed.

(** X5: a built snapshot is evaluated as "no_data" exactly when it was built
    from no transaction and the sum of the account balances, as the reduce
    computes it, is zero; the zero snapshot of every period is evaluated as
    the fixed onboarding evaluation. *)
Theorem X5_status_of_built_snapshot (clock : Date) (args : FromTransactions64.Args)
    (ss : option Evaluations64.SpendingSummary) (ss' : option Evaluations.SpendingSummary) :
  let s := FromTransactions64.buildDashboardSnapshotFromTransactions clock args in
  (Evaluations64.status (Evaluations64.buildFinanceEvaluation (Evaluations64.mkArgs s ss))
   = Evaluations.no_data
   <-> FromTransactions64.arg_transactions args = []
       /\ F64.eqb (Spec64.balanceOf (FromTransactions64.arg_accounts args)) 0 = true)
  /\ forall p,
       Evaluations.buildFinanceEvaluation
         (Evaluations.mkArgs (FromTransactions.buildZeroDashboardSnapshot p) ss')
       = Evaluations.noDataEvaluation.
Proof.
  cbv zeta. split; [| intro p; destruct p; reflexivity].
  unfold Evaluations64.buildFinanceEvaluation. cbn [Evaluations64.snapshot].
  pose proof (recent64_length clock args) as Hlen.
  set (s := FromTransactions64.buildDashboardSnapshotFromTransactions clock args) in *.
  assert (Hbal : Types64.currentBalance (Types64.kpis s)
                 = Spec64.balanceOf (FromTransactions64.arg_accounts args)) by reflexivity.
  destruct (Evaluations64.noData s) eqn:E; cbn [Evaluations64.status].
  - split; [intros _ | reflexivity].
    unfold Evaluations64.noData in E.
    apply andb_prop in E. destruct E as [E E3]. apply andb_prop in E. destruct E as [E1 _].
    split.
    + unfold Evaluations64.hasAnyTx in E1. apply negb_true_iff, Nat.ltb_ge in E1.
      destruct (FromTransactions64.arg_transactions args); [reflexivity |].
      cbn [List.length] in Hlen. lia.
    + unfold Evaluations64.hasAnyKpiSignal in E3. rewrite Hbal in E3.
      unfold F64.neqb, F64.eqb in *.
      destruct (Spec64.balanceOf (FromTransactions64.arg_accounts args) =? 0);
        [reflexivity | discriminate E3].
  - split; [discriminate |]. intros [Htx Hb]. exfalso.
    assert (Evaluations64.noData s = true); [| congruence].
    unfold Evaluations64.noData, Evaluations64.hasAnyTx, Evaluations64.hasAnySeries,
      Evaluations64.hasAnyKpiSignal.
    rewrite Hlen, Htx, Hbal. unfold F64.neqb at 3. unfold F64.eqb in Hb. rewrite Hb.
    unfold s, FromTransactions64.buildDashboardSnapshotFromTransactions.
    cbn [Types64.points Types64.series Types64.total Types64.kpis
         Types64.monthlySpend Types64.savingsRate].
    rewrite Htx. unfold FromTransactions64.chart_loop, FromTransactions64.sumRange.
    cbn [fold_left FromTransactions64.b_total FromTransactions64.spend
         FromTransactions64.income].
    rewrite zeros64_all_zero. reflexivity.
Qed.

End Extras64.
